(** * Coder Mind master API: article life cycle, comment threads, comment
    settings and the monthly comment statistics job.

    A shallow embedding of [src/api/articles/articles.js],
    [src/api/articles/comments/settings.js] and of the comments module
    (the JavaScript that follows the README text in [src/README.md]), with
    the properties of the specification stated and settled over it.

    Conventions of the embedding:
    - a MongoDB collection is a finite map from the document [_id] to the
      document ([gmap]); a collection whose documents are listed in order
      (comments) and a SQL table are lists of rows;
    - an [async] function that may [throw] returns a [Result]; a request
      handler catches, so it returns its response and the next store;
    - the clock ([MyDate.setTimeZone('-3')], [Date.now()], [new Date()]) and
      generated values ([articleData.defaultUri()]) are arguments. *)

From stdpp Require Import gmap strings list fin_maps pretty sorting.
From Stdlib Require Import Ascii ZArith Lia.

(* stdpp's solvers clear hypotheses that may already be gone. *)
#[local] Set Warnings "-clear-no-such-hyp".

(** ** Runtime values shared by the modules *)

(** The hexadecimal text of a MongoDB ObjectId. *)
Abbreviation ObjectId := string (only parsing).

(** A point in time, in milliseconds since the epoch. *)
Abbreviation Date := Z (only parsing).

(** What a [try] block can catch: an object literal thrown by the code
    ([throw { name, description }]), the runtime's TypeError on reading a
    property of [null] or [undefined], or the CastError with which
    mongoose rejects a query or an update whose value cannot be cast to
    the kind of its path. *)
Inductive Error :=
| Thrown (name description : string)
| TypeError (message : string)
| CastError (kind value : string).

Inductive Result (A : Type) :=
| Ok (a : A)
| Err (e : Error).
Arguments Ok {A} a.
Arguments Err {A} e.

#[global] Instance Result_ret : MRet Result := @Ok.
#[global] Instance Result_bind : MBind Result :=
  λ A B f m, match m with Ok a => f a | Err e => Err e end.

(** [if (c) throw e] *)
Definition throwIf (c : bool) (e : Error) : Result unit :=
  if c then Err e else Ok tt.

(** The authenticated user carried by the request ([req.user.user]). *)
Record User := {
  u_id : string;
  tagAdmin : bool;
  tagAuthor : bool;
  u_name : string;
  u_email : string
}.

(** A document of the [users] collection, with the one field the code
    filters on. *)
Record Account := { deletedAt : option Date }.

(** ** Articles ([src/api/articles/articles.js]) *)
Module Articles.

(** A document of the [articles] collection, with the fields the code
    reads or writes. [userId] is the owner as articles.js stores it;
    [author] is the field the comment pipelines join on
    (['article.author']), which articles.js never writes. *)
Record Article := {
  title : string;
  userId : ObjectId;
  author : option ObjectId;
  state : string;
  themeId : option ObjectId;
  categoryId : option ObjectId;
  customUri : string;
  description : option string;
  content : option string;
  logoImg : option string;
  secondaryImg : option string;
  headerImg : option string;
  publishedAt : option Date;
  boostedAt : option Date;
  inactivatedAt : option Date;
  removedAt : option Date
}.

Record Theme := { t_state : string }.
Record Category := { cat_state : string; cat_themeId : ObjectId }.

Abbreviation Collection := (gmap ObjectId Article) (only parsing).

(** The body of a response is not needed by any property below: a handler
    either sends a status code or sends [articleError(error)] for the
    error it caught. *)
Inductive Response :=
| Sent (code : Z)
| Failed (e : Error).

(** *** Field updates *)

Definition set_state (s : string) (a : Article) : Article :=
  {| title := title a; userId := userId a; author := author a; state := s;
     themeId := themeId a; categoryId := categoryId a;
     customUri := customUri a; description := description a;
     content := content a; logoImg := logoImg a;
     secondaryImg := secondaryImg a; headerImg := headerImg a;
     publishedAt := publishedAt a; boostedAt := boostedAt a;
     inactivatedAt := inactivatedAt a; removedAt := removedAt a |}.

Definition set_customUri (u : string) (a : Article) : Article :=
  {| title := title a; userId := userId a; author := author a;
     state := state a; themeId := themeId a; categoryId := categoryId a;
     customUri := u; description := description a;
     content := content a; logoImg := logoImg a;
     secondaryImg := secondaryImg a; headerImg := headerImg a;
     publishedAt := publishedAt a; boostedAt := boostedAt a;
     inactivatedAt := inactivatedAt a; removedAt := removedAt a |}.

(** [article[key]] for the timestamp keys. *)
Definition get_timestamp (key : string) (a : Article) : option Date :=
  if decide (key = "publishedAt") then publishedAt a
  else if decide (key = "boostedAt") then boostedAt a
  else if decide (key = "inactivatedAt") then inactivatedAt a
  else if decide (key = "removedAt") then removedAt a
  else None.

(** [{ [key]: v }] applied by [updateOne], for the timestamp keys. *)
Definition set_timestamp (key : string) (v : option Date) (a : Article) : Article :=
  {| title := title a; userId := userId a; author := author a;
     state := state a; themeId := themeId a; categoryId := categoryId a;
     customUri := customUri a; description := description a;
     content := content a; logoImg := logoImg a;
     secondaryImg := secondaryImg a; headerImg := headerImg a;
     publishedAt := if decide (key = "publishedAt") then v else publishedAt a;
     boostedAt := if decide (key = "boostedAt") then v else boostedAt a;
     inactivatedAt := if decide (key = "inactivatedAt") then v else inactivatedAt a;
     removedAt := if decide (key = "removedAt") then v else removedAt a |}.

(** *** Queries of the document store *)

(** [Article.findOne({ _id: id })] *)
Definition findOne (id : ObjectId) (db : Collection) : option Article :=
  db !! id.

(** [Article.updateOne({ _id: id }, update)] *)
Definition updateOne (id : ObjectId) (update : Article → Article)
    (db : Collection) : Collection :=
  alter update id db.

(** [Article.countDocuments({ userId, state })] *)
Definition countDocuments (uid : ObjectId) (s : string) (db : Collection) : nat :=
  size (filter (λ ka, userId ka.2 = uid ∧ state ka.2 = s) db).

(** [Article.find({ _id: { $in: ids } }, { state: 1, _id: 1 })]: the
    projection keeps the id and the state. *)
Definition find_in (ids : list string) (db : Collection) : list (ObjectId * string) :=
  (λ ka, (ka.1, state ka.2)) <$> map_to_list (filter (λ ka, ka.1 ∈ ids) db).

(** [Article.updateMany({ _id: { $in: ids }, userId: uid }, { state })] *)
Definition updateMany (ids : list ObjectId) (uid : ObjectId) (s : string)
    (db : Collection) : Collection :=
  map_imap (λ k a,
    Some (if decide (k ∈ ids ∧ userId a = uid) then set_state s a else a)) db.

(** *** validateFields and save *)

(** The request body of [save], over the fields of the article that
    articles.js names: [None] is a property the body does not have,
    [Some ""] a text property that is present and falsy. A state timestamp
    of the body is [Some None] for [null] and [Some (Some d)] for a date.
    The body is taken as plain fields: an update operator ([$set], ...),
    which [updateOne] would apply as it is, is not a property of it. *)
Record ArticleBody := {
  b_title : option string;
  b_customUri : option string;
  b_themeId : option string;
  b_categoryId : option string;
  b_description : option string;
  b_content : option string;
  b_userId : option string;
  b_state : option string;
  b_logoImg : option string;
  b_secondaryImg : option string;
  b_headerImg : option string;
  b_publishedAt : option (option Date);
  b_boostedAt : option (option Date);
  b_inactivatedAt : option (option Date);
  b_removedAt : option (option Date)
}.

(** [hasOwnProperty(key) && !value] *)
Definition present_and_falsy (v : option string) : bool :=
  match v with
  | Some s => bool_decide (s = "")
  | None => false
  end.

(** Truth value of an optional string property. *)
Definition truthy (v : option string) : bool :=
  match v with
  | Some s => bool_decide (s ≠ "")
  | None => false
  end.

(** [s.replace(/ /g, '')] *)
Fixpoint remove_spaces (s : string) : string :=
  match s with
  | EmptyString => EmptyString
  | String c rest =>
    if decide (c = " "%char) then remove_spaces rest
    else String c (remove_spaces rest)
  end.

(** [Theme.findOne({ _id, state: 'active' })] and the same for
    categories. *)
Definition findActiveTheme (id : ObjectId) (themes : gmap ObjectId Theme) : option Theme :=
  match themes !! id with
  | Some t => if decide (t_state t = "active") then Some t else None
  | None => None
  end.

Definition findActiveCategory (id : ObjectId)
    (categories : gmap ObjectId Category) : option Category :=
  match categories !! id with
  | Some c => if decide (cat_state c = "active") then Some c else None
  | None => None
  end.

(** Mongoose casts the value given for an ObjectId path, in a query as in
    an update document, and rejects the call with a CastError when the
    value is not the text of an ObjectId. *)
Definition castObjectId (isValid : string → bool) (value : string) : Result unit :=
  throwIf (negb (isValid value)) (CastError "ObjectId" value).

Definition validateFields (isValid : string → bool) (article : ArticleBody)
    (id : string) (user : User)
    (db : Collection) (themes : gmap ObjectId Theme)
    (categories : gmap ObjectId Category) : Result ArticleBody :=
  throwIf (present_and_falsy (b_title article))
    (Thrown "title" "É necessário incluir um titulo ao artigo");;
  throwIf (present_and_falsy (b_customUri article))
    (Thrown "customUri" "É necessário incluir um endereço personalizado válido");;
  castObjectId isValid id;;
  match findOne id db with
  | None =>
    (* [currentArticle.userId] with [currentArticle] null *)
    Err (TypeError "Cannot read property 'userId' of null")
  | Some currentArticle =>
    throwIf (bool_decide (u_id user ≠ userId currentArticle))
      (Thrown "forbidden" "Não é possível alterar o artigo de outro autor");;
    (if truthy (b_themeId article) then
       castObjectId isValid (default "" (b_themeId article));;
       match findActiveTheme (default "" (b_themeId article)) themes with
       | None => Err (Thrown "themeId" "Tema não encontrado")
       | Some _ => Ok tt
       end
     else Ok tt);;
    (if truthy (b_categoryId article) then
       throwIf (negb (bool_decide (is_Some (themeId currentArticle)))
                && negb (truthy (b_themeId article)))
         (Thrown "categoryId"
            "É necessário adicionar um tema antes de incluir uma categoria");;
       castObjectId isValid (default "" (b_categoryId article));;
       match findActiveCategory (default "" (b_categoryId article)) categories with
       | None => Err (Thrown "categoryId" "Categoria não encontrada")
       | Some category =>
         match findActiveTheme (cat_themeId category) themes with
         | None =>
           Err (Thrown "categoryId" "Esta categoria possui o tema associado desativado")
         | Some _ =>
           throwIf (truthy (b_themeId article)
                    && bool_decide (Some (cat_themeId category) ≠ b_themeId article))
             (Thrown "themeId" "Este tema não esta associado a categoria informada")
         end
       end
     else Ok tt);;
    Ok {| b_title := b_title article;
          b_customUri :=
            if truthy (b_customUri article)
            then remove_spaces <$> b_customUri article
            else b_customUri article;
          b_themeId := b_themeId article;
          b_categoryId := b_categoryId article;
          b_description := b_description article;
          b_content := b_content article;
          b_userId := None;
          b_state := None;
          b_logoImg := None;
          b_secondaryImg := None;
          b_headerImg := None;
          b_publishedAt := b_publishedAt article;
          b_boostedAt := b_boostedAt article;
          b_inactivatedAt := b_inactivatedAt article;
          b_removedAt := b_removedAt article |}
  end.

(** The cast of the update document: [themeId] and [categoryId] are the
    ObjectId paths a body can still carry. A value that passed the checks
    of [validateFields] is well formed, so only a falsy one can fail
    here. *)
Definition cast_update (isValid : string → bool) (b : ArticleBody) : Result unit :=
  match b_themeId b with
  | Some t => castObjectId isValid t
  | None => Ok tt
  end;;
  match b_categoryId b with
  | Some c => castObjectId isValid c
  | None => Ok tt
  end.

(** The update document of [Article.updateOne({ _id: id }, article)]:
    every property the body still has replaces the stored field, the
    state timestamps included. *)
Definition apply_body (b : ArticleBody) (a : Article) : Article :=
  {| title := default (title a) (b_title b);
     userId := default (userId a) (b_userId b);
     author := author a;
     state := default (state a) (b_state b);
     themeId := match b_themeId b with Some t => Some t | None => themeId a end;
     categoryId := match b_categoryId b with Some c => Some c | None => categoryId a end;
     customUri := default (customUri a) (b_customUri b);
     description := match b_description b with Some d => Some d | None => description a end;
     content := match b_content b with Some c => Some c | None => content a end;
     logoImg := match b_logoImg b with Some i => Some i | None => logoImg a end;
     secondaryImg := match b_secondaryImg b with Some i => Some i | None => secondaryImg a end;
     headerImg := match b_headerImg b with Some i => Some i | None => headerImg a end;
     publishedAt := default (publishedAt a) (b_publishedAt b);
     boostedAt := default (boostedAt a) (b_boostedAt b);
     inactivatedAt := default (inactivatedAt a) (b_inactivatedAt b);
     removedAt := default (removedAt a) (b_removedAt b) |}.

Definition save (isValid : string → bool) (id : string) (user : User)
    (body : ArticleBody)
    (db : Collection) (themes : gmap ObjectId Theme)
    (categories : gmap ObjectId Category) : Response * Collection :=
  match validateFields isValid body id user db themes categories with
  | Err e => (Failed e, db)
  | Ok article =>
    match cast_update isValid article with
    | Err e => (Failed e, db)
    | Ok _ => (Sent 204, updateOne id (apply_body article) db)
    end
  end.

(** *** remove *)

(** [user._id !== article.userId] in [remove] compares a string with the
    ObjectId object of the document, without [toString()]: strict
    inequality of a string and an object holds whatever they contain. *)
Definition string_strict_neq_object (s : string) (o : ObjectId) : bool := true.

Definition remove (now : Date) (defaultUri : string) (id : string)
    (user : User) (db : Collection) : Response * Collection :=
  match findOne id db with
  | None => (Failed (Thrown "id" "Artigo não encontrado"), db)
  | Some article =>
    if negb (tagAdmin user) && string_strict_neq_object (u_id user) (userId article)
    then (Failed (Thrown "forbidden" "Acesso não autorizado"), db)
    else if bool_decide (state article = "removed")
    then (Failed (Thrown "state" "Este artigo já foi removido"), db)
    else
      (Sent 204,
       updateOne id
         (λ a, set_customUri defaultUri
                 (set_timestamp "removedAt" (Some now) (set_state "removed" a)))
         db)
  end.

(** *** changeState *)

Definition checkValidStates (wanted : string) (includingRemove : bool) : Result unit :=
  let validStates :=
    ["boosted"; "inactivated"; "published"]
    ++ (if includingRemove then ["removed"] else []) in
  match list_find (λ currentState, wanted = currentState) validStates with
  | Some _ => Ok tt
  | None => Err (Thrown "state" "Estado inválido")
  end.

Definition validateState (id : string) (user : User) (wanted : string)
    (db : Collection) : Result (Article * string) :=
  throwIf (bool_decide (wanted = "removed"))
    (Thrown "state" "Para remover o artigo, utilize o método DELETE");;
  checkValidStates wanted false;;
  match findOne id db with
  | None => Err (Thrown "id" "Artigo não encontrado")
  | Some article =>
    throwIf (negb (tagAdmin user) && bool_decide (u_id user ≠ userId article))
      (Thrown "forbidden" "Acesso não autorizado");;
    throwIf (bool_decide (state article = wanted))
      (Thrown "state" "Este artigo já possui este estado aplicado");;
    (if tagAuthor user then
       let countBoostedArticles := countDocuments (u_id user) "boosted" db in
       throwIf (bool_decide (1 < countBoostedArticles))
         (Thrown "state" "Limite de artigos impulsionados atingido")
     else Ok tt);;
    let stateTimestamp := wanted +:+ "At" in
    Ok (article, stateTimestamp)
  end.

Definition changeState (now : Date) (id : string) (user : User)
    (wanted : string) (db : Collection) : Response * Collection :=
  match validateState id user wanted db with
  | Err e => (Failed e, db)
  | Ok (article, stateTimestamp) =>
    let stamp :=
      match get_timestamp stateTimestamp article with
      | None => now
      | Some t => t
      end in
    (Sent 204,
     updateOne id (λ a, set_timestamp stateTimestamp (Some stamp) (set_state wanted a)) db)
  end.

(** *** changeStates *)

Section Bulk.
(** [app.mongo.Types.ObjectId.isValid], the driver's test of well-formed
    ids. *)
Context (isValid : string → bool).

(** [articlesId] is [None] when the request body has no such property
    (the source reports [typeof articlesId], here [undefined]). The acting
    user is an authenticated account, so the casts [ObjectId(user._id)]
    succeed. *)
Definition checkArticlesForMultipleChanges (user : User)
    (articlesId : option (list string)) (wanted : string)
    (db : Collection) : Result (list ObjectId) :=
  checkValidStates wanted true;;
  match articlesId with
  | None =>
    Err (Thrown "articlesId" "O tipo de articlesId é undefined, esperado um Array")
  | Some ids =>
    throwIf (bool_decide (length ids = 0))
      (Thrown "articlesId" "É necessário informar identificadores de artigos");;
    match list_find (λ id, isValid id = false) ids with
    | Some (index, _) =>
      Err (Thrown "articlesId"
             ("É necessário informar identificadores válidos, o valor do índice "
              +:+ pretty index +:+ " é um identificador inválido"))
    | None => Ok tt
    end;;
    (if negb (tagAdmin user) then
       let boostedArticles := countDocuments (u_id user) "boosted" db in
       throwIf (bool_decide (wanted = "boosted")
                && (bool_decide (1 ≤ boostedArticles)
                    || bool_decide (1 < length ids)))
         (Thrown "articlesId"
            "Não é possível impulsionar mais de um artigo no perfil atual")
     else Ok tt);;
    let articles := find_in ids db in
    let articlesToChange :=
      if decide (wanted = "published") then
        filter (λ article, article.2 = "inactivated" ∨ article.2 = "draft") articles
      else if decide (wanted = "boosted") then
        filter (λ article, article.2 = "published") articles
      else if decide (wanted = "inactivated") then
        filter (λ article, article.2 = "published" ∨ article.2 = "boosted") articles
      else if decide (wanted = "removed") then
        filter (λ article, article.2 = "draft") articles
      else [] in
    Ok (articlesToChange.*1)
  end.

Definition changeStates (user : User) (articlesId : option (list string))
    (wanted : string) (db : Collection) : Response * Collection :=
  match checkArticlesForMultipleChanges user articlesId wanted db with
  | Err e => (Failed e, db)
  | Ok articlesToChange =>
    (Sent 204, updateMany articlesToChange (u_id user) wanted db)
  end.
End Bulk.

End Articles.

(** ** Comments (the comments module, in [src/README.md]) *)
Module Comments.

(** A document of the [comments] collection. *)
Record Comment := {
  c_id : ObjectId;
  articleId : ObjectId;
  answerOf : option ObjectId;
  userName : string;
  userEmail : string;
  message : string;
  confirmedAt : option Date;
  readedAt : option Date;
  createdAt : Date;
  updatedAt : Date
}.

(** The [article] object of a listed comment: every property is missing
    when the join finds no article. [av_author] is ['article.author._id'],
    the id of the joined user. *)
Record ArticleView := {
  av_id : option ObjectId;
  av_title : option string;
  av_author : option ObjectId
}.

(** A comment as the listing pipelines project it: the comment, the
    comment it answers (joined), its article, and for [getOne] its
    answers. *)
Record CommentView := {
  v_comment : Comment;
  v_answerOf : option Comment;
  v_article : ArticleView;
  v_answers : list Comment
}.

(** What the [get...Comments] functions return. *)
Record Listing := {
  comments : list CommentView;
  status : bool;
  count : nat;
  limit : Z
}.

(** A row of the SQL table [comments] of monthly counts. *)
Record StatRecord := {
  month : Z;
  year : Z;
  s_count : nat;
  reference : option ObjectId
}.

(** A message handed to [sendEmail(template, { comment, answer })]. *)
Record Email := {
  template : string;
  payload_comment : CommentView;
  payload_answer : Comment
}.

Inductive Response :=
| Sent (code : Z) (body : option Comment)
| Failed (e : Error).

(** [.skip(page * limit - limit).limit(limit)]: the store refuses a
    negative skip and a limit that is not positive, and the aggregate then
    throws. *)
Definition paginate {A} (page limit : Z) (rows : list A) : option (list A) :=
  let skip := (page * limit - limit)%Z in
  if decide (0 ≤ skip ∧ 0 < limit)%Z
  then Some (take (Z.to_nat limit) (drop (Z.to_nat skip) rows))
  else None.

(** [{ $sort: { createdAt: -1 } }] *)
Definition newer_or_same (v w : CommentView) : Prop :=
  (createdAt (v_comment w) ≤ createdAt (v_comment v))%Z.

#[global] Instance newer_or_same_dec : RelDecision newer_or_same.
Proof. intros v w. unfold newer_or_same. apply _. Defined.

Definition sort_newest_first (rows : list CommentView) : list CommentView :=
  merge_sort newer_or_same rows.

(** [new Date(year, monthIndex, day)], taken in UTC: the day count of the
    civil calendar, linear in [day], so that a day past the end of the
    month runs into the next one. *)
Definition days_from_civil (y m d : Z) : Z :=
  let y' := if decide (m ≤ 2)%Z then (y - 1)%Z else y in
  let era := (y' `div` 400)%Z in
  let yoe := (y' - era * 400)%Z in
  let mp := ((m + 9) `mod` 12)%Z in
  let doy := ((153 * mp + 2) `div` 5 + d - 1)%Z in
  let doe := (yoe * 365 + yoe `div` 4 - yoe `div` 100 + doy)%Z in
  (era * 146097 + doe - 719468)%Z.

Definition msPerDay : Z := 86400000.

Definition new_Date (year monthIndex day : Z) : Date :=
  (days_from_civil year (monthIndex + 1) day * msPerDay)%Z.

(** Inserts that are started without being awaited reach the table in
    the order in which they complete, which the code does not fix.
    [schedule] names, step by step, which of the pending inserts completes
    next (its position among those still pending, modulo their number);
    when the schedule ends, the rest completes in the order it was
    started. *)
Fixpoint settle {A} (schedule : list nat) (pending : list A) : list A :=
  match schedule with
  | [] => pending
  | n :: schedule' =>
    match pending !! (n `mod` length pending) with
    | Some row => row :: settle schedule' (delete (n `mod` length pending) pending)
    | None => pending
    end
  end.

Section Store.
Context (isValid : string → bool).
Context (articles : gmap ObjectId Articles.Article).
Context (users : gmap ObjectId Account).

(** [$lookup] of the article by [articleId], first element. *)
Definition article_of (c : Comment) : option Articles.Article :=
  articles !! articleId c.

(** [$lookup] of the user by ['article.author'], first element, and the
    path ['article.author._id'] of the result. *)
Definition author_id_of (c : Comment) : option ObjectId :=
  a ← article_of c; u ← Articles.author a; _ ← users !! u; Some u.

(** [isValid(user._id) ? ObjectId(user._id) : null]; a query for [null]
    matches a missing or null field. *)
Definition author_query (user : User) : option ObjectId :=
  if isValid (u_id user) then Some (u_id user) else None.

(** *** The count pipelines: they match on the stored [answerOf]. *)

Definition countAll (user : User) (docs : list Comment) : nat :=
  length (filter (λ c, author_id_of c = author_query user
                       ∧ answerOf c = None) docs).

Definition countNotReaded (user : User) (docs : list Comment) : nat :=
  length (filter (λ c, author_id_of c = author_query user
                       ∧ answerOf c = None
                       ∧ readedAt c = None) docs).

Definition countOnlyReaded (user : User) (docs : list Comment) : nat :=
  length (filter (λ c, author_id_of c = author_query user
                       ∧ answerOf c = None
                       ∧ readedAt c ≠ None) docs).

(** *** The listing pipelines: they first replace [answerOf] by the
    comment it refers to, and match on that. *)

Definition lookup_comment (id : ObjectId) (docs : list Comment) : option Comment :=
  snd <$> list_find (λ p, c_id p = id) docs.

Definition view (docs : list Comment) (c : Comment) : CommentView :=
  {| v_comment := c;
     v_answerOf := r ← answerOf c; lookup_comment r docs;
     v_article :=
       {| av_id := _ ← article_of c; Some (articleId c);
          av_title := Articles.title <$> article_of c;
          av_author := author_id_of c |};
     v_answers := [] |}.

Definition rowsAll (user : User) (docs : list Comment) : list CommentView :=
  sort_newest_first
    (filter (λ v, av_author (v_article v) = author_query user
                  ∧ v_answerOf v = None) (view docs <$> docs)).

Definition rowsNotReaded (user : User) (docs : list Comment) : list CommentView :=
  sort_newest_first
    (filter (λ v, av_author (v_article v) = author_query user
                  ∧ v_answerOf v = None
                  ∧ readedAt (v_comment v) = None) (view docs <$> docs)).

Definition rowsOnlyReaded (user : User) (docs : list Comment) : list CommentView :=
  sort_newest_first
    (filter (λ v, av_author (v_article v) = author_query user
                  ∧ v_answerOf v = None
                  ∧ readedAt (v_comment v) ≠ None) (view docs <$> docs)).

(** The [try] of each function: the count is computed first, and an
    aggregate that throws gives [{ status: false, count: 0, limit }]. *)
Definition listing (total : nat) (rows : list CommentView) (page limit : Z) : Listing :=
  match paginate page limit rows with
  | Some shown => {| comments := shown; status := true; count := total; limit := limit |}
  | None => {| comments := []; status := false; count := 0; limit := limit |}
  end.

Definition getNotReadedComments (user : User) (page limit : Z)
    (docs : list Comment) : Listing :=
  listing (countNotReaded user docs) (rowsNotReaded user docs) page limit.

Definition getOnlyReadedComments (user : User) (page limit : Z)
    (docs : list Comment) : Listing :=
  listing (countOnlyReaded user docs) (rowsOnlyReaded user docs) page limit.

Definition getAllComments (user : User) (page limit : Z)
    (docs : list Comment) : Listing :=
  listing (countAll user docs) (rowsAll user docs) page limit.

(** [get]: [page] and [limit] are what [parseInt] made of the query
    ([None] for NaN); the result is the listing, or the error thrown. *)
Definition get (user : User) (type : string) (page limit : option Z)
    (docs : list Comment) : Result Listing :=
  let page := match page with Some p => if decide (p = 0%Z) then 1%Z else p | None => 1%Z end in
  let limit := match limit with Some l => if decide (l = 0%Z) then 10%Z else l | None => 10%Z end in
  let result :=
    if decide (type = "all") then Some (getAllComments user page limit docs)
    else if decide (type = "not-readed") then Some (getNotReadedComments user page limit docs)
    else if decide (type = "only-readed") then Some (getOnlyReadedComments user page limit docs)
    else None in
  match result with
  | None => Err (Thrown "type" "Tipo de comentário inválido")
  | Some result =>
    if status result then Ok result
    else Err (Thrown "internal-error" "Ocorreu um erro interno, se persistir reporte")
  end.

(** *** getOne and answerComment *)

(** The result of [getOne]: [{ comment, status: true }] with [comment]
    undefined when the pipeline yields nothing, or
    [{ status: false, error }]. *)
Definition getOne (id : string) (docs : list Comment) : Result (option CommentView) :=
  throwIf (negb (isValid id)) (Thrown "_id" "Identificador inválido");;
  let matched :=
    filter (λ v, c_id (v_comment v) = id ∧ v_answerOf v = None) (view docs <$> docs) in
  let with_answers :=
    (λ v, {| v_comment := v_comment v; v_answerOf := v_answerOf v;
             v_article := v_article v;
             v_answers := filter (λ a, answerOf a = Some (c_id (v_comment v))) docs |})
    <$> matched in
  Ok (head with_answers).

(** Modelled from the spec: [validateLength] of [app.config.validation]
    is not under src; the specification has the answer message of at
    most 10,000 characters, otherwise the given error is thrown. *)
Definition validateLength (value : string) (max : Z) (e : Error) : Result unit :=
  throwIf (bool_decide (max < Z.of_nat (String.length value))%Z) e.

(** The callback given to [comment.save().then(...)]: it may send the
    notification and has no [return], so the promise it settles holds
    [undefined]. *)
Definition after_save (sendNotification : string) (root : CommentView)
    (newAnswer : Comment) (outbox : list Email) : list Email * option Comment :=
  (if decide (sendNotification = "yes")
   then outbox ++ [{| template := "answer-sent"; payload_comment := root;
                      payload_answer := newAnswer |}]
   else outbox,
   None).

(** [answerComment]: [notify] is the query parameter ([None] when it is
    absent); [newId] and [now] are the id and the timestamps the store
    gives the new document. *)
Definition answerComment (newId : ObjectId) (now : Date) (answerOfId : string)
    (user : User) (answer : string) (notify : option string)
    (docs : list Comment) (outbox : list Email)
    : Response * list Comment * list Email :=
  let sendNotification :=
    match notify with
    | Some n => if decide (n = "") then "no" else n
    | None => "no"
    end in
  let checked :=
    validateLength answer 10000
      (Thrown "answer" "Para o comentário é somente permitido 10000 caracteres");;
    match getOne answerOfId docs with
    | Err _ => Err (Thrown "answerOf" "Comentário não encontrado")
    | Ok None =>
      (* [root.comment.article] with [root.comment] undefined *)
      Err (TypeError "Cannot read property 'article' of undefined")
    | Ok (Some root) =>
      match av_id (v_article root) with
      | None => Err (Thrown "answerOf" "Comentário não encontrado")
      | Some articleId => Ok (root, articleId)
      end
    end in
  match checked with
  | Err e => (Failed e, docs, outbox)
  | Ok (root, articleId) =>
    let comment :=
      {| c_id := newId; articleId := articleId; answerOf := Some answerOfId;
         userName := u_name user; userEmail := u_email user;
         message := answer; confirmedAt := None; readedAt := None;
         createdAt := now; updatedAt := now |} in
    let '(outbox', createdAnswer) := after_save sendNotification root comment outbox in
    (Sent 201 createdAnswer, docs ++ [comment], outbox')
  end.

(** *** commentsJob *)

(** [User.find({ deletedAt: null }, { _id: 1 })] *)
Definition active_users : list ObjectId :=
  (map_to_list (filter (λ ku, deletedAt ku.2 = None) users)).*1.

(** [currentYear] and [currentMonth] are [getFullYear()] and
    [getMonth()] of the clock. [users.map(async user => ...)] starts the
    count and the insert of every user without awaiting them, and the
    insert of the platform row is not awaited either: the rows reach the
    table in the order [schedule] gives. *)
Definition commentsJob (schedule : list nat) (currentYear currentMonth : Z)
    (docs : list Comment) (table : list StatRecord) : list StatRecord :=
  let firstDay := new_Date currentYear currentMonth 1 in
  let lastDay := new_Date currentYear currentMonth 31 in
  let perUser :=
    (λ uid,
      let userComments :=
        length (filter (λ c, (a ← article_of c; Articles.author a) = Some uid
                             ∧ answerOf c = None
                             ∧ (firstDay ≤ createdAt c ∧ createdAt c < lastDay)%Z) docs) in
      {| month := (currentMonth + 1)%Z; s_count := userComments;
         year := currentYear; reference := Some uid |})
    <$> active_users in
  let comments :=
    length (filter (λ c, (firstDay ≤ createdAt c ∧ createdAt c < lastDay)%Z
                         ∧ answerOf c = None) docs) in
  table
  ++ settle schedule
       (perUser
        ++ [{| month := (currentMonth + 1)%Z; s_count := comments;
               year := currentYear; reference := None |}]).
End Store.

End Comments.

(** ** Comment settings ([src/api/articles/comments/settings.js]) *)
Module CommentSettings.

(** A row of the SQL table [comment_settings]; a column that holds NULL is
    [None]. The [notify] column holds a number, read back through
    [Boolean(...)]. *)
Record Row := {
  userId : ObjectId;
  type : option string;
  order : option string;
  limit : option Z;
  notify : option Z;
  answers_type : option string;
  answers_order : option string;
  updated_at : option Date
}.

(** The request body of [save]: [None] is a property that is absent (or
    null). *)
Record Body := {
  b_notify : option bool;
  b_limit : option Z;
  b_order : option string;
  b_type : option string;
  b_answersOrder : option string;
  b_answersType : option string
}.

(** The settings object sent to the client. *)
Record Settings := {
  s_userId : ObjectId;
  s_type : option string;
  s_order : option string;
  s_limit : option Z;
  s_notify : bool;
  s_answersType : option string;
  s_answersOrder : option string;
  s_ttl : option Z
}.

Inductive Response :=
| Sent (code : Z) (body : option Settings)
| Failed (e : Error).

(** Truth value of an optional string and of an optional number. *)
Definition truthy (v : option string) : bool :=
  match v with
  | Some s => bool_decide (s ≠ "")
  | None => false
  end.

Definition truthy_number (v : option Z) : bool :=
  match v with
  | Some n => bool_decide (n ≠ 0%Z)
  | None => false
  end.

(** [a || b] on optional strings and numbers. *)
Definition or_else (a b : option string) : option string :=
  if truthy a then a else b.

Definition or_else_number (a b : option Z) : option Z :=
  if truthy_number a then a else b.

(** [Boolean(settings.notify)] *)
Definition Boolean (v : option Z) : bool := truthy_number v.

Definition verifyUser (user : User) (users : gmap ObjectId Account) : Result unit :=
  let userInDb :=
    match users !! u_id user with
    | Some account =>
      if decide (deletedAt account = None) then Some (u_id user, account) else None
    | None => None
    end in
  match userInDb with
  | None => Err (Thrown "id" "Usuário não encontrado")
  | Some (id, _) =>
    throwIf (bool_decide (id ≠ u_id user)) (Thrown "id" "Acesso não autorizado")
  end.

Definition is_comment_type (s : string) : bool :=
  bool_decide (s = "all") || bool_decide (s = "not-readed")
  || bool_decide (s = "only-readed") || bool_decide (s = "disabled")
  || bool_decide (s = "enabled").

Definition is_order (s : string) : bool :=
  bool_decide (s = "desc") || bool_decide (s = "asc").

Definition verifyEnumFields (settings : Body) : Result unit :=
  throwIf (truthy (b_answersType settings)
           && negb (is_comment_type (default "" (b_answersType settings))))
    (Thrown "answersType" "Tipo de respostas inválido");;
  throwIf (truthy (b_type settings)
           && negb (is_comment_type (default "" (b_type settings))))
    (Thrown "type" "Tipo de comentários inválido");;
  throwIf (truthy (b_answersOrder settings)
           && negb (is_order (default "" (b_answersOrder settings))))
    (Thrown "answersOrder" "Ordem de respostas inválida");;
  throwIf (truthy (b_order settings)
           && negb (is_order (default "" (b_order settings))))
    (Thrown "order" "Ordem de comentários inválido").

(** [select(...).from('comment_settings').where('userId', id).first()] *)
Definition first_row (id : ObjectId) (table : list Row) : option Row :=
  snd <$> list_find (λ r, userId r = id) table.

(** The selected columns of a row, with [notify] made a boolean. *)
Definition settings_of (r : Row) (ttl : option Z) : Settings :=
  {| s_userId := userId r; s_type := type r; s_order := order r;
     s_limit := limit r; s_notify := Boolean (notify r);
     s_answersType := answers_type r; s_answersOrder := answers_order r;
     s_ttl := ttl |}.

(** [get]: [ttl] is the number in the header [cm-ttl-comments], when the
    request has one. *)
Definition get (now : Date) (ttl : option Z) (user : User)
    (users : gmap ObjectId Account) (table : list Row) : Response :=
  if match ttl with Some t => bool_decide (now ≤ t)%Z | None => false end
  then Sent 304 None
  else
    match verifyUser user users with
    | Err e => Failed e
    | Ok _ =>
      match first_row (u_id user) table with
      | None =>
        Failed (Thrown "id"
                  "Este usuário não possui configurações de comentário definida")
      | Some settings => Sent 200 (Some (settings_of settings None))
      end
    end.

Section Save.
(** The value each column takes when an insert leaves it out; the
    migration that declares the table is not under src. *)
Context (column_default : Row).

Definition inserted_row (user : User) (body : Body) : Row :=
  {| userId := u_id user;
     type := match b_type body with Some v => Some v | None => type column_default end;
     order := match b_order body with Some v => Some v | None => order column_default end;
     limit := match b_limit body with Some v => Some v | None => limit column_default end;
     notify :=
       match b_notify body with
       | Some v => Some (Z.b2z v)
       | None => notify column_default
       end;
     answers_type :=
       match b_answersType body with
       | Some v => Some v
       | None => answers_type column_default
       end;
     answers_order :=
       match b_answersOrder body with
       | Some v => Some v
       | None => answers_order column_default
       end;
     updated_at := updated_at column_default |}.

(** [updatedSettings], written over a row of the user. *)
Definition updated_row (now : Date) (body : Body) (currentSettings r : Row) : Row :=
  {| userId := userId r;
     limit := or_else_number (b_limit body) (limit currentSettings);
     notify :=
       match b_notify body with
       | Some v => Some (Z.b2z v)
       | None => limit currentSettings
       end;
     order := or_else (b_order body) (order currentSettings);
     type := or_else (b_type body) (type currentSettings);
     answers_order := or_else (b_answersOrder body) (answers_order currentSettings);
     answers_type := or_else (b_answersType body) (answers_type currentSettings);
     updated_at := Some now |}.

Definition save (now : Date) (user : User) (body : Body)
    (users : gmap ObjectId Account) (table : list Row) : Response * list Row :=
  match verifyEnumFields body;; verifyUser user users with
  | Err e => (Failed e, table)
  | Ok _ =>
    let table' :=
      match first_row (u_id user) table with
      | None => table ++ [inserted_row user body]
      | Some currentSettings =>
        (λ r, if decide (userId r = u_id user)
              then updated_row now body currentSettings r else r) <$> table
      end in
    match first_row (u_id user) table' with
    | None => (Failed (TypeError "Cannot set property 'notify' of undefined"), table')
    | Some settings =>
      (Sent 200 (Some (settings_of settings (Some (now + 1000 * 60 * 60 * 24 * 30)%Z))),
       table')
    end
  end.
End Save.

End CommentSettings.

(** ** Sequences of state-change requests, and the data used in examples *)
Module Scenario.
Import Articles.

(** A request to one of the two state-change handlers. *)
Inductive Call :=
| ChangeState (now : Date) (id : string) (user : User) (wanted : string)
| ChangeStatesBulk (user : User) (articlesId : option (list string)) (wanted : string).

Definition actor (c : Call) : User :=
  match c with
  | ChangeState _ _ user _ => user
  | ChangeStatesBulk user _ _ => user
  end.

(** The store after the handler has answered the request. *)
Definition run (isValid : string → bool) (db : Collection) (c : Call) : Collection :=
  match c with
  | ChangeState now id user wanted => (changeState now id user wanted db).2
  | ChangeStatesBulk user articlesId wanted =>
    (changeStates isValid user articlesId wanted db).2
  end.

Definition run_all (isValid : string → bool) (calls : list Call)
    (db : Collection) : Collection :=
  foldl (run isValid) db calls.

(** The origin states the specification declares for each target of a bulk
    change: published admits from inactivated or draft, boosted from
    published, inactivated from published or boosted, removed from draft. *)
Definition declaredOrigins (wanted : string) : list string :=
  if decide (wanted = "published") then ["inactivated"; "draft"]
  else if decide (wanted = "boosted") then ["published"]
  else if decide (wanted = "inactivated") then ["published"; "boosted"]
  else if decide (wanted = "removed") then ["draft"]
  else [].

(** Well-formed ids of the examples: 24 hexadecimal digits. *)
Definition is_hex_digit (c : ascii) : bool :=
  let n := nat_of_ascii c in
  (bool_decide (48 ≤ n) && bool_decide (n ≤ 57))
  || (bool_decide (97 ≤ n) && bool_decide (n ≤ 102))
  || (bool_decide (65 ≤ n) && bool_decide (n ≤ 70)).

Fixpoint all_hex (s : string) : bool :=
  match s with
  | EmptyString => true
  | String c rest => is_hex_digit c && all_hex rest
  end.

Definition hex24 (s : string) : bool :=
  bool_decide (String.length s = 24) && all_hex s.

Definition ana : User :=
  {| u_id := "5e00000000000000000000a1"; tagAdmin := false; tagAuthor := true;
     u_name := "Ana"; u_email := "ana@example.org" |}.

Definition root : User :=
  {| u_id := "5e00000000000000000000ad"; tagAdmin := true; tagAuthor := false;
     u_name := "Root"; u_email := "root@example.org" |}.

Definition article_of (owner : ObjectId) (s : string) (removed : option Date) : Article :=
  {| title := "Post"; userId := owner; author := Some owner; state := s;
     themeId := None; categoryId := None; customUri := "post";
     description := None; content := None; logoImg := None;
     secondaryImg := None; headerImg := None; publishedAt := None;
     boostedAt := None; inactivatedAt := None; removedAt := removed |}.

Definition id1 : ObjectId := "5e0000000000000000000001".
Definition id2 : ObjectId := "5e0000000000000000000002".
Definition id3 : ObjectId := "5e0000000000000000000003".
Definition id4 : ObjectId := "5e0000000000000000000004".

(** Ana owns two boosted articles, a published one and a draft. *)
Definition shelf : Collection :=
  list_to_map
    [(id1, article_of (u_id ana) "boosted" None);
     (id2, article_of (u_id ana) "boosted" None);
     (id3, article_of (u_id ana) "published" None);
     (id4, article_of (u_id ana) "draft" None)].

(** A well-formed id that no article of [shelf] has. *)
Definition id9 : ObjectId := "5e0000000000000000000009".

(** A request body of [save] with no property at all, and one that only
    carries a new description. *)
Definition empty_body : ArticleBody :=
  {| b_title := None; b_customUri := None; b_themeId := None;
     b_categoryId := None; b_description := None; b_content := None;
     b_userId := None; b_state := None; b_logoImg := None;
     b_secondaryImg := None; b_headerImg := None;
     b_publishedAt := None; b_boostedAt := None;
     b_inactivatedAt := None; b_removedAt := None |}.

Definition describe (d : string) : ArticleBody :=
  {| b_title := None; b_customUri := None; b_themeId := None;
     b_categoryId := None; b_description := Some d; b_content := None;
     b_userId := None; b_state := None; b_logoImg := None;
     b_secondaryImg := None; b_headerImg := None;
     b_publishedAt := None; b_boostedAt := None;
     b_inactivatedAt := None; b_removedAt := None |}.

(** The accounts: Ana, the administrator, and an account that was
    soft-deleted. *)
Definition id_gone : ObjectId := "5e00000000000000000000dd".

Definition accounts : gmap ObjectId Account :=
  list_to_map
    [(u_id ana, {| deletedAt := None |});
     (u_id root, {| deletedAt := None |});
     (id_gone, {| deletedAt := Some 1500000000000%Z |})].

Definition comment_on (id article : ObjectId) (parent : option ObjectId)
    (read : option Date) (created : Date) : Comments.Comment :=
  {| Comments.c_id := id; Comments.articleId := article;
     Comments.answerOf := parent; Comments.userName := "Reader";
     Comments.userEmail := "reader@example.org"; Comments.message := "Nice";
     Comments.confirmedAt := None; Comments.readedAt := read;
     Comments.createdAt := created; Comments.updatedAt := created |}.

Definition cid1 : ObjectId := "5e00000000000000000000c1".
Definition cid2 : ObjectId := "5e00000000000000000000c2".
Definition cid3 : ObjectId := "5e00000000000000000000c3".
Definition cid4 : ObjectId := "5e00000000000000000000c4".
Definition cid5 : ObjectId := "5e00000000000000000000c5".

(** Comments on Ana's article [id3]: an unread root of 10 February 2021,
    a read root of 12 February, an answer to the first, a root of
    2 March 2021, and a root of 31 January 2021. *)
Definition thread : list Comments.Comment :=
  [comment_on cid1 id3 None None (Comments.new_Date 2021 1 10);
   comment_on cid2 id3 None (Some (Comments.new_Date 2021 1 13))
     (Comments.new_Date 2021 1 12);
   comment_on cid3 id3 (Some cid1) None (Comments.new_Date 2021 1 11);
   comment_on cid4 id3 None None (Comments.new_Date 2021 2 2);
   comment_on cid5 id3 None None (Comments.new_Date 2021 0 31)].

(** The answer Ana writes to [cid1]. *)
Definition reply : Comments.Comment :=
  {| Comments.c_id := "5e00000000000000000000c9";
     Comments.articleId := id3;
     Comments.answerOf := Some cid1;
     Comments.userName := "Ana";
     Comments.userEmail := "ana@example.org";
     Comments.message := "Thank you";
     Comments.confirmedAt := None; Comments.readedAt := None;
     Comments.createdAt := 1613000000000%Z;
     Comments.updatedAt := 1613000000000%Z |}.

(** Ana's stored settings, the column defaults of the examples, a body
    that changes the order and the notification flag, and a body that
    asks for a page size of zero. *)
Definition ana_settings : CommentSettings.Row :=
  {| CommentSettings.userId := u_id ana;
     CommentSettings.type := Some "all";
     CommentSettings.order := Some "desc";
     CommentSettings.limit := Some 10%Z;
     CommentSettings.notify := Some 0%Z;
     CommentSettings.answers_type := Some "all";
     CommentSettings.answers_order := Some "desc";
     CommentSettings.updated_at := None |}.

Definition no_defaults : CommentSettings.Row :=
  {| CommentSettings.userId := "";
     CommentSettings.type := None; CommentSettings.order := None;
     CommentSettings.limit := None; CommentSettings.notify := None;
     CommentSettings.answers_type := None;
     CommentSettings.answers_order := None;
     CommentSettings.updated_at := None |}.

Definition oldest_first_and_notify : CommentSettings.Body :=
  {| CommentSettings.b_notify := Some true;
     CommentSettings.b_limit := None;
     CommentSettings.b_order := Some "asc";
     CommentSettings.b_type := None;
     CommentSettings.b_answersOrder := None;
     CommentSettings.b_answersType := None |}.

Definition page_size_zero : CommentSettings.Body :=
  {| CommentSettings.b_notify := Some false;
     CommentSettings.b_limit := Some 0%Z;
     CommentSettings.b_order := None;
     CommentSettings.b_type := None;
     CommentSettings.b_answersOrder := None;
     CommentSettings.b_answersType := None |}.

(** The window of a run of the statistics job, as the specification
    describes it: from the first day of the month, thirty days long. *)
Definition in_window (firstDay : Date) (c : Comments.Comment) : Prop :=
  (firstDay ≤ Comments.createdAt c
   ∧ Comments.createdAt c < firstDay + 30 * Comments.msPerDay)%Z.

#[global] Instance in_window_dec firstDay c : Decision (in_window firstDay c).
Proof. unfold in_window. apply _. Defined.

(** The row of a user as the pipeline of the job counts it, over the
    articles whose [author] is the user, and the row of the platform,
    for the month. *)
Definition user_row (articles : gmap ObjectId Article) (year monthIndex : Z)
    (docs : list Comments.Comment) (uid : ObjectId) : Comments.StatRecord :=
  {| Comments.month := (monthIndex + 1)%Z;
     Comments.year := year;
     Comments.s_count :=
       length (filter (λ c, (a ← articles !! Comments.articleId c; author a) = Some uid
                            ∧ Comments.answerOf c = None
                            ∧ in_window (Comments.new_Date year monthIndex 1) c) docs);
     Comments.reference := Some uid |}.

Definition platform_row (year monthIndex : Z)
    (docs : list Comments.Comment) : Comments.StatRecord :=
  {| Comments.month := (monthIndex + 1)%Z;
     Comments.year := year;
     Comments.s_count :=
       length (filter (λ c, Comments.answerOf c = None
                            ∧ in_window (Comments.new_Date year monthIndex 1) c) docs);
     Comments.reference := None |}.

(** An article as [create] stores it and the other handlers of articles.js
    leave it: the owner is under [userId], and there is no [author]
    property. *)
Definition created_by (owner : ObjectId) (s : string) : Article :=
  {| title := "Post"; userId := owner; author := None; state := s;
     themeId := None; categoryId := None; customUri := "post";
     description := None; content := None; logoImg := None;
     secondaryImg := None; headerImg := None; publishedAt := None;
     boostedAt := None; inactivatedAt := None; removedAt := None |}.

(** Ana's four articles, stored that way. *)
Definition created_shelf : Collection :=
  list_to_map
    [(id1, created_by (u_id ana) "boosted");
     (id2, created_by (u_id ana) "boosted");
     (id3, created_by (u_id ana) "published");
     (id4, created_by (u_id ana) "draft")].

(** The root comments on the articles of a user as the specification
    words them, the articles of a user being those the user owns
    ([userId]); and the row of the statistics job counted over them. *)
Definition owner_roots (articles : gmap ObjectId Article) (uid : ObjectId)
    (docs : list Comments.Comment) : list Comments.Comment :=
  filter (λ c, (userId <$> articles !! Comments.articleId c) = Some uid
               ∧ Comments.answerOf c = None) docs.

Definition owner_row (articles : gmap ObjectId Article) (year monthIndex : Z)
    (docs : list Comments.Comment) (uid : ObjectId) : Comments.StatRecord :=
  {| Comments.month := (monthIndex + 1)%Z;
     Comments.year := year;
     Comments.s_count :=
       length (filter (in_window (Comments.new_Date year monthIndex 1))
                 (owner_roots articles uid docs));
     Comments.reference := Some uid |}.

End Scenario.

(** ** The other article handlers ([src/api/articles/articles.js]) *)
Module ArticlesRest.
Import Articles.

(** An article as [get] and [getArticle] project it: the stored document
    (the projection leaves out [themeId], [categoryId] and [userId], which
    nothing below reads from a result), with the joined theme and
    category, and the [_id] of the joined author, missing when the join
    finds no user. *)
Record ArticleDetails := {
  d_id : ObjectId;
  d_article : Article;
  d_theme : option Theme;
  d_category : option Category;
  d_author : option ObjectId
}.

(** The three [$lookup] stages with their [$arrayElemAt]. *)
Definition details (themes : gmap ObjectId Theme)
    (categories : gmap ObjectId Category) (users : gmap ObjectId Account)
    (ka : ObjectId * Article) : ArticleDetails :=
  {| d_id := ka.1;
     d_article := ka.2;
     d_theme := t ← themeId ka.2; themes !! t;
     d_category := c ← categoryId ka.2; categories !! c;
     d_author := _ ← users !! userId ka.2; Some (userId ka.2) |}.

(** How [getArticle] can fail: [new Error(...)] for an unknown key, or
    the TypeError of [ObjectId(value)] on a malformed id. *)
Inductive LookupFailure :=
| BadKey (key : string)
| BadObjectId.

Inductive GetResponse :=
| Json (article : ArticleDetails)
| GetFailed (e : Error)
| GetFailedLookup (f : LookupFailure).

(** The query string of [get]: [None] is a parameter that is absent, for
    [q_limit] and [q_page] also one that [parseInt] cannot read. *)
Record Query := {
  q_limit : option Z;
  q_page : option Z;
  q_query : option string;
  q_tId : option string;
  q_cId : option string;
  q_type : option string;
  q_order : option string
}.

Inductive ListResponse :=
| Listed (articles : list ArticleDetails) (count : nat) (limit : Z)
| ListFailed.

(** [{ themeId: tId && isValid(tId) ? ObjectId(tId) : { $ne: -1 } }], and
    the same for the category. *)
Definition id_filter (isValid : string → bool) (wanted : option string)
    (field : option ObjectId) : bool :=
  if truthy wanted && isValid (default "" wanted)
  then bool_decide (field = wanted)
  else true.

(** [{ userId: type === 'all' && user.tagAdmin ? { $ne: null }
                                               : ObjectId(user._id) }] *)
Definition owner_filter (user : User) (type : string) (a : Article) : bool :=
  if bool_decide (type = "all") && tagAdmin user then true
  else bool_decide (userId a = u_id user).

(** The [$or] of the three [$regex] tests; a missing field matches no
    pattern. *)
Definition text_filter (test : string → bool) (a : Article) : bool :=
  test (title a) || from_option test false (description a)
  || from_option test false (content a).

(** The [$match] stage of [get]. *)
Definition selected (isValid : string → bool) (test : string → bool)
    (user : User) (tId cId : option string) (type : string)
    (ka : ObjectId * Article) : Prop :=
  text_filter test ka.2 = true
  ∧ id_filter isValid tId (themeId ka.2) = true
  ∧ id_filter isValid cId (categoryId ka.2) = true
  ∧ state ka.2 ≠ "removed"
  ∧ owner_filter user type ka.2 = true.

#[global] Instance selected_dec isValid test user tId cId type ka :
  Decision (selected isValid test user tId cId type ka).
Proof. unfold selected. apply _. Defined.

(** [{ $sort: { createdAt: order === 'asc' ? 1 : -1 } }], for creation
    times given by id. *)
Definition in_order (createdAt : ObjectId → Date) (order : string)
    (x y : ArticleDetails) : Prop :=
  if decide (order = "asc")
  then (createdAt (d_id x) ≤ createdAt (d_id y))%Z
  else (createdAt (d_id y) ≤ createdAt (d_id x))%Z.

#[global] Instance in_order_dec createdAt order : RelDecision (in_order createdAt order).
Proof. intros x y. unfold in_order. case_decide; apply _. Defined.

(** [article[key]] and [{ [key]: v }] for the image keys. *)
Definition get_image (key : string) (a : Article) : option string :=
  if decide (key = "logoImg") then logoImg a
  else if decide (key = "secondaryImg") then secondaryImg a
  else if decide (key = "headerImg") then headerImg a
  else None.

Definition set_image (key : string) (v : option string) (a : Article) : Article :=
  {| title := title a; userId := userId a; author := author a;
     state := state a; themeId := themeId a; categoryId := categoryId a;
     customUri := customUri a; description := description a;
     content := content a;
     logoImg := if decide (key = "logoImg") then v else logoImg a;
     secondaryImg := if decide (key = "secondaryImg") then v else secondaryImg a;
     headerImg := if decide (key = "headerImg") then v else headerImg a;
     publishedAt := publishedAt a; boostedAt := boostedAt a;
     inactivatedAt := inactivatedAt a; removedAt := removedAt a |}.

(** What the upload middleware hands to the callback of [saveImage]: an
    error, no file, or the location of the stored file. *)
Inductive Upload :=
| UploadFailed
| NoFile
| Uploaded (location : string).

(** The answers of the image handlers: a JSON object with one property, a
    bare status, one of the literal error objects sent with their own
    status, the error handed to [articleError], or no answer at all. *)
Inductive ImageResponse :=
| ImageJson (key value : string)
| ImageStatus (code : Z)
| ImageStack (code : Z) (name description : string)
| ImageFailed (e : Error)
| NoResponse.

Section Handlers.
(** [app.mongo.Types.ObjectId.isValid]. *)
Context (isValid : string → bool).
(** The pattern of a [$regex] with option [i], compiled: [None] for a
    pattern the store refuses, else the test of a text. *)
Context (regex : string → option (string → bool)).
(** The [createdAt] field of the article with a given id. *)
Context (createdAt : ObjectId → Date).
(** [getBucketKeyFromUrl] of [config/aws/s3], which is not under src: the
    key of a stored object, or the error it reports. *)
Context (getBucketKeyFromUrl : string → Result string).
(** Whether [s3.deleteObject] fails for a key. *)
Context (deleteFails : string → bool).

Context (themes : gmap ObjectId Theme).
Context (categories : gmap ObjectId Category).
Context (users : gmap ObjectId Account).

Definition getArticle (value key : string) (db : Collection)
    : LookupFailure + option ArticleDetails :=
  if decide (key ≠ "customUri" ∧ key ≠ "id") then inl (BadKey key)
  else if bool_decide (key = "id") && negb (isValid value) then inl BadObjectId
  else
    inr (head (details themes categories users
               <$> map_to_list
                     (filter (λ ka, (key = "id" → ka.1 = value)
                                    ∧ (key = "customUri" → customUri ka.2 = value))
                        db))).

Definition getOne (id : string) (user : User) (type : option string)
    (db : Collection) : GetResponse :=
  let type := if decide (type ≠ Some "customUri") then "id" else "customUri" in
  let idIsValid := isValid id in
  if negb idIsValid && bool_decide (type = "id")
  then GetFailed (Thrown "id" "Identificador inválido")
  else
    match getArticle id type db with
    | inl f => GetFailedLookup f
    | inr None => GetFailed (Thrown "id" "Artigo não encontrado")
    | inr (Some article) =>
      if tagAdmin user then Json article
      else
        match d_author article with
        | None => GetFailed (TypeError "Cannot read property '_id' of undefined")
        | Some authorId =>
          if decide (u_id user ≠ authorId)
          then GetFailed
                 (Thrown "forbidden"
                    "Acesso não autorizado, somente administradores podem visualizar artigos de outros autores")
          else Json article
        end
    end.

Definition get (user : User) (q : Query) (db : Collection) : ListResponse :=
  let order := if truthy (q_order q) then default "" (q_order q) else "desc" in
  let type := if truthy (q_type q) then default "" (q_type q) else "personal" in
  let query := if truthy (q_query q) then default "" (q_query q) else "" in
  let page := match q_page q with Some p => if decide (p = 0%Z) then 1%Z else p | None => 1%Z end in
  let limit := match q_limit q with Some l => if decide (l = 0%Z) then 6%Z else l | None => 6%Z end in
  let page := if decide (page < 1)%Z then 1%Z else page in
  let limit := if decide (100 < limit)%Z then 6%Z else limit in
  match regex query with
  | None => ListFailed
  | Some test =>
    let matched := filter (selected isValid test user (q_tId q) (q_cId q) type) db in
    let count := size matched in
    let rows :=
      merge_sort (in_order createdAt order)
        (details themes categories users <$> map_to_list matched) in
    match Comments.paginate page limit rows with
    | Some articles => Listed articles count limit
    | None => ListFailed
    end
  end.

(** The result is the answer (none when the callback returns without
    answering), the collection, and the keys whose deletion was asked of
    the object store. *)
Definition saveImage (id type : string) (upload : Upload) (db : Collection)
    (deleted : list string) : ImageResponse * Collection * list string :=
  if decide (type ∉ ["logo"; "secondary"; "header"])
  then (ImageFailed (Thrown "type" "Tipo de imagem inválido"), db, deleted)
  else
    match findOne id db with
    | None => (ImageFailed (Thrown "id" "Artigo não encontrado"), db, deleted)
    | Some article =>
      match upload with
      | UploadFailed =>
        (ImageStack 422 "uploadStream" "Ocorreu um erro ao salvar a imagem", db, deleted)
      | NoFile =>
        (ImageStack 400 "image" "É necessário selecionar uma imagem", db, deleted)
      | Uploaded imgValue =>
        let imgKey := type +:+ "Img" in
        let stored := updateOne id (set_image imgKey (Some imgValue)) db in
        if truthy (get_image imgKey article) then
          match getBucketKeyFromUrl (default "" (get_image imgKey article)) with
          | Err _ => (NoResponse, db, deleted)
          | Ok key => (ImageJson imgKey imgValue, stored, deleted ++ [key])
          end
        else (ImageJson imgKey imgValue, stored, deleted)
      end
    end.

Definition removeImage (id type : string) (db : Collection)
    (deleted : list string) : ImageResponse * Collection * list string :=
  if decide (type ∉ ["logo"; "secondary"; "header"])
  then (ImageFailed (Thrown "type" "Tipo de imagem inválido"), db, deleted)
  else
    match findOne id db with
    | None => (ImageFailed (Thrown "id" "Artigo não encontrado"), db, deleted)
    | Some article =>
      let articleImageKey := type +:+ "Img" in
      if negb (truthy (get_image articleImageKey article))
      then (ImageFailed (Thrown articleImageKey "Imagem ja removida"), db, deleted)
      else
        match getBucketKeyFromUrl (default "" (get_image articleImageKey article)) with
        | Err error => (ImageFailed error, db, deleted)
        | Ok key =>
          if deleteFails key
          then (ImageStack 422 "removeObject" "Ocorreu um erro ao remover a imagem",
                db, deleted ++ [key])
          else (ImageStatus 204, updateOne id (set_image articleImageKey None) db,
                deleted ++ [key])
        end
    end.
End Handlers.

End ArticlesRest.

(** ** The other comment handlers (the comments module, in [src/README.md]) *)
Module CommentsRest.
Import Comments.

(** What these handlers catch: an object or a runtime error as before, a
    bare string ([throw 'Identificador inválido']), or the error of the
    store when an aggregate is refused. *)
Inductive Caught :=
| CaughtError (e : Error)
| CaughtString (s : string)
| CaughtStoreError.

Inductive Reply (A : Type) :=
| Replied (code : Z) (body : A)
| Rejected (c : Caught).
Arguments Replied {A} code body.
Arguments Rejected {A} c.

(** The update document [{ readedAt: ... }]. *)
Definition set_readedAt (t : Date) (c : Comment) : Comment :=
  {| c_id := c_id c; articleId := articleId c; answerOf := answerOf c;
     userName := userName c; userEmail := userEmail c; message := message c;
     confirmedAt := confirmedAt c; readedAt := Some t;
     createdAt := createdAt c; updatedAt := updatedAt c |}.

(** [Comment.updateOne({ _id: id, readedAt: null }, readedState)]: the
    first document that matches is written; the result holds [nModified]
    and the collection. *)
Fixpoint updateOne_unread (id : ObjectId) (t : Date) (docs : list Comment)
    : nat * list Comment :=
  match docs with
  | [] => (0, [])
  | c :: rest =>
    if decide (c_id c = id ∧ readedAt c = None)
    then (1, set_readedAt t c :: rest)
    else let '(nModified, rest') := updateOne_unread id t rest in
         (nModified, c :: rest')
  end.

Definition readComment (isValid : string → bool) (now : Date) (id : string)
    (docs : list Comment) : Reply unit * list Comment :=
  if negb (isValid id)
  then (Rejected (CaughtString "Identificador inválido"), docs)
  else
    let '(nModified, docs') := updateOne_unread id now docs in
    if decide (nModified = 0)
    then (Rejected (CaughtError
                      (Thrown "_id" "Este comentário já esta marcado como lido")),
          docs')
    else (Replied 204 (), docs').

(** The body of [getHistory]. *)
Record History := {
  answers : list Comment;
  h_count : nat;
  h_limit : Z
}.

(** [getHistory]: [limit] and [page] are what [parseInt] made of the
    query ([None] for NaN). *)
Definition getHistory (isValid : string → bool) (id : string)
    (limit page : option Z) (docs : list Comment) : Reply History :=
  let limit := match limit with Some l => if decide (l = 0%Z) then 10%Z else l | None => 10%Z end in
  let page := match page with Some p => if decide (p = 0%Z) then 1%Z else p | None => 1%Z end in
  if negb (isValid id) then Rejected (CaughtString "Identificador inválido")
  else
    let count := length (filter (λ c, answerOf c = Some id) docs) in
    match paginate page limit (filter (λ c, answerOf c = Some id) docs) with
    | Some answers =>
      Replied 200 {| answers := answers; h_count := count; h_limit := limit |}
    | None => Rejected CaughtStoreError
    end.

(** [getById]: the body is the comment [getOne] found, or nothing. *)
Definition getById (isValid : string → bool)
    (articles : gmap ObjectId Articles.Article) (users : gmap ObjectId Account)
    (id : string) (docs : list Comment) : Reply (option CommentView) :=
  match getOne isValid articles users id docs with
  | Err e => Rejected (CaughtError e)
  | Ok comment => Replied 200 comment
  end.

(** [getCommentsStats]: the rows of the table are in the order of their
    [id], so the first row by descending [id] is the last one. *)
Definition getCommentsStats (_id : option string) (table : list StatRecord)
    : option StatRecord :=
  match _id with
  | Some id =>
    if decide (id = "") then last (filter (λ r, reference r = None) table)
    else last (filter (λ r, reference r = Some id) table)
  | None => last (filter (λ r, reference r = None) table)
  end.

(** [getStats]: [{ status: true, comments }]. *)
Definition getStats (_id : option string) (table : list StatRecord)
    : bool * option StatRecord :=
  (true, getCommentsStats _id table).

End CommentsRest.

(** ** Helpers of the further properties *)
Module Extra.

(** Reference data of the examples: one active theme and one active
    category of that theme. *)
Definition theme1 : ObjectId := "5e00000000000000000000e1".
Definition category1 : ObjectId := "5e00000000000000000000f1".

Definition themes : gmap ObjectId Articles.Theme :=
  {[ theme1 := {| Articles.t_state := "active" |} ]}.

Definition categories : gmap ObjectId Articles.Category :=
  {[ category1 := {| Articles.cat_state := "active";
                     Articles.cat_themeId := theme1 |} ]}.

(** A second author, who is no administrator, and her one published
    article. *)
Definition bea : User :=
  {| u_id := "5e00000000000000000000b2"; tagAdmin := false; tagAuthor := true;
     u_name := "Bea"; u_email := "bea@example.org" |}.

Definition bea_shelf : gmap ObjectId Articles.Article :=
  {[ Scenario.id1 := Scenario.article_of (u_id bea) "published" None ]}.

(** Ana's draft [id4] after it was removed at time 100. *)
Definition removed_shelf : gmap ObjectId Articles.Article :=
  {[ Scenario.id4 := Scenario.article_of (u_id Scenario.ana) "removed" (Some 100%Z) ]}.

(** A body of [save] that files the article under the category and its
    theme and asks for a vanity path with spaces; it also names another
    owner, a state, a publication date and a null removal date. *)
Definition file_under_category : Articles.ArticleBody :=
  {| Articles.b_title := None;
     Articles.b_customUri := Some "my first post";
     Articles.b_themeId := Some theme1;
     Articles.b_categoryId := Some category1;
     Articles.b_description := Some "About";
     Articles.b_content := None;
     Articles.b_userId := Some "5e00000000000000000000ad";
     Articles.b_state := Some "boosted";
     Articles.b_logoImg := None; Articles.b_secondaryImg := None;
     Articles.b_headerImg := None;
     Articles.b_publishedAt := Some (Some 5%Z); Articles.b_boostedAt := None;
     Articles.b_inactivatedAt := None; Articles.b_removedAt := Some None |}.

(** A body of [save] whose only property is an empty [themeId]. *)
Definition empty_theme : Articles.ArticleBody :=
  {| Articles.b_title := None; Articles.b_customUri := None;
     Articles.b_themeId := Some ""; Articles.b_categoryId := None;
     Articles.b_description := None; Articles.b_content := None;
     Articles.b_userId := None; Articles.b_state := None;
     Articles.b_logoImg := None; Articles.b_secondaryImg := None;
     Articles.b_headerImg := None;
     Articles.b_publishedAt := None; Articles.b_boostedAt := None;
     Articles.b_inactivatedAt := None; Articles.b_removedAt := None |}.

(** Whether a string holds a space. *)
Fixpoint has_space (s : string) : bool :=
  match s with
  | EmptyString => false
  | String c rest => bool_decide (c = " "%char) || has_space rest
  end.

(** The settings of the administrator, and a table that holds them after
    Ana's. *)
Definition root_settings : CommentSettings.Row :=
  {| CommentSettings.userId := u_id Scenario.root;
     CommentSettings.type := Some "not-readed";
     CommentSettings.order := Some "asc";
     CommentSettings.limit := Some 20%Z;
     CommentSettings.notify := Some 1%Z;
     CommentSettings.answers_type := Some "all";
     CommentSettings.answers_order := Some "asc";
     CommentSettings.updated_at := None |}.

Definition settings_table : list CommentSettings.Row :=
  [Scenario.ana_settings; root_settings].

(** Stand-ins of the examples for the parameters of the article handlers:
    a pattern test that accepts every text, creation times that are all
    equal, a bucket helper that cannot read the address ["broken"], and
    an object store whose deletions succeed. *)
Definition any_text (pattern : string) : option (string → bool) :=
  Some (λ _, true).

Definition same_time (id : ObjectId) : Date := 0%Z.

Definition key_of_url (url : string) : Result string :=
  if decide (url = "broken") then Err (Thrown "url" "invalid") else Ok url.

Definition deletes_succeed (key : string) : bool := false.

(** Ana's published article with a logo, and the same article whose logo
    address cannot be read. *)
Definition with_logo (url : string) : Articles.Article :=
  {| Articles.title := "Post"; Articles.userId := u_id Scenario.ana;
     Articles.author := Some (u_id Scenario.ana);
     Articles.state := "published";
     Articles.themeId := None; Articles.categoryId := None;
     Articles.customUri := "post"; Articles.description := None;
     Articles.content := None; Articles.logoImg := Some url;
     Articles.secondaryImg := None; Articles.headerImg := None;
     Articles.publishedAt := None; Articles.boostedAt := None;
     Articles.inactivatedAt := None; Articles.removedAt := None |}.

Definition gallery : gmap ObjectId Articles.Article :=
  {[ Scenario.id1 := with_logo "logo-1.png" ]}.

Definition broken_gallery : gmap ObjectId Articles.Article :=
  {[ Scenario.id1 := with_logo "broken" ]}.

(** A query of [get] with no parameter, and one that asks for the second
    page of two articles, oldest first. *)
Definition plain_query : ArticlesRest.Query :=
  {| ArticlesRest.q_limit := None; ArticlesRest.q_page := None;
     ArticlesRest.q_query := None; ArticlesRest.q_tId := None;
     ArticlesRest.q_cId := None; ArticlesRest.q_type := None;
     ArticlesRest.q_order := None |}.

Definition second_page_query : ArticlesRest.Query :=
  {| ArticlesRest.q_limit := Some 2%Z; ArticlesRest.q_page := Some 2%Z;
     ArticlesRest.q_query := None; ArticlesRest.q_tId := None;
     ArticlesRest.q_cId := None; ArticlesRest.q_type := None;
     ArticlesRest.q_order := Some "asc" |}.

(** The row of the user after a [save] that passes the checks: the merge
    over the row found, or the row inserted. *)
Definition saved_row (column_default : CommentSettings.Row) (now : Z)
    (user : User) (body : CommentSettings.Body)
    (table : list CommentSettings.Row) : CommentSettings.Row :=
  match CommentSettings.first_row (u_id user) table with
  | Some cur => CommentSettings.updated_row now body cur cur
  | None => CommentSettings.inserted_row column_default user body
  end.

(** The values an enumerated field of the settings may take for the
    validation to pass: absent, empty, or one of the enumerated values. *)
Definition admissible_type (v : option string) : Prop :=
  v = None ∨ v = Some "" ∨ v = Some "all" ∨ v = Some "not-readed"
  ∨ v = Some "only-readed" ∨ v = Some "disabled" ∨ v = Some "enabled".

Definition admissible_order (v : option string) : Prop :=
  v = None ∨ v = Some "" ∨ v = Some "desc" ∨ v = Some "asc".

End Extra.

(** * Properties *)

Section ArticleProperties.
Import Articles Scenario.
Context (isValid : string → bool).

Lemma lookup_updateMany ids uid s (db : Collection) k :
  updateMany ids uid s db !! k =
  (λ a, if decide (k ∈ ids ∧ userId a = uid) then set_state s a else a) <$> db !! k.
Proof.
  unfold updateMany. rewrite map_lookup_imap.
  destruct (db !! k); reflexivity.
Qed.

Lemma changeStates_failure_keeps_store user articlesId wanted db e :
  (changeStates isValid user articlesId wanted db).1 = Failed e →
  (changeStates isValid user articlesId wanted db).2 = db.
Proof.
  unfold changeStates.
  destruct (checkArticlesForMultipleChanges _ _ _ _ _); simpl; [discriminate|done].
Qed.

(** Unfolds one step of a computation in [Result]. *)
Ltac step_result :=
  match goal with
  | H : context [mbind _ ?m] |- _ =>
    let E := fresh "E" in destruct m eqn:E; simpl in H; try discriminate H
  | H : throwIf ?c _ = Ok _ |- _ =>
    destruct c eqn:?; simpl in H; [discriminate H|clear H]
  end.

Lemma elem_of_find_in ids (db : Collection) k s :
  (k, s) ∈ find_in ids db ↔ ∃ a, db !! k = Some a ∧ state a = s ∧ k ∈ ids.
Proof.
  unfold find_in. rewrite list_elem_of_fmap. split.
  - intros [[k' a] [Heq Hin]]. simpl in Heq. injection Heq as -> ->.
    apply elem_of_map_to_list, map_lookup_filter_Some in Hin as [Hk Hids].
    eauto.
  - intros (a & Hk & <- & Hids). exists (k, a). split; [done|].
    apply elem_of_map_to_list, map_lookup_filter_Some. done.
Qed.

Lemma checkArticlesForMultipleChanges_inv user articlesId wanted db l :
  checkArticlesForMultipleChanges isValid user articlesId wanted db = Ok l →
  ∃ ids, articlesId = Some ids
    ∧ (∀ k, k ∈ l →
        k ∈ ids ∧ ∃ a, db !! k = Some a ∧ state a ∈ declaredOrigins wanted)
    ∧ (tagAdmin user = false → wanted = "boosted" →
        countDocuments (u_id user) "boosted" db = 0 ∧ length ids ≤ 1).
Proof.
  unfold checkArticlesForMultipleChanges. intros H.
  step_result. destruct articlesId as [ids|]; [|discriminate H].
  exists ids. split; [done|].
  repeat step_result. injection H as <-. split.
  - intros k Hk. apply list_elem_of_fmap in Hk as [[k' s] [-> Hk]]. simpl.
    unfold declaredOrigins.
    destruct (decide (wanted = "published"));
      [|destruct (decide (wanted = "boosted"));
        [|destruct (decide (wanted = "inactivated"));
          [|destruct (decide (wanted = "removed"))]]];
      try (by apply elem_of_nil in Hk);
      apply list_elem_of_filter in Hk as [Hs Hk]; simpl in Hs;
      apply elem_of_find_in in Hk as (art & Hart & <- & Hids);
      (split; [done|]); exists art; (split; [done|]); set_solver.
  - intros Hadm ->.
    match goal with
    | E : (if negb (tagAdmin user) then _ else _) = Ok _ |- _ =>
      rewrite Hadm in E; cbn in E; unfold throwIf in E;
      destruct (bool_decide (1 ≤ countDocuments (u_id user) "boosted" db)) eqn:Hc;
        [discriminate E|];
      destruct (bool_decide (1 < length ids)) eqn:Hl; [discriminate E|]
    end.
    apply bool_decide_eq_false in Hc, Hl. lia.
Qed.

(** *** Counting the documents of an owner in a state *)

Lemma countDocuments_mono w s (db db' : Collection) :
  (∀ k a', db' !! k = Some a' → userId a' = w → state a' = s →
     ∃ a, db !! k = Some a ∧ userId a = w ∧ state a = s) →
  countDocuments w s db' ≤ countDocuments w s db.
Proof.
  intros Hsub. unfold countDocuments.
  rewrite <- (size_dom (filter _ db')), <- (size_dom (filter _ db)).
  apply subseteq_size. intros k. rewrite !elem_of_dom.
  intros [a' Hk]. apply map_lookup_filter_Some in Hk as [Hk [Hu Hs]].
  destruct (Hsub k a' Hk Hu Hs) as (a & Ha & Hau & Has).
  exists a. apply map_lookup_filter_Some. done.
Qed.

Lemma countDocuments_succ w s (db db' : Collection) i :
  (∀ k a', k ≠ i → db' !! k = Some a' → userId a' = w → state a' = s →
     ∃ a, db !! k = Some a ∧ userId a = w ∧ state a = s) →
  countDocuments w s db' ≤ S (countDocuments w s db).
Proof.
  intros Hsub. unfold countDocuments.
  rewrite <- (size_dom (filter _ db')), <- (size_dom (filter _ db)).
  set (X := dom (filter _ db)).
  transitivity (size ({[i]} ∪ X)).
  - apply subseteq_size. intros k. rewrite elem_of_union, elem_of_singleton.
    unfold X. rewrite !elem_of_dom. intros [a' Hk].
    destruct (decide (k = i)) as [->|Hki]; [by left|right].
    apply map_lookup_filter_Some in Hk as [Hk [Hu Hs]].
    destruct (Hsub k a' Hki Hk Hu Hs) as (a & Ha & Hau & Has).
    exists a. apply map_lookup_filter_Some. done.
  - rewrite size_union_alt, size_singleton.
    assert (size (X ∖ {[i]}) ≤ size X) by (apply subseteq_size; set_solver).
    lia.
Qed.

(** *** What a validated state change knows *)

Lemma validateState_inv id user wanted db article ts :
  validateState id user wanted db = Ok (article, ts) →
  db !! id = Some article
  ∧ (tagAdmin user = false → u_id user = userId article)
  ∧ (tagAuthor user = true → countDocuments (u_id user) "boosted" db ≤ 1)
  ∧ ts = wanted +:+ "At".
Proof.
  unfold validateState, findOne. intros H.
  do 2 step_result.
  destruct (db !! id) as [art|] eqn:Hart; [|discriminate H].
  do 3 step_result. injection H as <- <-.
  split; [done|]. split; [|split; [|done]].
  - intros Hadm.
    match goal with
    | E : throwIf (negb (tagAdmin user) && _) _ = Ok _ |- _ =>
      rewrite Hadm in E; simpl in E; unfold throwIf in E;
      destruct (bool_decide (u_id user ≠ userId art)) eqn:Hne; [discriminate E|]
    end.
    apply bool_decide_eq_false in Hne. by apply dec_stable.
  - intros Haut.
    match goal with
    | E : (if tagAuthor user then _ else _) = Ok _ |- _ =>
      rewrite Haut in E; simpl in E; unfold throwIf in E;
      destruct (bool_decide (1 < countDocuments (u_id user) "boosted" db)) eqn:Hc;
        [discriminate E|]
    end.
    apply bool_decide_eq_false in Hc. lia.
Qed.

(** Once the earlier checks of [validateState] have passed, a user with
    [tagAuthor] is refused with the quota error exactly when that user
    owns more than one boosted article, whatever state is wanted. *)
Lemma validateState_quota id user wanted db article :
  tagAuthor user = true →
  wanted ≠ "removed" →
  checkValidStates wanted false = Ok () →
  db !! id = Some article →
  tagAdmin user = true ∨ u_id user = userId article →
  state article ≠ wanted →
  validateState id user wanted db
  = Err (Thrown "state" "Limite de artigos impulsionados atingido")
  ↔ 1 < countDocuments (u_id user) "boosted" db.
Proof.
  intros Haut Hwanted Hvalid Hart Hown Hstate.
  unfold validateState, findOne.
  rewrite (bool_decide_eq_false_2 (wanted = "removed")) by done. simpl.
  rewrite Hvalid, Hart. simpl.
  assert (negb (tagAdmin user) && bool_decide (u_id user ≠ userId article) = false)
    as ->.
  { destruct Hown as [->|Hsame]; [done|].
    rewrite (bool_decide_eq_false_2 (u_id user ≠ userId article)) by (intros ?; done).
    apply andb_false_r. }
  simpl. rewrite (bool_decide_eq_false_2 (state article = wanted)) by done.
  simpl. rewrite Haut.
  unfold throwIf. case_bool_decide; simpl; split; (done || lia).
Qed.

(** *** The boost quota along a sequence of requests *)

Lemma changeState_boosted_count now id user wanted db w :
  tagAdmin user = false →
  (u_id user = w → tagAuthor user = true) →
  countDocuments w "boosted" db ≤ 2 →
  countDocuments w "boosted" (changeState now id user wanted db).2 ≤ 2.
Proof.
  intros Hadm Haut Hle. unfold changeState.
  destruct (validateState id user wanted db) as [[article ts]|e] eqn:Hval;
    simpl; [|done].
  apply validateState_inv in Hval as (Hart & Hown & Hquota & ->).
  specialize (Hown Hadm). unfold updateOne.
  destruct (decide (u_id user = w)) as [<-|Hother].
  - specialize (Hquota (Haut eq_refl)).
    etransitivity; [apply (countDocuments_succ _ _ db _ id)|lia].
    intros k a' Hk Ha' Hu Hs. rewrite lookup_alter_ne in Ha' by done. eauto.
  - etransitivity; [apply (countDocuments_mono _ _ db)|done].
    intros k a' Ha' Hu Hs. destruct (decide (k = id)) as [->|Hk].
    + rewrite lookup_alter_eq, Hart in Ha'. simpl in Ha'.
      injection Ha' as <-. simpl in Hu. congruence.
    + rewrite lookup_alter_ne in Ha' by done. eauto.
Qed.

Lemma changeStates_boosted_count user articlesId wanted db w :
  tagAdmin user = false →
  countDocuments w "boosted" db ≤ 2 →
  countDocuments w "boosted" (changeStates isValid user articlesId wanted db).2 ≤ 2.
Proof.
  intros Hadm Hle. unfold changeStates.
  destruct (checkArticlesForMultipleChanges _ _ _ _ _) as [l|e] eqn:Hcheck;
    simpl; [|done].
  apply checkArticlesForMultipleChanges_inv in Hcheck as (ids & -> & Hl & Hquota).
  specialize (Hquota Hadm).
  assert (Hkeep : ∀ k a', updateMany l (u_id user) wanted db !! k = Some a' →
            (k ∈ l ∧ userId a' = u_id user ∧ state a' = wanted)
            ∨ db !! k = Some a').
  { intros k a'. rewrite lookup_updateMany.
    destruct (db !! k) as [a|]; simpl; [|done].
    case_decide as Hd; intros [= <-]; [left|by right].
    destruct Hd as [? ?]. done. }
  destruct (decide (u_id user = w ∧ wanted = "boosted")) as [[<- ->]|Hno].
  - destruct (Hquota eq_refl) as [Hzero Hlen].
    destruct ids as [|i [|? ?]]; simpl in Hlen; [| |lia].
    + etransitivity; [apply (countDocuments_mono _ _ db)|done].
      intros k a' Ha' Hu Hs. destruct (Hkeep k a' Ha') as [[Hin _]|?]; [|eauto].
      destruct (Hl k Hin) as [Hnil _]. by apply elem_of_nil in Hnil.
    + etransitivity; [apply (countDocuments_succ _ _ db _ i)|lia].
      intros k a' Hk Ha' Hu Hs. destruct (Hkeep k a' Ha') as [[Hin _]|?]; [|eauto].
      destruct (Hl k Hin) as [Hi _]. apply list_elem_of_singleton in Hi. done.
  - etransitivity; [apply (countDocuments_mono _ _ db)|done].
    intros k a' Ha' Hu Hs. destruct (Hkeep k a' Ha') as [(_ & Hu' & Hs')|?]; [|eauto].
    exfalso. apply Hno. split; congruence.
Qed.

(** C2, as the code has it: for every author, from any store in which the
    author owns at most two boosted articles, every finite sequence of
    single and bulk state-change requests whose acting users are not
    administrators (the author's own requests carrying [tagAuthor]) leaves
    the author with at most two boosted articles. *)
Theorem boost_quota_preserved w calls db :
  Forall (λ c, tagAdmin (actor c) = false
               ∧ (u_id (actor c) = w → tagAuthor (actor c) = true)) calls →
  countDocuments w "boosted" db ≤ 2 →
  countDocuments w "boosted" (run_all isValid calls db) ≤ 2.
Proof.
  unfold run_all. intros Hcalls. revert db.
  induction Hcalls as [|c calls [Hadm Haut] _ IH]; intros db Hle; simpl; [done|].
  apply IH. destruct c as [now id user wanted|user articlesId wanted]; simpl in *.
  - by apply changeState_boosted_count.
  - by apply changeStates_boosted_count.
Qed.

(** *** Bulk changes leave other articles alone *)

(** C6: a bulk state change never mutates an article whose owner differs
    from the acting user, whoever the acting user is (an administrator
    included): the write predicate of [updateMany] always carries
    [userId = user._id]. *)
Theorem changeStates_only_touches_own user articlesId wanted db id art :
  db !! id = Some art →
  userId art ≠ u_id user →
  (changeStates isValid user articlesId wanted db).2 !! id = Some art.
Proof.
  intros Hart Hown. unfold changeStates.
  destruct (checkArticlesForMultipleChanges _ _ _ _ _) as [l|e]; simpl; [|done].
  rewrite lookup_updateMany, Hart. simpl.
  rewrite decide_False; [done|]. intros [_ ?]. done.
Qed.

Lemma changeStates_response_depends_on_count user articlesId wanted db db2 :
  countDocuments (u_id user) "boosted" db2 = countDocuments (u_id user) "boosted" db →
  (changeStates isValid user articlesId wanted db2).1
  = (changeStates isValid user articlesId wanted db).1.
Proof.
  intros Hcount. unfold changeStates, checkArticlesForMultipleChanges.
  rewrite Hcount.
  destruct (checkValidStates wanted true); simpl; [|done].
  destruct articlesId as [ids|]; simpl; [|done].
  destruct (throwIf (bool_decide (length ids = 0)) _); simpl; [|done].
  destruct (list_find _ ids) as [[index ?]|]; simpl; [done|].
  destruct (if negb (tagAdmin user) then _ else _); simpl; done.
Qed.

(** C4: a bulk state change leaves untouched every article whose current
    state is outside the origin set declared for the wanted state, even
    when its id is in the request; and such an article raises no error of
    its own, since the response depends on the store only through the
    number of boosted articles of the acting user. *)
Theorem changeStates_skips_outside_origin user articlesId wanted db id art :
  db !! id = Some art →
  state art ∉ declaredOrigins wanted →
  (changeStates isValid user articlesId wanted db).2 !! id = Some art
  ∧ ∀ db2,
      countDocuments (u_id user) "boosted" db2
      = countDocuments (u_id user) "boosted" db →
      (changeStates isValid user articlesId wanted db2).1
      = (changeStates isValid user articlesId wanted db).1.
Proof.
  intros Hart Hout. split.
  - unfold changeStates.
    destruct (checkArticlesForMultipleChanges _ _ _ _ _) as [l|e] eqn:Hcheck;
      simpl; [|done].
    rewrite lookup_updateMany, Hart. simpl.
    rewrite decide_False; [done|]. intros [Hin _].
    apply checkArticlesForMultipleChanges_inv in Hcheck as (ids & _ & Hl & _).
    destruct (Hl id Hin) as (_ & art' & Hart' & Horigin).
    rewrite Hart in Hart'. injection Hart' as <-. done.
  - intros db2. apply changeStates_response_depends_on_count.
Qed.

End ArticleProperties.

(** A bulk publication by Ana that lists her boosted article [id1]: the
    article keeps its state. *)
Lemma changeStates_skips_outside_origin_witness :
  (Articles.changeStates Scenario.hex24 Scenario.ana
     (Some [Scenario.id1; Scenario.id4]) "published" Scenario.shelf).2
    !! Scenario.id1
  = Some (Scenario.article_of (u_id Scenario.ana) "boosted" None)
  ∧ ∀ db2,
      Articles.countDocuments (u_id Scenario.ana) "boosted" db2
      = Articles.countDocuments (u_id Scenario.ana) "boosted" Scenario.shelf →
      (Articles.changeStates Scenario.hex24 Scenario.ana
         (Some [Scenario.id1; Scenario.id4]) "published" db2).1
      = (Articles.changeStates Scenario.hex24 Scenario.ana
           (Some [Scenario.id1; Scenario.id4]) "published" Scenario.shelf).1.
Proof.
  apply (changeStates_skips_outside_origin Scenario.hex24 Scenario.ana
           (Some [Scenario.id1; Scenario.id4]) "published" Scenario.shelf
           Scenario.id1 (Scenario.article_of (u_id Scenario.ana) "boosted" None)).
  - vm_compute. reflexivity.
  - apply (bool_decide_unpack _). vm_compute. exact I.
Defined.

(** An administrator's bulk inactivation that lists Ana's published
    article [id3]: the article is not the administrator's, and stays. *)
Lemma changeStates_only_touches_own_witness :
  (Articles.changeStates Scenario.hex24 Scenario.root
     (Some [Scenario.id3]) "inactivated" Scenario.shelf).2 !! Scenario.id3
  = Some (Scenario.article_of (u_id Scenario.ana) "published" None).
Proof.
  apply (changeStates_only_touches_own Scenario.hex24 Scenario.root
           (Some [Scenario.id3]) "inactivated" Scenario.shelf Scenario.id3).
  - vm_compute. reflexivity.
  - vm_compute. discriminate.
Defined.

(** Ana first asks to boost a third article (refused), then inactivates a
    boosted one in bulk, then boosts the third: she ends with two boosted
    articles. *)
Lemma boost_quota_preserved_witness :
  Articles.countDocuments (u_id Scenario.ana) "boosted"
    (Scenario.run_all Scenario.hex24
       [Scenario.ChangeState 100 Scenario.id3 Scenario.ana "boosted";
        Scenario.ChangeStatesBulk Scenario.ana (Some [Scenario.id1]) "inactivated";
        Scenario.ChangeState 200 Scenario.id3 Scenario.ana "boosted"]
       Scenario.shelf) ≤ 2.
Proof.
  apply (boost_quota_preserved Scenario.hex24 (u_id Scenario.ana)).
  - repeat constructor.
  - vm_compute. lia.
Defined.

(** C2, as the specification words it, fails: one single state change by
    an administrator boosts a third article of a non-admin author who had
    two. [validateState] counts the boosted articles of the acting user,
    and only when the acting user carries [tagAuthor]. *)
Lemma boost_quota_broken_by_administrator :
  tagAdmin Scenario.ana = false
  ∧ tagAuthor Scenario.ana = true
  ∧ Articles.countDocuments (u_id Scenario.ana) "boosted" Scenario.shelf = 2
  ∧ Articles.countDocuments (u_id Scenario.ana) "boosted"
      (Scenario.run_all Scenario.hex24
         [Scenario.ChangeState 100 Scenario.id3 Scenario.root "boosted"]
         Scenario.shelf) = 3.
Proof. vm_compute. done. Qed.

(** C1 fails on the code. A bulk change to [removed] writes the state
    alone, so the draft [id4] ends removed with no [removedAt]; and
    [changeState] accepts a removed article, so an administrator can
    publish it again with [removedAt] still set, after which a second
    [remove] overwrites the first removal date. *)
Theorem removedAt_not_tied_to_removed_state :
  (let r := Articles.changeStates Scenario.hex24 Scenario.ana
              (Some [Scenario.id4]) "removed" Scenario.shelf in
   r.1 = Articles.Sent 204
   ∧ Articles.state <$> r.2 !! Scenario.id4 = Some "removed"
   ∧ Articles.removedAt <$> r.2 !! Scenario.id4 = Some None)
  ∧ (let db1 := (Articles.remove 100 "a1b2" Scenario.id3 Scenario.root Scenario.shelf).2 in
     let db2 := (Articles.changeState 200 Scenario.id3 Scenario.root "published" db1).2 in
     let db3 := (Articles.remove 300 "c3d4" Scenario.id3 Scenario.root db2).2 in
     Articles.removedAt <$> db1 !! Scenario.id3 = Some (Some 100%Z)
     ∧ Articles.state <$> db2 !! Scenario.id3 = Some "published"
     ∧ Articles.removedAt <$> db2 !! Scenario.id3 = Some (Some 100%Z)
     ∧ Articles.removedAt <$> db3 !! Scenario.id3 = Some (Some 300%Z)).
Proof. vm_compute. done. Qed.

(** C3 fails on the code. Ana, a non-admin author with two boosted
    articles, asks to inactivate her published article [id3], and then
    her boosted article [id1]: both requests pass the earlier checks and
    are refused with the quota error, although neither asks for
    [boosted]. The quota test of [validateState] does not look at the
    wanted state. *)
Theorem changeState_quota_ignores_wanted_state :
  Articles.changeState 100 Scenario.id3 Scenario.ana "inactivated" Scenario.shelf
  = (Articles.Failed (Thrown "state" "Limite de artigos impulsionados atingido"),
     Scenario.shelf)
  ∧ Articles.changeState 100 Scenario.id1 Scenario.ana "inactivated" Scenario.shelf
    = (Articles.Failed (Thrown "state" "Limite de artigos impulsionados atingido"),
       Scenario.shelf).
Proof. split; reflexivity. Qed.

(** Whatever the body, [save] on an id that no article has never answers
    with the not-found error of the sibling handlers. *)
Lemma save_absent_article_never_not_found isValid id user body
    (db : gmap string Articles.Article) themes categories :
  db !! id = None →
  ∃ e, Articles.save isValid id user body db themes categories
       = (Articles.Failed e, db)
       ∧ e ≠ Thrown "id" "Artigo não encontrado".
Proof.
  intros Habsent.
  unfold Articles.save, Articles.validateFields, Articles.castObjectId,
    Articles.findOne.
  rewrite Habsent.
  destruct (Articles.present_and_falsy (Articles.b_title body)); simpl;
    [eexists; split; [reflexivity|discriminate]|].
  destruct (Articles.present_and_falsy (Articles.b_customUri body)); simpl;
    [eexists; split; [reflexivity|discriminate]|].
  destruct (isValid id); simpl;
    eexists; (split; [reflexivity|discriminate]).
Qed.

(** C5 fails on the code. [validateFields] reads [currentArticle.userId]
    without testing that [findOne] found a document, so an update of the
    absent article [id9] is answered with the runtime's TypeError, where
    [remove] and [validateState] throw "Artigo não encontrado". *)
Theorem save_absent_article_raises_TypeError :
  Articles.findOne Scenario.id9 Scenario.shelf = None
  ∧ Articles.save Scenario.hex24 Scenario.id9 Scenario.ana
      (Scenario.describe "New text") Scenario.shelf ∅ ∅
    = (Articles.Failed (TypeError "Cannot read property 'userId' of null"),
       Scenario.shelf)
  ∧ (Articles.remove 100 "a1b2" Scenario.id9 Scenario.ana Scenario.shelf).1
    = Articles.Failed (Thrown "id" "Artigo não encontrado").
Proof. repeat split; reflexivity. Qed.

(** ** Comment listings *)

Section ListSplit.
Context {A : Type} (P Q1 Q2 : A → Prop).
Context `{!∀ x, Decision (P x), !∀ x, Decision (Q1 x), !∀ x, Decision (Q2 x)}.
Hypothesis cover : ∀ x, P x ↔ Q1 x ∨ Q2 x.
Hypothesis apart : ∀ x, ¬ (Q1 x ∧ Q2 x).

Lemma filter_split_Permutation (l : list A) :
  filter P l ≡ₚ filter Q1 l ++ filter Q2 l.
Proof using cover apart.
  induction l as [|x l IH]; [done|].
  rewrite !filter_cons.
  destruct (decide (Q1 x)) as [Hq1|Hq1], (decide (Q2 x)) as [Hq2|Hq2].
  - destruct (apart x). done.
  - rewrite decide_True by (apply cover; by left). simpl. by rewrite IH.
  - rewrite decide_True by (apply cover; by right).
    rewrite IH. apply Permutation_middle.
  - rewrite decide_False; [done|]. intros [?|?]%cover; done.
Qed.

Lemma filter_split_length (l : list A) :
  length (filter P l) = length (filter Q1 l) + length (filter Q2 l).
Proof using cover apart.
  rewrite filter_split_Permutation. apply length_app.
Qed.
End ListSplit.

Section CommentProperties.
Import Comments.
Context (isValid : string → bool).
Context (articles : gmap string Articles.Article).
Context (users : gmap string Account).

Lemma paginate_whole {A} (limit : Z) (rows : list A) :
  (0 < limit)%Z → (Z.of_nat (length rows) ≤ limit)%Z →
  paginate 1 limit rows = Some rows.
Proof.
  intros Hpos Hlen. unfold paginate.
  rewrite decide_True by lia.
  replace (1 * limit - limit)%Z with 0%Z by lia. simpl.
  rewrite drop_0, take_ge by lia. done.
Qed.

Lemma paginate_subseteq {A} (page limit : Z) (rows shown : list A) :
  paginate page limit rows = Some shown → shown ⊆ rows.
Proof.
  unfold paginate. case_decide; [|done]. intros [= <-].
  etransitivity; [apply subseteq_take|apply subseteq_drop].
Qed.

Lemma listing_comments_subseteq total rows page limit :
  comments (listing total rows page limit) ⊆ rows.
Proof.
  unfold listing. destruct (paginate page limit rows) as [shown|] eqn:Hp; simpl.
  - by eapply paginate_subseteq.
  - apply list_subseteq_nil.
Qed.

Lemma rows_split user docs :
  rowsAll isValid articles users user docs
  ≡ₚ rowsNotReaded isValid articles users user docs
     ++ rowsOnlyReaded isValid articles users user docs.
Proof.
  unfold rowsAll, rowsNotReaded, rowsOnlyReaded, sort_newest_first.
  rewrite !merge_sort_Permutation.
  apply filter_split_Permutation.
  - intros v. destruct (decide (readedAt (v_comment v) = None)); tauto.
  - intros v. tauto.
Qed.

(** Which comments each partition selects: the comments of the store
    whose article has, as [author], an account that is the user, and
    whose [answerOf] joins no comment; [not-readed] keeps those without
    [readedAt], [only-readed] those with it. *)
Lemma partition_members user docs v :
  let mine c :=
    c ∈ docs ∧ v = view articles users docs c
    ∧ author_id_of articles users c = author_query isValid user
    ∧ v_answerOf v = None in
  (v ∈ rowsAll isValid articles users user docs ↔ ∃ c, mine c)
  ∧ (v ∈ rowsNotReaded isValid articles users user docs
     ↔ ∃ c, mine c ∧ readedAt c = None)
  ∧ (v ∈ rowsOnlyReaded isValid articles users user docs
     ↔ ∃ c, mine c ∧ readedAt c ≠ None).
Proof.
  intros mine. subst mine.
  unfold rowsAll, rowsNotReaded, rowsOnlyReaded, sort_newest_first.
  rewrite !merge_sort_Permutation, !list_elem_of_filter, !list_elem_of_fmap.
  split; [|split]; split.
  - intros [[Hauthor Hroot] (c & -> & Hc)]. exists c. done.
  - intros (c & Hc & -> & Hauthor & Hroot). eauto.
  - intros [(Hauthor & Hroot & Hread) (c & -> & Hc)]. exists c. done.
  - intros (c & (Hc & -> & Hauthor & Hroot) & Hread). eauto 6.
  - intros [(Hauthor & Hroot & Hread) (c & -> & Hc)]. exists c. done.
  - intros (c & (Hc & -> & Hauthor & Hroot) & Hread). eauto 6.
Qed.

(** On articles without an [author] property, which is how articles.js
    stores them, the three partitions of a user with a well-formed id
    select nothing. *)
Lemma partitions_without_author user docs :
  (∀ k a, articles !! k = Some a → Articles.author a = None) →
  isValid (u_id user) = true →
  countAll isValid articles users user docs = 0
  ∧ countNotReaded isValid articles users user docs = 0
  ∧ countOnlyReaded isValid articles users user docs = 0
  ∧ rowsAll isValid articles users user docs = []
  ∧ rowsNotReaded isValid articles users user docs = []
  ∧ rowsOnlyReaded isValid articles users user docs = [].
Proof.
  intros Hnone Hvalid.
  assert (∀ c, author_id_of articles users c ≠ author_query isValid user) as Hother.
  { intros c. unfold author_id_of, author_query, article_of. rewrite Hvalid.
    destruct (articles !! articleId c) as [a|] eqn:Ha; [|done].
    simpl. by rewrite (Hnone _ _ Ha). }
  unfold countAll, countNotReaded, countOnlyReaded.
  repeat split.
  1-3: apply length_zero_iff_nil, elem_of_nil_inv;
       intros c [Hc _]%list_elem_of_filter; apply (Hother c), Hc.
  all: apply elem_of_nil_inv; intros v Hv;
       destruct (partition_members user docs v) as (Hall & Hunread & Hread).
  - apply Hall in Hv as (c & _ & _ & Hauthor & _). by apply (Hother c).
  - apply Hunread in Hv as (c & (_ & _ & Hauthor & _) & _). by apply (Hother c).
  - apply Hread in Hv as (c & (_ & _ & Hauthor & _) & _). by apply (Hother c).
Qed.

(** The three partitions of the root comment listing form a disjoint
    cover of what [all] selects. The totals add up whatever the
    page; the comments that [all] selects are those that [not-readed]
    selects together with those that [only-readed] selects, and no comment
    is selected by both; every page shown is drawn from its partition; and
    when one page holds the whole of [all], the three pages returned
    satisfy the same equation. *)
Lemma listing_partitions_cover user docs :
  let all := getAllComments isValid articles users user in
  let unread := getNotReadedComments isValid articles users user in
  let read := getOnlyReadedComments isValid articles users user in
  (∀ page limit,
     count (all page limit docs)
     = count (unread page limit docs) + count (read page limit docs))
  ∧ rowsAll isValid articles users user docs
    ≡ₚ rowsNotReaded isValid articles users user docs
       ++ rowsOnlyReaded isValid articles users user docs
  ∧ (∀ v, ¬ (v ∈ rowsNotReaded isValid articles users user docs
             ∧ v ∈ rowsOnlyReaded isValid articles users user docs))
  ∧ (∀ page limit,
       comments (all page limit docs) ⊆ rowsAll isValid articles users user docs
       ∧ comments (unread page limit docs)
         ⊆ rowsNotReaded isValid articles users user docs
       ∧ comments (read page limit docs)
         ⊆ rowsOnlyReaded isValid articles users user docs)
  ∧ (∀ limit,
       (0 < limit)%Z →
       (Z.of_nat (length (rowsAll isValid articles users user docs)) ≤ limit)%Z →
       comments (all 1%Z limit docs)
       ≡ₚ comments (unread 1%Z limit docs) ++ comments (read 1%Z limit docs)).
Proof.
  intros all unread read. subst all unread read.
  unfold getAllComments, getNotReadedComments, getOnlyReadedComments.
  split; [|split; [|split; [|split]]].
  - intros page limit. unfold listing.
    assert (∀ r1 r2 : list CommentView,
              is_Some (paginate page limit r1) ↔ is_Some (paginate page limit r2))
      as Hsame.
    { intros r1 r2. unfold paginate. case_decide; [|by rewrite <- !not_eq_None_Some].
      split; eauto. }
    destruct (paginate page limit (rowsAll _ _ _ _ _)) as [sa|] eqn:Ha;
      destruct (paginate page limit (rowsNotReaded _ _ _ _ _)) as [su|] eqn:Hu;
      destruct (paginate page limit (rowsOnlyReaded _ _ _ _ _)) as [sr|] eqn:Hr;
      simpl;
      try (exfalso;
           match goal with
           | H1 : paginate _ _ ?r1 = Some _, H2 : paginate _ _ ?r2 = None |- _ =>
             destruct (proj1 (Hsame r1 r2) (mk_is_Some _ _ H1)) as [? ?]; congruence
           end).
    + unfold countAll, countNotReaded, countOnlyReaded.
      apply filter_split_length.
      * intros c. destruct (decide (readedAt c = None)); tauto.
      * intros c. tauto.
    + done.
  - apply rows_split.
  - intros v [Hu Hr]. unfold rowsNotReaded, rowsOnlyReaded, sort_newest_first in *.
    rewrite merge_sort_Permutation in Hu, Hr.
    apply list_elem_of_filter in Hu as [(_ & _ & Hu) _].
    apply list_elem_of_filter in Hr as [(_ & _ & Hr) _]. done.
  - intros page limit. repeat split; apply listing_comments_subseteq.
  - intros limit Hpos Hlen. unfold listing.
    pose proof (rows_split user docs) as Hsplit.
    pose proof (Permutation_length Hsplit) as Hlens. rewrite length_app in Hlens.
    rewrite !paginate_whole by lia. simpl. done.
Qed.

End CommentProperties.

(** Ana's listing over [thread]: four root comments, three unread and one
    read; the answer [cid3] is in none of the partitions. *)
Example listing_partitions_of_thread :
  let shown f :=
    (λ v, Comments.c_id (Comments.v_comment v))
    <$> Comments.comments (f 1%Z 10%Z Scenario.thread) in
  shown (Comments.getAllComments Scenario.hex24 Scenario.shelf Scenario.accounts Scenario.ana)
  = [Scenario.cid4; Scenario.cid2; Scenario.cid1; Scenario.cid5]
  ∧ shown (Comments.getNotReadedComments Scenario.hex24 Scenario.shelf
             Scenario.accounts Scenario.ana)
    = [Scenario.cid4; Scenario.cid1; Scenario.cid5]
  ∧ shown (Comments.getOnlyReadedComments Scenario.hex24 Scenario.shelf
             Scenario.accounts Scenario.ana)
    = [Scenario.cid2]
  ∧ Comments.count (Comments.getAllComments Scenario.hex24 Scenario.shelf
                      Scenario.accounts Scenario.ana 1%Z 10%Z Scenario.thread) = 4.
Proof. vm_compute. done. Qed.


(** ** The statistics job *)

Section JobProperties.
Import Comments Scenario.
Context (articles : gmap string Articles.Article).
Context (users : gmap string Account).

Lemma new_Date_day_31 year monthIndex :
  new_Date year monthIndex 31 = (new_Date year monthIndex 1 + 30 * msPerDay)%Z.
Proof. unfold new_Date, days_from_civil. lia. Qed.

Lemma elem_of_active_users uid :
  uid ∈ active_users users
  ↔ ∃ account, users !! uid = Some account ∧ deletedAt account = None.
Proof.
  unfold active_users. rewrite list_elem_of_fmap. split.
  - intros [[k account] [-> Hin]].
    apply elem_of_map_to_list, map_lookup_filter_Some in Hin as [Hk Hactive].
    eauto.
  - intros (account & Hk & Hactive). exists (uid, account). split; [done|].
    apply elem_of_map_to_list, map_lookup_filter_Some. done.
Qed.

Lemma settle_Permutation {A} (schedule : list nat) (pending : list A) :
  settle schedule pending ≡ₚ pending.
Proof.
  revert pending. induction schedule as [|n schedule IH]; intros pending; [done|].
  simpl. destruct (pending !! (n `mod` length pending)) as [row|] eqn:Hrow; [|done].
  rewrite IH. symmetry. by apply delete_Permutation.
Qed.

(** Every order of the pending inserts is the outcome of some schedule. *)
Lemma settle_reaches {A} (pending order : list A) :
  pending ≡ₚ order → ∃ schedule, settle schedule pending = order.
Proof.
  revert pending. induction order as [|row order IH]; intros pending Hperm.
  - exists []. simpl. by apply Permutation_nil_r.
  - assert (row ∈ pending) as Hin by (rewrite Hperm; left).
    apply list_elem_of_lookup in Hin as [i Hi].
    destruct (IH (delete i pending)) as [schedule Hschedule].
    { apply (Permutation_cons_inv (a := row)).
      by rewrite <- (delete_Permutation pending i row). }
    exists (i :: schedule). simpl.
    rewrite Nat.mod_small by (by eapply lookup_lt_Some).
    by rewrite Hi, Hschedule.
Qed.

Lemma commentsJob_rows schedule year monthIndex docs table :
  commentsJob articles users schedule year monthIndex docs table
  = table
    ++ settle schedule
         ((user_row articles year monthIndex docs <$> active_users users)
          ++ [platform_row year monthIndex docs]).
Proof.
  unfold commentsJob, user_row, platform_row, in_window, article_of.
  rewrite new_Date_day_31.
  do 2 f_equal. apply (f_equal2 app).
  - reflexivity.
  - do 3 f_equal.
    apply list_filter_iff. intros c. tauto.
Qed.

(** What a run does, in the terms of the job's own pipeline: it appends
    to the table, in the order in which the inserts complete, one row for
    every user that is not soft-deleted, each user once, holding the
    number of root comments on the articles whose [author] is that user,
    created from the first day of the current month (included) up to
    day 31 of that month (excluded), and one row without reference
    holding the number of all root comments created in that window;
    day 31 is thirty days after the first day whatever the month, so for
    February 2021 it is 3 March; and a second run on the same data
    appends the same rows again. *)
Lemma commentsJob_appends_monthly_rows schedule schedule' year monthIndex docs table :
  let rows :=
    (user_row articles year monthIndex docs <$> active_users users)
    ++ [platform_row year monthIndex docs] in
  (∃ inserted,
     commentsJob articles users schedule year monthIndex docs table
     = table ++ inserted
     ∧ inserted ≡ₚ rows)
  ∧ (∃ inserted inserted',
       commentsJob articles users schedule' year monthIndex docs
         (commentsJob articles users schedule year monthIndex docs table)
       = table ++ inserted ++ inserted'
       ∧ inserted ≡ₚ rows ∧ inserted' ≡ₚ rows)
  ∧ NoDup (active_users users)
  ∧ (∀ uid, uid ∈ active_users users
            ↔ ∃ account, users !! uid = Some account ∧ deletedAt account = None)
  ∧ new_Date year monthIndex 31 = (new_Date year monthIndex 1 + 30 * msPerDay)%Z
  ∧ new_Date 2021 1 31 = new_Date 2021 2 3.
Proof.
  intros rows. subst rows. split; [|split; [|split; [|split; [|split]]]].
  - eexists. split; [apply commentsJob_rows|apply settle_Permutation].
  - eexists _, _. rewrite !commentsJob_rows, <- (assoc_L (++)).
    split; [reflexivity|]. split; apply settle_Permutation.
  - apply NoDup_fst_map_to_list.
  - apply elem_of_active_users.
  - apply new_Date_day_31.
  - reflexivity.
Qed.

(** On articles without an [author] property, which is how articles.js
    stores them, the row of every user holds 0. *)
Lemma user_row_without_author year monthIndex docs uid :
  (∀ k a, articles !! k = Some a → Articles.author a = None) →
  s_count (user_row articles year monthIndex docs uid) = 0.
Proof.
  intros Hnone. unfold user_row. simpl.
  apply length_zero_iff_nil, elem_of_nil_inv.
  intros c [(Hauthor & _) _]%list_elem_of_filter.
  destruct (articles !! articleId c) as [a|] eqn:Ha; [|done].
  simpl in Hauthor. rewrite (Hnone _ _ Ha) in Hauthor. done.
Qed.

End JobProperties.

(** The job of February 2021 over [thread], the rows completing in the
    order they were started: the two active accounts get a row, the
    soft-deleted one none; the comment of 2 March is counted in February,
    the comment of 31 January is not. *)
Example commentsJob_february_2021 :
  Comments.commentsJob Scenario.shelf Scenario.accounts [] 2021 1 Scenario.thread []
  ≡ₚ [{| Comments.month := 2; Comments.year := 2021; Comments.s_count := 3;
         Comments.reference := Some (u_id Scenario.ana) |};
      {| Comments.month := 2; Comments.year := 2021; Comments.s_count := 0;
         Comments.reference := Some (u_id Scenario.root) |};
      {| Comments.month := 2; Comments.year := 2021; Comments.s_count := 3;
         Comments.reference := None |}].
Proof. vm_compute. done. Qed.

(** A schedule on which the insert of the platform row completes first. *)
Example commentsJob_platform_row_first :
  Comments.reference
  <$> Comments.commentsJob Scenario.shelf Scenario.accounts [2] 2021 1
        Scenario.thread []
  = [None; Some (u_id Scenario.ana); Some (u_id Scenario.root)].
Proof. vm_compute. done. Qed.

(** C9 fails on the code. The job matches the comments of a user on
    ['article.author'], while articles.js stores the owner of an article
    under [userId] and writes no [author]. Ana owns the four articles of
    [created_shelf], and three root comments on them were created in the
    window of February 2021; whatever the order in which the inserts
    complete, the run inserts for Ana a row that holds 0, beside the row
    of the platform that holds 3. *)
Theorem commentsJob_misses_articles_of_owner schedule :
  Scenario.owner_row Scenario.created_shelf 2021 1 Scenario.thread
    (u_id Scenario.ana)
  = {| Comments.month := 2; Comments.year := 2021; Comments.s_count := 3;
       Comments.reference := Some (u_id Scenario.ana) |}
  ∧ Comments.commentsJob Scenario.created_shelf Scenario.accounts schedule
      2021 1 Scenario.thread []
    ≡ₚ [{| Comments.month := 2; Comments.year := 2021; Comments.s_count := 0;
           Comments.reference := Some (u_id Scenario.ana) |};
        {| Comments.month := 2; Comments.year := 2021; Comments.s_count := 0;
           Comments.reference := Some (u_id Scenario.root) |};
        {| Comments.month := 2; Comments.year := 2021; Comments.s_count := 3;
           Comments.reference := None |}].
Proof.
  split; [vm_compute; reflexivity|].
  rewrite commentsJob_rows, settle_Permutation.
  vm_compute. done.
Qed.

(** ** Answering a comment *)

Section AnswerProperties.
Import Comments.
Context (isValid : string → bool).
Context (articles : gmap string Articles.Article).
Context (users : gmap string Account).

(** C10: whenever [answerComment] succeeds, the response has status 201
    and no body: the value of the saved answer is dropped by the callback
    of the promise chain. The answer itself is stored, as an answer to the
    root comment and on the article of the root comment, under the name
    and address of the acting user. *)
Theorem answerComment_sends_no_payload newId now id user answer notify
    docs outbox code body docs' outbox' :
  answerComment isValid articles users newId now id user answer notify docs outbox
  = (Sent code body, docs', outbox') →
  code = 201%Z
  ∧ body = None
  ∧ ∃ root article,
      getOne isValid articles users id docs = Ok (Some root)
      ∧ av_id (v_article root) = Some article
      ∧ docs' = docs ++ [{| c_id := newId; articleId := article;
                            answerOf := Some id; userName := u_name user;
                            userEmail := u_email user; message := answer;
                            confirmedAt := None; readedAt := None;
                            createdAt := now; updatedAt := now |}].
Proof.
  unfold answerComment, after_save. intros H.
  destruct (validateLength answer _ _) as [[]|e]; simpl in H; [|discriminate H].
  destruct (getOne isValid articles users id docs) as [[root|]|e] eqn:Hroot;
    simpl in H; try discriminate H.
  destruct (av_id (v_article root)) as [article|] eqn:Harticle;
    simpl in H; [|discriminate H].
  injection H as <- <- <- <-. eauto 10.
Qed.

End AnswerProperties.

(** Ana answers the root comment [cid1] and asks for the notification:
    the answer is stored and the response carries nothing. *)
Lemma answerComment_sends_no_payload_witness :
  let call :=
    Comments.answerComment Scenario.hex24 Scenario.shelf Scenario.accounts
      (Comments.c_id Scenario.reply) (Comments.createdAt Scenario.reply)
      Scenario.cid1 Scenario.ana (Comments.message Scenario.reply) (Some "yes")
      Scenario.thread [] in
  call.1 = (Comments.Sent 201 None, Scenario.thread ++ [Scenario.reply])
  ∧ length call.2 = 1
  ∧ ∃ root article,
      Comments.getOne Scenario.hex24 Scenario.shelf Scenario.accounts
        Scenario.cid1 Scenario.thread = Ok (Some root)
      ∧ Comments.av_id (Comments.v_article root) = Some article
      ∧ Scenario.thread ++ [Scenario.reply]
        = Scenario.thread
          ++ [{| Comments.c_id := Comments.c_id Scenario.reply;
                 Comments.articleId := article;
                 Comments.answerOf := Some Scenario.cid1;
                 Comments.userName := u_name Scenario.ana;
                 Comments.userEmail := u_email Scenario.ana;
                 Comments.message := Comments.message Scenario.reply;
                 Comments.confirmedAt := None; Comments.readedAt := None;
                 Comments.createdAt := Comments.createdAt Scenario.reply;
                 Comments.updatedAt := Comments.createdAt Scenario.reply |}].
Proof.
  intros call. split; [vm_compute; reflexivity|]. split; [vm_compute; reflexivity|].
  refine (proj2 (proj2
    (answerComment_sends_no_payload Scenario.hex24 Scenario.shelf
       Scenario.accounts (Comments.c_id Scenario.reply)
       (Comments.createdAt Scenario.reply) Scenario.cid1 Scenario.ana
       (Comments.message Scenario.reply) (Some "yes") Scenario.thread []
       201%Z None (Scenario.thread ++ [Scenario.reply]) call.2 _))).
  vm_compute. reflexivity.
Defined.

(** ** Comment settings *)

Section SettingsProperties.
Import CommentSettings.
Context (column_default : Row).

Lemma first_row_fmap (f : Row → Row) id table :
  (∀ r, userId (f r) = userId r) →
  first_row id (f <$> table) = f <$> first_row id table.
Proof.
  intros Hkeep. unfold first_row.
  induction table as [|r table IH]; [done|].
  cbn. rewrite Hkeep.
  destruct (decide (userId r = id)); [done|].
  rewrite <- !option_fmap_compose in *.
  destruct (list_find _ (f <$> table)) as [[? ?]|],
           (list_find _ table) as [[? ?]|]; simpl in *; congruence.
Qed.

Lemma first_row_userId id table r :
  first_row id table = Some r → userId r = id.
Proof.
  unfold first_row. destruct (list_find _ table) as [[i r']|] eqn:Hfind; [|done].
  intros [= <-]. by apply list_find_Some in Hfind as (_ & ? & _).
Qed.

(** The row that [get] reads after a [save] over existing settings. *)
Lemma save_over_existing now user body users table cur :
  verifyEnumFields body = Ok () →
  verifyUser user users = Ok () →
  first_row (u_id user) table = Some cur →
  first_row (u_id user) (save column_default now user body users table).2
  = Some (updated_row now body cur cur).
Proof.
  intros Henum Huser Hcur. unfold save. rewrite Henum. simpl. rewrite Huser, Hcur.
  set (f := λ r, if decide (userId r = u_id user)
                 then updated_row now body cur r else r).
  assert (Hrow : first_row (u_id user) (f <$> table) = Some (f cur)).
  { rewrite first_row_fmap, Hcur; [done|].
    intros r. unfold f. by case_decide. }
  rewrite Hrow. simpl. rewrite Hrow. unfold f.
  rewrite decide_True by (by eapply first_row_userId). done.
Qed.

(** C8, as the code has it: for a user with existing settings, after a
    [save] whose body passes the validation, a [get] that is not answered
    from the client's cache returns, for the page size and for each
    enumerated field, the value of the body when the body has one that is
    truthy (a number other than zero, a string that is not empty), and the
    value stored before otherwise; and for [notify] the boolean of the
    body when it has one, and otherwise the truth value of the page size
    stored before. *)
Theorem save_then_get now now' ttl user body users table cur :
  verifyEnumFields body = Ok () →
  verifyUser user users = Ok () →
  first_row (u_id user) table = Some cur →
  (∀ t, ttl = Some t → (t < now')%Z) →
  ∃ s,
    get now' ttl user users (save column_default now user body users table).2
    = Sent 200 (Some s)
    ∧ (∀ l, b_limit body = Some l → l ≠ 0%Z → s_limit s = Some l)
    ∧ (b_limit body = None ∨ b_limit body = Some 0%Z → s_limit s = limit cur)
    ∧ (∀ v, b_order body = Some v → v ≠ "" → s_order s = Some v)
    ∧ (b_order body = None ∨ b_order body = Some "" → s_order s = order cur)
    ∧ (∀ v, b_type body = Some v → v ≠ "" → s_type s = Some v)
    ∧ (b_type body = None ∨ b_type body = Some "" → s_type s = type cur)
    ∧ (∀ v, b_answersOrder body = Some v → v ≠ "" → s_answersOrder s = Some v)
    ∧ (b_answersOrder body = None ∨ b_answersOrder body = Some ""
       → s_answersOrder s = answers_order cur)
    ∧ (∀ v, b_answersType body = Some v → v ≠ "" → s_answersType s = Some v)
    ∧ (b_answersType body = None ∨ b_answersType body = Some ""
       → s_answersType s = answers_type cur)
    ∧ (∀ b, b_notify body = Some b → s_notify s = b)
    ∧ (b_notify body = None → s_notify s = Boolean (limit cur)).
Proof.
  intros Henum Huser Hcur Hstale.
  exists (settings_of (updated_row now body cur cur) None). split.
  { unfold get.
    assert (match ttl with Some t => bool_decide (now' ≤ t)%Z | None => false end
            = false) as ->.
    { destruct ttl as [t|]; [|done]. apply bool_decide_eq_false.
      specialize (Hstale t eq_refl). lia. }
    rewrite Huser. by erewrite save_over_existing. }
  simpl. unfold or_else, or_else_number, truthy, truthy_number.
  repeat split.
  - intros l -> Hl. by rewrite bool_decide_eq_true_2.
  - intros [->| ->]; done.
  - intros v -> Hv. by rewrite bool_decide_eq_true_2.
  - intros [->| ->]; done.
  - intros v -> Hv. by rewrite bool_decide_eq_true_2.
  - intros [->| ->]; done.
  - intros v -> Hv. by rewrite bool_decide_eq_true_2.
  - intros [->| ->]; done.
  - intros v -> Hv. by rewrite bool_decide_eq_true_2.
  - intros [->| ->]; done.
  - intros b ->. by destruct b.
  - intros ->. done.
Qed.

End SettingsProperties.

(** Ana changes the order to ascending and turns the notification on: the
    next [get] returns both, and the page size she had. *)
Lemma save_then_get_witness :
  ∃ s,
    CommentSettings.get 1613000001000 None Scenario.ana Scenario.accounts
      (CommentSettings.save Scenario.no_defaults 1613000000000 Scenario.ana
         Scenario.oldest_first_and_notify Scenario.accounts
         [Scenario.ana_settings]).2
    = CommentSettings.Sent 200 (Some s)
    ∧ CommentSettings.s_order s = Some "asc"
    ∧ CommentSettings.s_limit s = Some 10%Z
    ∧ CommentSettings.s_notify s = true.
Proof.
  destruct (save_then_get Scenario.no_defaults 1613000000000 1613000001000 None
              Scenario.ana Scenario.oldest_first_and_notify Scenario.accounts
              [Scenario.ana_settings] Scenario.ana_settings)
    as (s & Hget & _ & Hlimit & Horder & _ & _ & _ & _ & _ & _ & _ & Hnotify & _).
  - vm_compute. reflexivity.
  - vm_compute. reflexivity.
  - vm_compute. reflexivity.
  - intros t Ht. discriminate Ht.
  - exists s. split; [exact Hget|]. split; [|split].
    + apply (Horder "asc"); [reflexivity|discriminate].
    + rewrite Hlimit; [reflexivity|left; reflexivity].
    + apply (Hnotify true). reflexivity.
Defined.

(** C8, as the specification words it, fails: a body that passes the
    validation and supplies the page size 0 is saved over settings whose
    page size is 10, and the next [get] returns 10. [limit || ...] takes
    a zero for an absent value. *)
Lemma save_then_get_drops_zero_limit :
  CommentSettings.verifyEnumFields Scenario.page_size_zero = Ok ()
  ∧ CommentSettings.verifyUser Scenario.ana Scenario.accounts = Ok ()
  ∧ CommentSettings.first_row (u_id Scenario.ana) [Scenario.ana_settings]
    = Some Scenario.ana_settings
  ∧ CommentSettings.b_limit Scenario.page_size_zero = Some 0%Z
  ∧ ∃ s,
      CommentSettings.get 1613000001000 None Scenario.ana Scenario.accounts
        (CommentSettings.save Scenario.no_defaults 1613000000000 Scenario.ana
           Scenario.page_size_zero Scenario.accounts [Scenario.ana_settings]).2
      = CommentSettings.Sent 200 (Some s)
      ∧ CommentSettings.s_limit s = Some 10%Z
      ∧ CommentSettings.s_limit s ≠ Some 0%Z.
Proof.
  do 4 (split; [vm_compute; reflexivity|]).
  eexists. split; [vm_compute; reflexivity|]. split; [reflexivity|discriminate].
Qed.

(** * Further properties of the article life cycle *)

Section LifecycleProperties.
Import Articles Scenario.
Context (isValid : string → bool).

(** Everything [validateState] has checked when it returns. *)
Lemma validateState_Ok id user wanted db article ts :
  validateState id user wanted db = Ok (article, ts) →
  wanted ≠ "removed"
  ∧ checkValidStates wanted false = Ok ()
  ∧ db !! id = Some article
  ∧ negb (tagAdmin user) && bool_decide (u_id user ≠ userId article) = false
  ∧ state article ≠ wanted
  ∧ ts = wanted +:+ "At".
Proof.
  unfold validateState, findOne. intros H.
  destruct (bool_decide (wanted = "removed")) eqn:Hrem; [discriminate H|].
  apply bool_decide_eq_false in Hrem. simpl in H.
  destruct (checkValidStates wanted false) as [[]|] eqn:Hvalid; [|discriminate H].
  simpl in H. destruct (db !! id) as [art|] eqn:Hart; [|discriminate H].
  destruct (negb (tagAdmin user) && bool_decide (u_id user ≠ userId art)) eqn:Hperm;
    [discriminate H|].
  simpl in H.
  destruct (bool_decide (state art = wanted)) eqn:Hstate; [discriminate H|].
  apply bool_decide_eq_false in Hstate. simpl in H.
  destruct (if tagAuthor user then _ else _); [|discriminate H].
  simpl in H. injection H as <- <-. done.
Qed.

Lemma checkValidStates_single wanted :
  checkValidStates wanted false = Ok () →
  wanted = "boosted" ∨ wanted = "inactivated" ∨ wanted = "published".
Proof.
  unfold checkValidStates. simpl.
  repeat case_decide; auto. done.
Qed.

Lemma changeState_Sent now id user wanted db code :
  (changeState now id user wanted db).1 = Sent code →
  ∃ article,
    validateState id user wanted db = Ok (article, wanted +:+ "At")
    ∧ code = 204%Z
    ∧ (changeState now id user wanted db).2
      = alter (λ a, set_timestamp (wanted +:+ "At")
                      (Some (default now (get_timestamp (wanted +:+ "At") article)))
                      (set_state wanted a)) id db.
Proof.
  unfold changeState, updateOne.
  destruct (validateState id user wanted db) as [[article ts]|e] eqn:Hval;
    simpl; [|done].
  intros [= <-]. exists article.
  pose proof (validateState_Ok _ _ _ _ _ _ Hval) as (_ & _ & _ & _ & _ & ->).
  split; [done|]. split; [done|].
  by destruct (get_timestamp _ article).
Qed.

(** X1: a state change that succeeded cannot be repeated: the same request
    on the resulting store is refused because the article already has the
    state, and the store stays as it is. *)
Theorem changeState_repeat_is_refused now now' id user wanted db :
  (changeState now id user wanted db).1 = Sent 204 →
  changeState now' id user wanted (changeState now id user wanted db).2
  = (Failed (Thrown "state" "Este artigo já possui este estado aplicado"),
     (changeState now id user wanted db).2).
Proof.
  intros Hsent. apply changeState_Sent in Hsent as (article & Hval & _ & Hdb).
  apply validateState_Ok in Hval as (Hrem & Hvalid & Hart & Hperm & Hstate & _).
  rewrite Hdb. unfold changeState at 1, validateState, findOne.
  rewrite (bool_decide_eq_false_2 (wanted = "removed")) by done. simpl.
  rewrite Hvalid. simpl. rewrite lookup_alter_eq, Hart. simpl.
  rewrite Hperm. simpl.
  rewrite (bool_decide_eq_true_2 (wanted = wanted)) by done. done.
Qed.

(** X2: a successful state change gives the article the wanted state and
    stamps the timestamp of that state only when it was unset (an earlier
    stamp is kept); the other timestamps, the owner, the title and the
    vanity path of the article, and every other article, are unchanged. *)
Theorem changeState_stamps_once now id user wanted db :
  (changeState now id user wanted db).1 = Sent 204 →
  ∃ article article',
    db !! id = Some article
    ∧ (changeState now id user wanted db).2 !! id = Some article'
    ∧ state article' = wanted
    ∧ get_timestamp (wanted +:+ "At") article'
      = Some (default now (get_timestamp (wanted +:+ "At") article))
    ∧ (∀ key, key ≠ wanted +:+ "At" →
         get_timestamp key article' = get_timestamp key article)
    ∧ userId article' = userId article
    ∧ title article' = title article
    ∧ customUri article' = customUri article
    ∧ ∀ k, k ≠ id → (changeState now id user wanted db).2 !! k = db !! k.
Proof.
  intros Hsent. apply changeState_Sent in Hsent as (article & Hval & _ & Hdb).
  apply validateState_Ok in Hval as (_ & Hvalid & Hart & _ & _ & _).
  rewrite Hdb. eexists article, _. split; [done|].
  split; [by rewrite lookup_alter_eq, Hart|].
  split; [done|]. split.
  { apply checkValidStates_single in Hvalid as [->|[->| ->]]; reflexivity. }
  split.
  { intros key Hkey. unfold get_timestamp, set_timestamp. simpl.
    repeat case_decide; congruence. }
  do 3 (split; [done|]).
  intros k Hk. by rewrite lookup_alter_ne.
Qed.

Lemma remove_Sent now uri id user db :
  (remove now uri id user db).1 = Sent 204 →
  tagAdmin user = true ∧ ∃ article, db !! id = Some article ∧ state article ≠ "removed".
Proof.
  unfold remove, findOne, string_strict_neq_object.
  destruct (db !! id) as [article|] eqn:Hart; simpl; [|done].
  destruct (tagAdmin user); simpl; [|done].
  case_bool_decide as Hstate; simpl; [done|]. eauto.
Qed.

(** X3: [remove] succeeds exactly for an administrator on an existing
    article that is not removed yet. A user who is not an administrator is
    always refused, the owner included: the handler compares [user._id]
    with the ObjectId [article.userId] without [toString()]. *)
Theorem remove_succeeds_iff now uri id user db :
  (remove now uri id user db).1 = Sent 204
  ↔ tagAdmin user = true ∧ ∃ article, db !! id = Some article ∧ state article ≠ "removed".
Proof.
  split; [apply remove_Sent|].
  unfold remove, findOne, string_strict_neq_object.
  intros (-> & article & -> & Hstate). simpl.
  by rewrite bool_decide_eq_false_2.
Qed.

(** X4: a successful [remove] sets the state to removed, stamps
    [removedAt] with the current time, replaces the vanity path by the
    generated default and keeps the owner, the title and the other
    timestamps; no other article changes; and a second [remove] of the
    article is refused as already removed. *)
Theorem remove_effect now now' uri uri' id user db :
  (remove now uri id user db).1 = Sent 204 →
  ∃ article article',
    db !! id = Some article
    ∧ (remove now uri id user db).2 !! id = Some article'
    ∧ state article' = "removed"
    ∧ removedAt article' = Some now
    ∧ customUri article' = uri
    ∧ userId article' = userId article
    ∧ title article' = title article
    ∧ publishedAt article' = publishedAt article
    ∧ boostedAt article' = boostedAt article
    ∧ inactivatedAt article' = inactivatedAt article
    ∧ (∀ k, k ≠ id → (remove now uri id user db).2 !! k = db !! k)
    ∧ remove now' uri' id user (remove now uri id user db).2
      = (Failed (Thrown "state" "Este artigo já foi removido"),
         (remove now uri id user db).2).
Proof.
  intros Hsent.
  destruct (remove_Sent _ _ _ _ _ Hsent) as (Hadm & article & Hart & Hstate).
  assert (remove now uri id user db
          = (Sent 204,
             alter (λ a, set_customUri uri
                           (set_timestamp "removedAt" (Some now)
                              (set_state "removed" a))) id db)) as ->.
  { unfold remove, findOne, updateOne. rewrite Hart, Hadm. simpl.
    by rewrite bool_decide_eq_false_2. }
  simpl. eexists article, _. split; [done|].
  split; [by rewrite lookup_alter_eq, Hart|].
  do 8 (split; [done|]). split.
  - intros k Hk. by rewrite lookup_alter_ne.
  - unfold remove at 1, findOne. rewrite lookup_alter_eq, Hart, Hadm. done.
Qed.

End LifecycleProperties.

(** * Further properties of [save] and of the bulk change *)

Section UpdateProperties.
Import Articles Scenario Extra.
Context (isValid : string → bool).

Lemma remove_spaces_has_no_space s : has_space (remove_spaces s) = false.
Proof.
  induction s as [|c s IH]; [done|]. simpl.
  case_decide as Hc; [done|]. simpl.
  by rewrite (bool_decide_eq_false_2 (c = " "%char)).
Qed.

(** Everything [validateFields] has checked when it returns, and the body
    it returns. *)
Lemma validateFields_Ok body id user db themes categories out :
  validateFields isValid body id user db themes categories = Ok out →
  ∃ cur,
    db !! id = Some cur
    ∧ u_id user = userId cur
    ∧ present_and_falsy (b_title body) = false
    ∧ present_and_falsy (b_customUri body) = false
    ∧ (truthy (b_themeId body) = true →
       is_Some (findActiveTheme (default "" (b_themeId body)) themes))
    ∧ (truthy (b_categoryId body) = true →
       (is_Some (themeId cur) ∨ truthy (b_themeId body) = true)
       ∧ ∃ category,
           findActiveCategory (default "" (b_categoryId body)) categories
           = Some category
           ∧ is_Some (findActiveTheme (cat_themeId category) themes)
           ∧ (truthy (b_themeId body) = true →
              b_themeId body = Some (cat_themeId category)))
    ∧ out = {| b_title := b_title body;
               b_customUri :=
                 if truthy (b_customUri body)
                 then remove_spaces <$> b_customUri body
                 else b_customUri body;
               b_themeId := b_themeId body;
               b_categoryId := b_categoryId body;
               b_description := b_description body;
               b_content := b_content body;
               b_userId := None; b_state := None; b_logoImg := None;
               b_secondaryImg := None; b_headerImg := None;
               b_publishedAt := b_publishedAt body;
               b_boostedAt := b_boostedAt body;
               b_inactivatedAt := b_inactivatedAt body;
               b_removedAt := b_removedAt body |}.
Proof.
  unfold validateFields, castObjectId, findOne. intros H.
  destruct (present_and_falsy (b_title body)) eqn:Htitle; [discriminate H|].
  destruct (present_and_falsy (b_customUri body)) eqn:Huri; [discriminate H|].
  simpl in H. destruct (isValid id); [|discriminate H].
  simpl in H. destruct (db !! id) as [cur|] eqn:Hcur; [|discriminate H].
  destruct (bool_decide (u_id user ≠ userId cur)) eqn:Hown; [discriminate H|].
  apply bool_decide_eq_false in Hown. apply dec_stable in Hown. simpl in H.
  exists cur. do 4 (split; [done|]).
  destruct (truthy (b_themeId body)) eqn:Htheme.
  - destruct (isValid (default "" (b_themeId body))); [|discriminate H].
    simpl in H.
    destruct (findActiveTheme (default "" (b_themeId body)) themes)
      as [theme|] eqn:Hfound; [|discriminate H].
    simpl in H. split; [eauto|].
    destruct (truthy (b_categoryId body)) eqn:Hcat.
    + rewrite andb_false_r in H. simpl in H.
      destruct (isValid (default "" (b_categoryId body))); [|discriminate H].
      simpl in H.
      destruct (findActiveCategory _ categories) as [category|] eqn:Hcategory;
        [|discriminate H].
      destruct (findActiveTheme (cat_themeId category) themes) as [theme'|] eqn:Hth;
        [|discriminate H].
      simpl in H.
      destruct (bool_decide (Some (cat_themeId category) ≠ b_themeId body)) eqn:Hsame;
        [discriminate H|].
      apply bool_decide_eq_false in Hsame. apply dec_stable in Hsame.
      simpl in H. injection H as <-. split; [|done].
      intros _. split; [by right|]. exists category.
      split; [done|]. split; [by rewrite Hth|]. done.
    + simpl in H. injection H as <-. split; [|done]. done.
  - simpl in H. split; [done|].
    destruct (truthy (b_categoryId body)) eqn:Hcat.
    + rewrite andb_true_r in H.
      destruct (bool_decide (is_Some (themeId cur))) eqn:Hhas; [|discriminate H].
      apply bool_decide_eq_true in Hhas. simpl in H.
      destruct (isValid (default "" (b_categoryId body))); [|discriminate H].
      simpl in H.
      destruct (findActiveCategory _ categories) as [category|] eqn:Hcategory;
        [|discriminate H].
      destruct (findActiveTheme (cat_themeId category) themes) as [theme'|] eqn:Hth;
        [|discriminate H].
      simpl in H. injection H as <-. split; [|done].
      intros _. split; [by left|]. exists category.
      split; [done|]. split; [by rewrite Hth|]. done.
    + simpl in H. injection H as <-. split; [|done]. done.
Qed.

(** The three outcomes of [save]: the checks fail, the cast of the update
    document fails, or the update is applied. *)
Lemma save_cases id user body db themes categories :
  (∃ e, save isValid id user body db themes categories = (Failed e, db))
  ∨ ∃ out,
      validateFields isValid body id user db themes categories = Ok out
      ∧ save isValid id user body db themes categories
        = (Sent 204, alter (apply_body out) id db).
Proof.
  unfold save, updateOne.
  destruct (validateFields isValid body id user db themes categories)
    as [out|e] eqn:Hval; [|by eauto].
  destruct (cast_update isValid out) as [[]|e]; by eauto.
Qed.

(** X5: for a body of plain fields, [save] never changes the owner, the
    state or the three images of any article, and it changes no article
    other than the one addressed: these five properties are the ones
    [validateFields] deletes from the body. The state timestamps are not
    among them: when [save] succeeds, each timestamp that the body
    carries replaces the stored one, and each one it does not carry is
    kept. *)
Theorem save_keeps_protected_fields id user body db themes categories k article :
  db !! k = Some article →
  ∃ article',
    (save isValid id user body db themes categories).2 !! k = Some article'
    ∧ userId article' = userId article
    ∧ state article' = state article
    ∧ logoImg article' = logoImg article
    ∧ secondaryImg article' = secondaryImg article
    ∧ headerImg article' = headerImg article
    ∧ (k ≠ id → article' = article)
    ∧ ((save isValid id user body db themes categories).1 = Sent 204 →
       k = id →
       publishedAt article' = default (publishedAt article) (b_publishedAt body)
       ∧ boostedAt article' = default (boostedAt article) (b_boostedAt body)
       ∧ inactivatedAt article'
         = default (inactivatedAt article) (b_inactivatedAt body)
       ∧ removedAt article' = default (removedAt article) (b_removedAt body)).
Proof.
  intros Hart.
  destruct (save_cases id user body db themes categories)
    as [[e ->]|(out & Hval & ->)]; simpl.
  { exists article. do 7 (split; [done|]). done. }
  apply validateFields_Ok in Hval as (cur & _ & _ & _ & _ & _ & _ & ->).
  destruct (decide (k = id)) as [->|Hk].
  - rewrite lookup_alter_eq, Hart. simpl. eexists. split; [done|].
    repeat split; done.
  - rewrite lookup_alter_ne, Hart by done. exists article.
    do 7 (split; [done|]). done.
Qed.

(** X6: [save] succeeds only for the owner of the article, an
    administrator included; it then stores the title, the description and
    the content of the body where the body has them, and as vanity path
    the one of the body with every space removed, which may leave it
    empty. *)
Theorem save_by_owner_only id user body db themes categories :
  (save isValid id user body db themes categories).1 = Sent 204 →
  ∃ article article',
    db !! id = Some article
    ∧ userId article = u_id user
    ∧ (save isValid id user body db themes categories).2 !! id = Some article'
    ∧ title article' = default (title article) (b_title body)
    ∧ (∀ d, b_description body = Some d → description article' = Some d)
    ∧ (∀ c, b_content body = Some c → content article' = Some c)
    ∧ (∀ u, b_customUri body = Some u →
         customUri article' = remove_spaces u
         ∧ has_space (customUri article') = false)
    ∧ (b_customUri body = None → customUri article' = customUri article).
Proof.
  destruct (save_cases id user body db themes categories)
    as [[e ->]|(out & Hval & ->)]; simpl; [done|].
  intros _.
  apply validateFields_Ok in Hval as (cur & Hcur & Hown & _ & Huri & _ & _ & ->).
  exists cur. eexists. split; [done|]. split; [done|].
  split; [by rewrite lookup_alter_eq, Hcur|]. simpl.
  split; [done|]. split; [by intros d ->|]. split; [by intros c ->|]. split.
  - intros u Hu. rewrite Hu in Huri |- *. simpl in Huri |- *.
    apply bool_decide_eq_false in Huri.
    rewrite (bool_decide_eq_true_2 (u ≠ "")) by done. simpl.
    split; [done|]. apply remove_spaces_has_no_space.
  - by intros ->.
Qed.

(** X7: when [save] accepts a body with a category, the category is
    active, the theme of the category is active, the article has a theme
    or the body brings one, and a theme brought by the body is the theme
    of the category. *)
Theorem save_category_is_consistent id user body db themes categories c :
  (save isValid id user body db themes categories).1 = Sent 204 →
  b_categoryId body = Some c →
  c ≠ "" →
  ∃ article category theme,
    db !! id = Some article
    ∧ categories !! c = Some category
    ∧ cat_state category = "active"
    ∧ themes !! cat_themeId category = Some theme
    ∧ t_state theme = "active"
    ∧ (is_Some (themeId article) ∨ truthy (b_themeId body) = true)
    ∧ (∀ t, b_themeId body = Some t → t ≠ "" → t = cat_themeId category).
Proof.
  destruct (save_cases id user body db themes categories)
    as [[e ->]|(out & Hval & ->)]; simpl; [done|].
  intros _ Hc Hne.
  apply validateFields_Ok in Hval as (cur & Hcur & _ & _ & _ & _ & Hcat & _).
  rewrite Hc in Hcat. simpl in Hcat.
  rewrite (bool_decide_eq_true_2 (c ≠ "")) in Hcat by done.
  destruct (Hcat eq_refl) as (Htheme & category & Hcategory & [theme Hth] & Hsame).
  unfold findActiveCategory in Hcategory.
  destruct (categories !! c) as [cat|] eqn:Hlook; [|done].
  case_decide as Hactive; [|done]. injection Hcategory as ->.
  unfold findActiveTheme in Hth.
  destruct (themes !! cat_themeId category) as [th|] eqn:Hlook'; [|done].
  case_decide as Hactive'; [|done]. injection Hth as ->.
  exists cur, category, theme. do 6 (split; [done|]).
  intros t Ht Hnet. rewrite Ht in Hsame. simpl in Hsame.
  rewrite (bool_decide_eq_true_2 (t ≠ "")) in Hsame by done.
  specialize (Hsame eq_refl). by injection Hsame.
Qed.

End UpdateProperties.

Section BulkProperties.
Import Articles Scenario.
Context (isValid : string → bool).

Lemma elem_of_articlesToChange user ids wanted db l k :
  checkArticlesForMultipleChanges isValid user (Some ids) wanted db = Ok l →
  k ∈ l ↔ k ∈ ids ∧ ∃ a, db !! k = Some a ∧ state a ∈ declaredOrigins wanted.
Proof.
  intros Hcheck. split.
  - intros Hk.
    apply checkArticlesForMultipleChanges_inv in Hcheck as (ids' & [= <-] & Hl & _).
    by apply Hl.
  - intros (Hids & a & Ha & Horigin).
    unfold checkArticlesForMultipleChanges in Hcheck.
    destruct (checkValidStates wanted true) as [[]|]; [|discriminate Hcheck].
    simpl in Hcheck.
    destruct (throwIf (bool_decide (length ids = 0)) _) as [[]|];
      [|discriminate Hcheck].
    simpl in Hcheck.
    destruct (list_find (λ id, isValid id = false) ids) as [[? ?]|];
      [discriminate Hcheck|].
    simpl in Hcheck.
    destruct (if negb (tagAdmin user) then _ else _) as [[]|];
      [|discriminate Hcheck].
    simpl in Hcheck. injection Hcheck as <-.
    apply list_elem_of_fmap. exists (k, state a). split; [done|].
    assert ((k, state a) ∈ find_in ids db) as Hfound
      by (apply elem_of_find_in; eauto).
    unfold declaredOrigins in Horigin.
    repeat case_decide; try (by apply elem_of_nil in Horigin);
      apply list_elem_of_filter; (split; [|done]); simpl; set_solver.
Qed.

(** X8: a bulk change that succeeds gives the wanted state to every
    listed article that belongs to the acting user and is in an origin
    state of the wanted state, and changes nothing else: of those articles
    only the state field is written (no state timestamp is stamped, nor
    the vanity path on removal), and every other article stays as it
    was. *)
Theorem changeStates_effect user ids wanted db k article :
  (changeStates isValid user (Some ids) wanted db).1 = Sent 204 →
  db !! k = Some article →
  (changeStates isValid user (Some ids) wanted db).2 !! k
  = Some (if decide (k ∈ ids ∧ userId article = u_id user
                     ∧ state article ∈ declaredOrigins wanted)
          then set_state wanted article else article).
Proof.
  unfold changeStates.
  destruct (checkArticlesForMultipleChanges _ _ _ _ _) as [l|e] eqn:Hcheck;
    simpl; [|done].
  intros _ Hart. rewrite lookup_updateMany, Hart. simpl. f_equal.
  pose proof (elem_of_articlesToChange _ _ _ _ _ k Hcheck) as Hl.
  destruct (decide (k ∈ l ∧ userId article = u_id user)) as [[Hin Hown]|Hno].
  - apply Hl in Hin as (Hids & a & Ha & Horigin).
    rewrite Hart in Ha. injection Ha as <-. by rewrite decide_True.
  - rewrite decide_False; [done|]. intros (Hids & Hown & Horigin).
    apply Hno. split; [|done]. apply Hl. eauto.
Qed.

(** X9: after a bulk boost accepted from a user who is not an
    administrator, that user owns at most one boosted article. *)
Theorem changeStates_boost_leaves_one user articlesId db :
  tagAdmin user = false →
  (changeStates isValid user articlesId "boosted" db).1 = Sent 204 →
  countDocuments (u_id user) "boosted"
    (changeStates isValid user articlesId "boosted" db).2 ≤ 1.
Proof.
  intros Hadm. unfold changeStates.
  destruct (checkArticlesForMultipleChanges _ _ _ _ _) as [l|e] eqn:Hcheck;
    simpl; [|done].
  intros _.
  apply checkArticlesForMultipleChanges_inv in Hcheck as (ids & -> & Hl & Hquota).
  destruct (Hquota Hadm eq_refl) as [Hzero Hlen].
  assert (Hkeep : ∀ k a', updateMany l (u_id user) "boosted" db !! k = Some a' →
            k ∈ l ∨ db !! k = Some a').
  { intros k a'. rewrite lookup_updateMany.
    destruct (db !! k) as [a|]; simpl; [|done].
    case_decide as Hd; intros [= <-]; [left|by right]. by destruct Hd. }
  destruct ids as [|i [|? ?]]; simpl in Hlen; [| |lia].
  - etransitivity; [apply (countDocuments_mono _ _ db)|lia].
    intros k a' Ha' Hu Hs. destruct (Hkeep k a' Ha') as [Hin|?]; [|eauto].
    destruct (Hl k Hin) as [Hnil _]. by apply elem_of_nil in Hnil.
  - etransitivity; [apply (countDocuments_succ _ _ db _ i)|lia].
    intros k a' Hk Ha' Hu Hs. destruct (Hkeep k a' Ha') as [Hin|?]; [|eauto].
    destruct (Hl k Hin) as [Hi _]. apply list_elem_of_singleton in Hi. done.
Qed.

End BulkProperties.

(** ** The further properties on the example store *)

(** The administrator boosts Ana's published article [id3]; asking again
    is refused. *)
Lemma changeState_repeat_is_refused_witness :
  let after := (Articles.changeState 100 Scenario.id3 Scenario.root "boosted"
                  Scenario.shelf).2 in
  Articles.changeState 200 Scenario.id3 Scenario.root "boosted" after
  = (Articles.Failed (Thrown "state" "Este artigo já possui este estado aplicado"),
     after).
Proof.
  apply (changeState_repeat_is_refused 100 200 Scenario.id3 Scenario.root
           "boosted" Scenario.shelf).
  vm_compute. reflexivity.
Defined.

(** The same request stamps [boostedAt] with the time of the request. *)
Lemma changeState_stamps_once_witness :
  ∃ article',
    (Articles.changeState 100 Scenario.id3 Scenario.root "boosted"
       Scenario.shelf).2 !! Scenario.id3 = Some article'
    ∧ Articles.state article' = "boosted"
    ∧ Articles.boostedAt article' = Some 100%Z.
Proof.
  destruct (changeState_stamps_once 100 Scenario.id3 Scenario.root "boosted"
              Scenario.shelf)
    as (article & article' & _ & Hafter & Hstate & Hstamp & _).
  - vm_compute. reflexivity.
  - exists article'. split; [exact Hafter|]. split; [exact Hstate|].
    revert Hstamp. generalize Hafter. vm_compute.
    intros [= <-]. intros _. reflexivity.
Defined.

(** Ana, who owns the draft [id4] and is no administrator, cannot remove
    it; the administrator can. *)
Lemma remove_succeeds_iff_witness :
  (Articles.remove 100 "a1b2" Scenario.id4 Scenario.ana Scenario.shelf).1
  ≠ Articles.Sent 204
  ∧ (Articles.remove 100 "a1b2" Scenario.id4 Scenario.root Scenario.shelf).1
    = Articles.Sent 204.
Proof.
  split.
  - intros Hsent.
    apply (remove_succeeds_iff 100 "a1b2" Scenario.id4 Scenario.ana Scenario.shelf)
      in Hsent as [Hadm _].
    discriminate Hadm.
  - apply (remove_succeeds_iff 100 "a1b2" Scenario.id4 Scenario.root Scenario.shelf).
    split; [reflexivity|]. eexists. split; [vm_compute; reflexivity|discriminate].
Defined.

Lemma remove_effect_witness :
  ∃ article',
    (Articles.remove 100 "a1b2" Scenario.id4 Scenario.root Scenario.shelf).2
      !! Scenario.id4 = Some article'
    ∧ Articles.state article' = "removed"
    ∧ Articles.removedAt article' = Some 100%Z
    ∧ Articles.customUri article' = "a1b2".
Proof.
  destruct (remove_effect 100 200 "a1b2" "c3d4" Scenario.id4 Scenario.root
              Scenario.shelf)
    as (article & article' & _ & Hafter & Hstate & Hstamp & Huri & _).
  - vm_compute. reflexivity.
  - exists article'. auto.
Defined.

(** Ana files her draft [id4] under the category; the body also tries to
    hand the article to another owner and to boost it, and it carries a
    publication date and a cleared removal date: the owner and the state
    stay, the two timestamps are written. *)
Lemma save_keeps_protected_fields_witness :
  ∃ article',
    (Articles.save Scenario.hex24 Scenario.id4 Scenario.ana Extra.file_under_category
       Extra.removed_shelf Extra.themes Extra.categories).2 !! Scenario.id4
    = Some article'
    ∧ Articles.userId article' = u_id Scenario.ana
    ∧ Articles.state article' = "removed"
    ∧ Articles.publishedAt article' = Some 5%Z
    ∧ Articles.removedAt article' = None.
Proof.
  destruct (save_keeps_protected_fields Scenario.hex24 Scenario.id4 Scenario.ana
              Extra.file_under_category Extra.removed_shelf Extra.themes
              Extra.categories Scenario.id4
              (Scenario.article_of (u_id Scenario.ana) "removed" (Some 100%Z)))
    as (article' & Hafter & Howner & Hstate & _ & _ & _ & _ & Hstamps).
  - vm_compute. reflexivity.
  - destruct Hstamps as (Hpublished & _ & _ & Hremoved);
      [vm_compute; reflexivity|reflexivity|].
    exists article'. auto.
Defined.

Lemma save_by_owner_only_witness :
  ∃ article',
    (Articles.save Scenario.hex24 Scenario.id4 Scenario.ana Extra.file_under_category
       Scenario.shelf Extra.themes Extra.categories).2 !! Scenario.id4
    = Some article'
    ∧ Articles.customUri article' = "myfirstpost"
    ∧ Articles.description article' = Some "About".
Proof.
  destruct (save_by_owner_only Scenario.hex24 Scenario.id4 Scenario.ana
              Extra.file_under_category Scenario.shelf Extra.themes
              Extra.categories)
    as (article & article' & _ & _ & Hafter & _ & Hdesc & _ & Huri & _).
  - vm_compute. reflexivity.
  - exists article'. split; [exact Hafter|]. split.
    + apply (Huri "my first post"). reflexivity.
    + apply Hdesc. reflexivity.
Defined.

Lemma save_category_is_consistent_witness :
  ∃ category theme,
    Extra.categories !! Extra.category1 = Some category
    ∧ Extra.themes !! Articles.cat_themeId category = Some theme
    ∧ Articles.t_state theme = "active".
Proof.
  destruct (save_category_is_consistent Scenario.hex24 Scenario.id4 Scenario.ana
              Extra.file_under_category Scenario.shelf Extra.themes
              Extra.categories Extra.category1)
    as (article & category & theme & _ & Hcat & _ & Htheme & Hactive & _).
  - vm_compute. reflexivity.
  - reflexivity.
  - discriminate.
  - exists category, theme. auto.
Defined.

(** An empty [themeId] is falsy, so [validateFields] does not look the
    theme up; the update is then refused by the cast, and nothing is
    stored. *)
Example save_empty_themeId_is_refused :
  Articles.save Scenario.hex24 Scenario.id4 Scenario.ana Extra.empty_theme
    Scenario.shelf Extra.themes Extra.categories
  = (Articles.Failed (CastError "ObjectId" ""), Scenario.shelf).
Proof. reflexivity. Qed.

(** Ana publishes her draft [id4] and her boosted article [id1] in bulk:
    only the draft is in an origin state of [published]. *)
Lemma changeStates_effect_witness :
  (Articles.changeStates Scenario.hex24 Scenario.ana
     (Some [Scenario.id1; Scenario.id4]) "published" Scenario.shelf).2
    !! Scenario.id4
  = Some (Scenario.article_of (u_id Scenario.ana) "published" None).
Proof.
  rewrite (changeStates_effect Scenario.hex24 Scenario.ana
             [Scenario.id1; Scenario.id4] "published" Scenario.shelf Scenario.id4
             (Scenario.article_of (u_id Scenario.ana) "draft" None)).
  - vm_compute. reflexivity.
  - vm_compute. reflexivity.
  - vm_compute. reflexivity.
Defined.

(** A second author with one published article boosts it in bulk. *)
Lemma changeStates_boost_leaves_one_witness :
  Articles.countDocuments (u_id Extra.bea) "boosted"
    (Articles.changeStates Scenario.hex24 Extra.bea (Some [Scenario.id1])
       "boosted" Extra.bea_shelf).2
  ≤ 1.
Proof.
  apply (changeStates_boost_leaves_one Scenario.hex24 Extra.bea
           (Some [Scenario.id1]) Extra.bea_shelf).
  - reflexivity.
  - vm_compute. reflexivity.
Defined.

(** * Further properties of the comment settings *)

Section MoreSettingsProperties.
Import CommentSettings Extra.
Context (column_default : Row).

Lemma first_row_None_app id table r :
  first_row id table = None → userId r = id →
  first_row id (table ++ [r]) = Some r.
Proof.
  unfold first_row. intros Hnone Hr.
  destruct (list_find (λ r, userId r = id) table) as [[? ?]|] eqn:Hfind; [done|].
  rewrite list_find_app_r by done. simpl.
  by rewrite decide_True.
Qed.

Lemma save_outcome now user body users table :
  verifyEnumFields body = Ok () →
  verifyUser user users = Ok () →
  (save column_default now user body users table).1
  = Sent 200 (Some (settings_of (saved_row column_default now user body table)
                      (Some (now + 1000 * 60 * 60 * 24 * 30)%Z)))
  ∧ first_row (u_id user) (save column_default now user body users table).2
    = Some (saved_row column_default now user body table).
Proof.
  intros Henum Huser. unfold saved_row.
  destruct (first_row (u_id user) table) as [cur|] eqn:Hcur.
  - unfold save. rewrite Henum. simpl. rewrite Huser, Hcur.
    set (f := λ r, if decide (userId r = u_id user)
                   then updated_row now body cur r else r).
    assert (Hrow : first_row (u_id user) (f <$> table)
                   = Some (updated_row now body cur cur)).
    { rewrite first_row_fmap, Hcur by (intros r; unfold f; by case_decide).
      simpl. unfold f. by rewrite decide_True by (by eapply first_row_userId). }
    rewrite Hrow. done.
  - unfold save. rewrite Henum. simpl. rewrite Huser, Hcur.
    rewrite (first_row_None_app _ _ (inserted_row column_default user body))
      by done.
    simpl. split; [done|]. by apply first_row_None_app.
Qed.

(** X10: the settings that [save] answers with are the settings a later
    [get] without a cache header returns, up to the [ttl], which [save]
    sets thirty days (2,592,000,000 ms) after the time of the request and
    [get] leaves out; this holds on the first save of a user as well as on
    later ones. *)
Theorem save_response_matches_get now now' user body users table :
  verifyEnumFields body = Ok () →
  verifyUser user users = Ok () →
  ∃ r,
    userId r = u_id user
    ∧ (save column_default now user body users table).1
      = Sent 200 (Some (settings_of r (Some (now + 2592000000)%Z)))
    ∧ get now' None user users (save column_default now user body users table).2
      = Sent 200 (Some (settings_of r None)).
Proof.
  intros Henum Huser.
  destruct (save_outcome now user body users table Henum Huser) as [Hresp Hrow].
  exists (saved_row column_default now user body table). split.
  { by eapply first_row_userId. }
  split; [exact Hresp|].
  unfold get. rewrite Huser, Hrow. done.
Qed.

(** X11: [save] never touches the rows of other users, whatever its
    outcome: a row with another [userId] is found unchanged at the same
    place of the table. *)
Theorem save_keeps_other_rows now user body users table i r :
  table !! i = Some r →
  userId r ≠ u_id user →
  (save column_default now user body users table).2 !! i = Some r.
Proof.
  intros Hi Hother. unfold save.
  destruct (verifyEnumFields body;; verifyUser user users) as [[]|e]; [|done].
  destruct (first_row (u_id user) table) as [cur|] eqn:Hcur.
  - set (table' := _ <$> table).
    assert (table' !! i = Some r) as Hrow.
    { unfold table'. rewrite list_lookup_fmap, Hi. simpl.
      by rewrite decide_False. }
    by destruct (first_row (u_id user) table').
  - set (table' := table ++ _).
    assert (table' !! i = Some r) as Hrow.
    { unfold table'. by apply lookup_app_l_Some. }
    by destruct (first_row (u_id user) table').
Qed.

(** X12: when the body carries the [notify] flag, saving the same body a
    second time answers with the same settings as the first time (up to
    the [ttl]); without the flag this may fail, since [notify] is then
    read from the page size the first save has just written. *)
Theorem save_twice_same_settings now1 now2 user body users table b :
  verifyEnumFields body = Ok () →
  verifyUser user users = Ok () →
  b_notify body = Some b →
  ∃ r,
    (save column_default now1 user body users table).1
    = Sent 200 (Some (settings_of r (Some (now1 + 2592000000)%Z)))
    ∧ (save column_default now2 user body users
         (save column_default now1 user body users table).2).1
      = Sent 200 (Some (settings_of r (Some (now2 + 2592000000)%Z))).
Proof.
  intros Henum Huser Hnotify.
  destruct (save_outcome now1 user body users table Henum Huser) as [Hresp1 Hrow1].
  destruct (save_outcome now2 user body users
              (save column_default now1 user body users table).2 Henum Huser)
    as [Hresp2 _].
  exists (saved_row column_default now1 user body table). split; [exact Hresp1|].
  rewrite Hresp2. do 2 f_equal.
  unfold saved_row at 1. rewrite Hrow1.
  set (r1 := saved_row column_default now1 user body table).
  assert (limit r1 = or_else_number (b_limit body) (limit r1)
          ∧ order r1 = or_else (b_order body) (order r1)
          ∧ type r1 = or_else (b_type body) (type r1)
          ∧ answers_order r1 = or_else (b_answersOrder body) (answers_order r1)
          ∧ answers_type r1 = or_else (b_answersType body) (answers_type r1)
          ∧ notify r1 = Some (Z.b2z b)) as (Hl & Ho & Ht & Hao & Hat & Hn).
  { unfold r1, saved_row.
    destruct (first_row (u_id user) table) as [cur|]; simpl; rewrite Hnotify;
      unfold or_else, or_else_number;
      destruct (b_limit body), (b_order body), (b_type body),
        (b_answersOrder body), (b_answersType body); simpl;
      repeat case_bool_decide; simpl; repeat split; congruence. }
  unfold settings_of, updated_row. simpl. rewrite Hnotify.
  by rewrite <- Hl, <- Ho, <- Ht, <- Hao, <- Hat, Hn.
Qed.

Lemma admissible_type_spec v :
  truthy v && negb (is_comment_type (default "" v)) = false ↔ admissible_type v.
Proof.
  unfold admissible_type, truthy, is_comment_type.
  destruct v as [s|]; simpl; [|by split; auto].
  repeat case_bool_decide; simpl; subst; split; try done; auto 10;
    intros [?|[?|[?|[?|[?|[?|?]]]]]]; simplify_eq.
Qed.

Lemma admissible_order_spec v :
  truthy v && negb (is_order (default "" v)) = false ↔ admissible_order v.
Proof.
  unfold admissible_order, truthy, is_order.
  destruct v as [s|]; simpl; [|by split; auto].
  repeat case_bool_decide; simpl; subst; split; try done; auto 10;
    intros [?|[?|[?|?]]]; simplify_eq.
Qed.

(** X13: [verifyEnumFields] accepts a body exactly when each of its four
    enumerated fields is absent, empty, or one of the allowed values; an
    empty string is let through, and [save] then treats it as absent. *)
Theorem verifyEnumFields_accepts_iff body :
  verifyEnumFields body = Ok ()
  ↔ admissible_type (b_answersType body)
    ∧ admissible_type (b_type body)
    ∧ admissible_order (b_answersOrder body)
    ∧ admissible_order (b_order body).
Proof.
  rewrite <- !admissible_type_spec, <- !admissible_order_spec.
  unfold verifyEnumFields, throwIf.
  destruct (truthy (b_answersType body) && _); simpl; [naive_solver|].
  destruct (truthy (b_type body) && _); simpl; [naive_solver|].
  destruct (truthy (b_answersOrder body) && _); simpl; [naive_solver|].
  destruct (truthy (b_order body) && _); simpl; naive_solver.
Qed.

End MoreSettingsProperties.

(** * Further properties of the comment threads *)

#[local] Instance newer_or_same_total : Total Comments.newer_or_same.
Proof. intros v w. unfold Comments.newer_or_same. lia. Qed.

#[local] Instance newer_or_same_trans : Transitive Comments.newer_or_same.
Proof. intros u v w. unfold Comments.newer_or_same. lia. Qed.

Section ThreadProperties.
Import Comments.
Context (isValid : string → bool).
Context (articles : gmap string Articles.Article).
Context (users : gmap string Account).


Lemma listing_tiles total rows page limit :
  (1 ≤ page)%Z →
  (0 < limit)%Z →
  status (listing total rows page limit) = true
  ∧ count (listing total rows page limit) = total
  ∧ length (comments (listing total rows page limit)) ≤ Z.to_nat limit
  ∧ take (Z.to_nat (page * limit)) rows
    = take (Z.to_nat ((page - 1) * limit)) rows
      ++ comments (listing total rows page limit).
Proof.
  intros Hpage Hlimit. unfold listing, paginate.
  rewrite decide_True by nia. simpl.
  split; [done|]. split; [done|]. split.
  - rewrite length_take. lia.
  - replace (page * limit - limit)%Z with ((page - 1) * limit)%Z by lia.
    rewrite take_take_drop. f_equal. nia.
Qed.

(** X15: for a page number of at least 1 and a positive limit, each of
    the three listing functions succeeds, reports the total of its count
    pipeline, shows at most [limit] comments, and its pages tile its rows:
    the first [page] pages, one after the other, are the first
    [page * limit] rows, so no comment is shown twice or skipped. *)
Theorem listing_pages_tile user page limit docs :
  (1 ≤ page)%Z →
  (0 < limit)%Z →
  let shows (result : Listing) (total : nat) (rows : list CommentView) :=
    status result = true
    ∧ count result = total
    ∧ length (comments result) ≤ Z.to_nat limit
    ∧ take (Z.to_nat (page * limit)) rows
      = take (Z.to_nat ((page - 1) * limit)) rows ++ comments result in
  shows (getAllComments isValid articles users user page limit docs)
    (countAll isValid articles users user docs)
    (rowsAll isValid articles users user docs)
  ∧ shows (getNotReadedComments isValid articles users user page limit docs)
      (countNotReaded isValid articles users user docs)
      (rowsNotReaded isValid articles users user docs)
  ∧ shows (getOnlyReadedComments isValid articles users user page limit docs)
      (countOnlyReaded isValid articles users user docs)
      (rowsOnlyReaded isValid articles users user docs).
Proof.
  intros Hpage Hlimit shows. subst shows. cbv beta.
  unfold getAllComments, getNotReadedComments, getOnlyReadedComments.
  split; [|split]; by apply listing_tiles.
Qed.

(** What a successful [answerComment] has done. *)
Lemma answerComment_Sent newId now id user answer notify docs outbox
    code body docs' outbox' :
  answerComment isValid articles users newId now id user answer notify docs outbox
  = (Sent code body, docs', outbox') →
  ∃ root article,
    getOne isValid articles users id docs = Ok (Some root)
    ∧ av_id (v_article root) = Some article
    ∧ docs' = docs ++ [{| c_id := newId; articleId := article;
                          answerOf := Some id; userName := u_name user;
                          userEmail := u_email user; message := answer;
                          confirmedAt := None; readedAt := None;
                          createdAt := now; updatedAt := now |}]
    ∧ outbox'
      = (if decide (notify = Some "yes")
         then outbox ++ [{| template := "answer-sent"; payload_comment := root;
                            payload_answer :=
                              {| c_id := newId; articleId := article;
                                 answerOf := Some id; userName := u_name user;
                                 userEmail := u_email user; message := answer;
                                 confirmedAt := None; readedAt := None;
                                 createdAt := now; updatedAt := now |} |}]
         else outbox).
Proof.
  unfold answerComment, after_save. intros H.
  destruct (validateLength answer _ _) as [[]|e]; simpl in H; [|discriminate H].
  destruct (getOne isValid articles users id docs) as [[root|]|e] eqn:Hroot;
    simpl in H; try discriminate H.
  destruct (av_id (v_article root)) as [article|] eqn:Harticle;
    simpl in H; [|discriminate H].
  injection H as <- <- <- <-. exists root, article.
  do 3 (split; [done|]).
  destruct notify as [n|]; [|done].
  destruct (decide (n = "")) as [->|Hn]; [done|].
  destruct (decide (n = "yes")) as [->|Hyes].
  - by rewrite decide_True.
  - by rewrite decide_False by congruence.
Qed.

(** X16: a successful [answerComment] hands the mailer exactly one
    message, holding the root comment and the new answer, when the query
    asks [notify=yes], and none otherwise; the messages already handed
    over stay. *)
Theorem answerComment_notifies_on_yes newId now id user answer notify docs outbox
    code body docs' outbox' :
  answerComment isValid articles users newId now id user answer notify docs outbox
  = (Sent code body, docs', outbox') →
  (notify = Some "yes" →
   ∃ root new,
     getOne isValid articles users id docs = Ok (Some root)
     ∧ docs' = docs ++ [new]
     ∧ outbox' = outbox ++ [{| template := "answer-sent"; payload_comment := root;
                               payload_answer := new |}])
  ∧ (notify ≠ Some "yes" → outbox' = outbox).
Proof.
  intros H.
  apply answerComment_Sent in H as (root & article & Hroot & _ & -> & ->).
  split.
  - intros ->. rewrite decide_True by done. eauto.
  - intros Hno. by rewrite decide_False.
Qed.

(** X17: a new answer never shows up as a root comment: for every user the
    totals of the three partitions are the same before and after a
    successful [answerComment]. *)
Theorem answerComment_keeps_root_counts newId now id user answer notify docs outbox
    code body docs' outbox' reader :
  answerComment isValid articles users newId now id user answer notify docs outbox
  = (Sent code body, docs', outbox') →
  countAll isValid articles users reader docs'
  = countAll isValid articles users reader docs
  ∧ countNotReaded isValid articles users reader docs'
    = countNotReaded isValid articles users reader docs
  ∧ countOnlyReaded isValid articles users reader docs'
    = countOnlyReaded isValid articles users reader docs.
Proof.
  intros H.
  apply answerComment_Sent in H as (root & article & _ & _ & -> & _).
  unfold countAll, countNotReaded, countOnlyReaded.
  rewrite !filter_app, !length_app.
  rewrite !(filter_cons_False _ _ []) by (simpl; intros ?; naive_solver).
  rewrite !filter_nil. simpl. lia.
Qed.

(** X18: [answerComment] on a well-formed id that is the id of no comment,
    or only of answers to comments that exist, does not report the
    missing comment: it reads [root.comment.article] of an undefined
    comment, so the handler catches a TypeError; a malformed id is
    reported as "Comentário não encontrado". Nothing is stored or sent
    either way. *)
Theorem answerComment_without_root newId now id user answer notify docs outbox :
  (Z.of_nat (String.length answer) ≤ 10000)%Z →
  (∀ c, c ∈ docs → c_id c = id →
        ∃ r p, answerOf c = Some r ∧ p ∈ docs ∧ c_id p = r) →
  answerComment isValid articles users newId now id user answer notify docs outbox
  = (Failed (if isValid id
             then TypeError "Cannot read property 'article' of undefined"
             else Thrown "answerOf" "Comentário não encontrado"),
     docs, outbox).
Proof.
  intros Hlen Hanswers. unfold answerComment, validateLength, getOne.
  rewrite bool_decide_eq_false_2 by lia. simpl.
  destruct (isValid id); simpl; [|done].
  assert (filter (λ v, c_id (v_comment v) = id ∧ v_answerOf v = None)
            (view articles users docs <$> docs) = []) as ->; [|done].
  apply elem_of_nil_inv. intros v Hv.
  apply list_elem_of_filter in Hv as [[Hid Hnone] Hin].
  apply list_elem_of_fmap in Hin as [c [-> Hc]]. simpl in Hid, Hnone.
  destruct (Hanswers c Hc Hid) as (r & p & Hr & Hp & Hpr).
  rewrite Hr in Hnone. simpl in Hnone. unfold lookup_comment in Hnone.
  destruct (list_find_elem_of (λ p, c_id p = r) docs p Hp Hpr) as [found Hfound].
  rewrite Hfound in Hnone. done.
Qed.

End ThreadProperties.

(** * Properties of the other comment handlers *)

Section ReadProperties.
Import Comments CommentsRest.
Context (isValid : string → bool).
Context (articles : gmap string Articles.Article).
Context (users : gmap string Account).

(** What [updateOne_unread] does: nothing when no comment with the id is
    unread, and otherwise it stamps the first such comment and no other. *)
Lemma updateOne_unread_spec id t docs :
  (updateOne_unread id t docs = (0, docs)
   ∧ ∀ c, c ∈ docs → ¬ (c_id c = id ∧ readedAt c = None))
  ∨ ∃ l1 c l2,
      docs = l1 ++ c :: l2
      ∧ updateOne_unread id t docs = (1, l1 ++ set_readedAt t c :: l2)
      ∧ c_id c = id
      ∧ readedAt c = None
      ∧ ∀ x, x ∈ l1 → ¬ (c_id x = id ∧ readedAt x = None).
Proof.
  induction docs as [|d docs IH]; simpl.
  - left. split; [done|]. intros c Hc. by apply elem_of_nil in Hc.
  - destruct (decide (c_id d = id ∧ readedAt d = None)) as [[Hid Hunread]|Hno].
    + right. exists [], d, docs. simpl. repeat split; try done.
      intros x Hx. by apply elem_of_nil in Hx.
    + destruct IH as [[-> Hnone]|(l1 & c & l2 & -> & -> & Hid & Hunread & Hl1)].
      * left. split; [done|]. intros c [->|Hc]%elem_of_cons; auto.
      * right. exists (d :: l1), c, l2. simpl. repeat split; try done.
        intros x [->|Hx]%elem_of_cons; auto.
Qed.

(** X19: [readComment] succeeds exactly when the id is well formed and
    some comment with that id is unread; every other request leaves the
    comments as they were. An id that no comment has is therefore told
    that the comment is already read. *)
Theorem readComment_succeeds_iff now id docs :
  ((readComment isValid now id docs).1 = Replied 204 ()
   ↔ isValid id = true ∧ ∃ c, c ∈ docs ∧ c_id c = id ∧ readedAt c = None)
  ∧ ((readComment isValid now id docs).1 ≠ Replied 204 () →
     (readComment isValid now id docs).2 = docs)
  ∧ (isValid id = true → (∀ c, c ∈ docs → c_id c ≠ id) →
     (readComment isValid now id docs).1
     = Rejected (CaughtError
                   (Thrown "_id" "Este comentário já esta marcado como lido"))).
Proof.
  unfold readComment.
  destruct (isValid id); simpl.
  - destruct (updateOne_unread_spec id now docs)
      as [[-> Hnone]|(l1 & c & l2 & Hdocs & -> & Hid & Hunread & _)]; simpl.
    + split; [|done]. split; [done|].
      intros (_ & c & Hc & Hid & Hunread). destruct (Hnone c Hc). done.
    + split; [|split; [done|]].
      * split; [|done]. intros _. split; [done|]. exists c.
        rewrite Hdocs. split; [|done]. apply elem_of_app. right. by left.
      * intros _ Hnone. destruct (Hnone c); [|done].
        rewrite Hdocs. apply elem_of_app. right. by left.
  - split; [|done]. split; [done|]. by intros [? _].
Qed.

(** X20: on comments with distinct ids, a successful [readComment] stamps
    [readedAt] of the comment with the time of the request and changes
    nothing else; marking it again is refused as already read and keeps
    the first stamp. *)
Theorem readComment_once now now' id docs :
  NoDup (c_id <$> docs) →
  (readComment isValid now id docs).1 = Replied 204 () →
  ∃ l1 c l2,
    docs = l1 ++ c :: l2
    ∧ c_id c = id
    ∧ readedAt c = None
    ∧ (readComment isValid now id docs).2 = l1 ++ set_readedAt now c :: l2
    ∧ readComment isValid now' id (l1 ++ set_readedAt now c :: l2)
      = (Rejected (CaughtError
                     (Thrown "_id" "Este comentário já esta marcado como lido")),
         l1 ++ set_readedAt now c :: l2).
Proof.
  intros Hdup. unfold readComment.
  destruct (isValid id) eqn:Hvalid; simpl; [|done].
  destruct (updateOne_unread_spec id now docs)
    as [[-> Hnone]|(l1 & c & l2 & Hdocs & -> & Hid & Hunread & Hl1)];
    simpl; [done|].
  intros _. exists l1, c, l2. do 4 (split; [done|]).
  destruct (updateOne_unread_spec id now' (l1 ++ set_readedAt now c :: l2))
    as [[-> _]|(k1 & d & k2 & Hsplit & _ & Hdid & Hdunread & _)]; [done|].
  exfalso.
  assert (d ∈ l1 ++ set_readedAt now c :: l2) as Hd.
  { rewrite Hsplit. apply elem_of_app. right. by left. }
  rewrite Hdocs, fmap_app, fmap_cons in Hdup.
  apply NoDup_app in Hdup as (_ & Hapart & Hright).
  apply NoDup_cons in Hright as [Hfresh _].
  apply elem_of_app in Hd as [Hd|[->|Hd]%elem_of_cons].
  - apply (Hapart (c_id d)); [by apply list_elem_of_fmap_2|].
    rewrite Hdid, <- Hid. by left.
  - done.
  - apply Hfresh. rewrite Hid, <- Hdid. by apply list_elem_of_fmap_2.
Qed.



End ReadProperties.

Section HistoryProperties.
Import Comments CommentsRest Scenario.
Context (isValid : string → bool).
Context (articles : gmap string Articles.Article).
Context (users : gmap string Account).

Lemma getOne_Ok_valid id docs found :
  getOne isValid articles users id docs = Ok found → isValid id = true.
Proof. unfold getOne. by destruct (isValid id). Qed.

(** X22: after a successful [answerComment] on a comment, the history of
    that comment (default paging) counts one answer more, and while fewer
    than ten answers were there the new answer is listed last. *)
Theorem getHistory_after_answer newId now id user answer notify docs outbox
    code body docs' outbox' :
  answerComment isValid articles users newId now id user answer notify docs outbox
  = (Sent code body, docs', outbox') →
  ∃ new h h',
    docs' = docs ++ [new]
    ∧ c_id new = newId
    ∧ getHistory isValid id None None docs = Replied 200 h
    ∧ getHistory isValid id None None docs' = Replied 200 h'
    ∧ h_count h' = S (h_count h)
    ∧ (h_count h < 10 → answers h' = answers h ++ [new]).
Proof.
  intros H.
  apply answerComment_Sent in H as (root & article & Hroot & _ & -> & _).
  apply getOne_Ok_valid in Hroot.
  eexists _, _, _. split; [done|]. split; [done|].
  unfold getHistory, paginate. rewrite Hroot. simpl.
  split; [done|]. split; [done|]. simpl.
  rewrite !filter_app, (filter_cons_True _ _ []) by done.
  rewrite filter_nil, length_app. simpl. split; [lia|].
  intros Hfew. change (Z.to_nat (1 * 10 - 10)) with 0. rewrite !drop_0.
  rewrite !take_ge; [done| |]; rewrite ?length_app; simpl; lia.
Qed.

(** A filter that keeps one of the pending rows keeps that row, whatever
    the order in which the rows complete. *)
Lemma filter_settled (P : StatRecord → Prop) `{!∀ r, Decision (P r)}
    (schedule : list nat) (pending : list StatRecord) (row : StatRecord) :
  filter P pending = [row] →
  filter P (settle schedule pending) = [row].
Proof.
  intros Hone. apply Permutation_singleton_r.
  by rewrite (settle_Permutation schedule pending), Hone.
Qed.

Lemma filter_user_rows year monthIndex docs uid (l : list string) :
  NoDup l → uid ∈ l →
  filter (λ r, reference r = Some uid) (user_row articles year monthIndex docs <$> l)
  = [user_row articles year monthIndex docs uid].
Proof.
  induction 1 as [|x l Hx Hl IH]; [by intros ?%elem_of_nil|].
  intros [->|Hin]%elem_of_cons; rewrite fmap_cons, filter_cons; simpl.
  - rewrite decide_True by done. f_equal.
    apply elem_of_nil_inv. intros r [Hr Hin]%list_elem_of_filter.
    apply list_elem_of_fmap in Hin as [y [-> Hy]]. simpl in Hr.
    injection Hr as ->. done.
  - rewrite decide_False; [by apply IH|].
    intros [= ->]. done.
Qed.

(** X23: the statistics read path returns what the job has just written:
    after a run, [getCommentsStats] of a user that is not soft-deleted is
    the row of that user for the month of the run, and without a user it
    is the row of the platform, whatever the table held before. *)
Theorem getCommentsStats_after_job schedule year monthIndex docs table uid :
  uid ∈ active_users users →
  uid ≠ "" →
  getCommentsStats (Some uid)
    (commentsJob articles users schedule year monthIndex docs table)
  = Some (user_row articles year monthIndex docs uid)
  ∧ getCommentsStats None
      (commentsJob articles users schedule year monthIndex docs table)
    = Some (platform_row year monthIndex docs).
Proof.
  intros Hactive Hne. rewrite commentsJob_rows.
  unfold getCommentsStats. rewrite decide_False by done.
  rewrite !filter_app. split.
  - rewrite (filter_settled (λ r, reference r = Some uid) schedule _
               (user_row articles year monthIndex docs uid)).
    + apply last_snoc.
    + rewrite filter_app.
      rewrite filter_user_rows; [|apply NoDup_fst_map_to_list|done].
      by rewrite (filter_cons_False _ _ []).
  - rewrite (filter_settled (λ r, reference r = None) schedule _
               (platform_row year monthIndex docs)).
    + apply last_snoc.
    + rewrite filter_app, (filter_cons_True _ _ []) by done.
      assert (filter (λ r, reference r = None)
                (user_row articles year monthIndex docs <$> active_users users)
              = []) as ->; [|done].
      apply elem_of_nil_inv.
      intros r [Hr [y [-> _]]%list_elem_of_fmap]%list_elem_of_filter. done.
Qed.

End HistoryProperties.

(** * Properties of the other article handlers *)

Section ReadArticleProperties.
Import Articles ArticlesRest.
Context (isValid : string → bool).
Context (themes : gmap string Theme).
Context (categories : gmap string Category).
Context (users : gmap string Account).

Lemma getArticle_found value key db d :
  getArticle isValid themes categories users value key db = inr (Some d) →
  db !! d_id d = Some (d_article d)
  ∧ d = details themes categories users (d_id d, d_article d)
  ∧ (key = "id" → d_id d = value ∧ isValid value = true)
  ∧ (key = "customUri" → customUri (d_article d) = value).
Proof.
  unfold getArticle. case_decide as Hkey; [done|].
  destruct (bool_decide (key = "id") && negb (isValid value)) eqn:Hcast; [done|].
  intros [= Hhead]. apply head_Some_elem_of in Hhead.
  apply list_elem_of_fmap in Hhead as [[k a] [-> Hin]].
  apply elem_of_map_to_list, map_lookup_filter_Some in Hin as [Hk [Hid Huri]].
  simpl in *. split; [done|]. split; [done|]. split; [|done].
  intros ->. split; [by apply Hid|].
  rewrite bool_decide_eq_true_2 in Hcast by done. simpl in Hcast.
  by destruct (isValid value).
Qed.

Lemma filter_by_id (db : gmap string Article) id (Q : string * Article → Prop)
    `{!∀ ka, Decision (Q ka)} :
  (∀ ka, Q ka ↔ ka.1 = id) →
  map_to_list (filter Q db)
  = match db !! id with Some a => [(id, a)] | None => [] end.
Proof.
  intros HQ.
  assert (filter Q db = match db !! id with Some a => {[id := a]} | None => ∅ end)
    as ->.
  { apply map_eq. intros k.
    destruct (db !! id) as [a|] eqn:Ha.
    - destruct (decide (k = id)) as [->|Hk].
      + rewrite lookup_singleton_eq.
        apply map_lookup_filter_Some. split; [done|]. by apply HQ.
      + rewrite lookup_singleton_ne by done.
        apply map_lookup_filter_None. right. intros a' _ Hq.
        apply HQ in Hq. done.
    - rewrite lookup_empty. apply map_lookup_filter_None.
      destruct (decide (k = id)) as [->|Hk]; [by left|].
      right. intros a' _ Hq. apply HQ in Hq. done. }
  destruct (db !! id); [apply map_to_list_singleton|apply map_to_list_empty].
Qed.

(** X24: [getOne] never passes on a failure of [getArticle] (its own
    checks exclude the unknown key and the malformed id), and an article
    it returns is a stored article, joined with its theme, category and
    author, that matches the key (the id, or the vanity path when the
    query says [customUri]) and that the user may see: the user is an
    administrator or the owner. *)
Theorem getOne_returns_matching_visible id user type db :
  (∀ f, getOne isValid themes categories users id user type db ≠ GetFailedLookup f)
  ∧ ∀ d,
      getOne isValid themes categories users id user type db = Json d →
      db !! d_id d = Some (d_article d)
      ∧ d = details themes categories users (d_id d, d_article d)
      ∧ (type ≠ Some "customUri" → d_id d = id ∧ isValid id = true)
      ∧ (type = Some "customUri" → customUri (d_article d) = id)
      ∧ (tagAdmin user = true ∨ userId (d_article d) = u_id user).
Proof.
  unfold getOne. split.
  - intros f.
    destruct (decide (type ≠ Some "customUri")) as [Htype|Htype]; simpl.
    + destruct (isValid id) eqn:Hvalid; simpl; [|done].
      unfold getArticle. case_decide as Hkey; [by destruct Hkey|].
      rewrite Hvalid. simpl.
      destruct (head _); [|done]. destruct (tagAdmin user); [done|].
      destruct (d_author _); [|done]. by case_decide.
    + rewrite andb_false_r. unfold getArticle.
      destruct (head _); [|done]. destruct (tagAdmin user); [done|].
      destruct (d_author _); [|done]. by case_decide.
  - intros d.
    set (key := if decide (type ≠ Some "customUri") then "id" else "customUri").
    destruct (negb (isValid id) && bool_decide (key = "id")); [done|].
    destruct (getArticle isValid themes categories users id key db)
      as [f|[article|]] eqn:Hget; try done.
    apply getArticle_found in Hget as (Hstored & Hdetails & Hid & Huri).
    assert (Json article = Json d →
            tagAdmin user = true ∨ userId (d_article article) = u_id user →
            db !! d_id d = Some (d_article d)
            ∧ d = details themes categories users (d_id d, d_article d)
            ∧ (type ≠ Some "customUri" → d_id d = id ∧ isValid id = true)
            ∧ (type = Some "customUri" → customUri (d_article d) = id)
            ∧ (tagAdmin user = true ∨ userId (d_article d) = u_id user)) as Hdone.
    { intros [= <-] Hsee. do 2 (split; [done|]). split; [|split; [|done]].
      - intros Htype. apply Hid. unfold key. by rewrite decide_True.
      - intros Htype. apply Huri. unfold key. by rewrite decide_False by naive_solver. }
    destruct (tagAdmin user); [intros H; apply Hdone; auto|].
    destruct (d_author article) as [authorId|] eqn:Hauthor; [|done].
    case_decide as Hown; [done|].
    intros H. apply Hdone; [done|]. right.
    rewrite Hdetails in Hauthor. simpl in Hauthor.
    destruct (users !! userId (d_article article)); [|done].
    simpl in Hauthor. injection Hauthor as <-. done.
Qed.

(** X25: by id, [getOne] is a point lookup: for a well-formed id it
    answers not found when no article has the id; otherwise, whatever
    the state of the article (a removed one included), an administrator
    gets it, the owner gets it when the account of the owner still
    exists, another user is refused, and a user who is no administrator
    gets a TypeError when the account of the owner is gone. *)
Theorem getOne_by_id id user type db :
  type ≠ Some "customUri" →
  isValid id = true →
  getOne isValid themes categories users id user type db
  = match db !! id with
    | None => GetFailed (Thrown "id" "Artigo não encontrado")
    | Some a =>
      if tagAdmin user then Json (details themes categories users (id, a))
      else
        match users !! userId a with
        | None => GetFailed (TypeError "Cannot read property '_id' of undefined")
        | Some _ =>
          if decide (u_id user = userId a)
          then Json (details themes categories users (id, a))
          else GetFailed
                 (Thrown "forbidden"
                    "Acesso não autorizado, somente administradores podem visualizar artigos de outros autores")
        end
    end.
Proof.
  intros Htype Hvalid. unfold getOne, getArticle.
  rewrite decide_True by done. rewrite Hvalid. simpl.
  rewrite (filter_by_id db id) by (intros ka; simpl; naive_solver).
  destruct (db !! id) as [a|]; simpl; [|done].
  destruct (tagAdmin user); [done|].
  destruct (users !! userId a); simpl; [|done].
  destruct (decide (u_id user = userId a)).
  - by rewrite decide_False by auto.
  - by rewrite decide_True by auto.
Qed.

End ReadArticleProperties.

Section ListArticleProperties.
Import Articles ArticlesRest.
Context (isValid : string → bool).
Context (regex : string → option (string → bool)).
Context (createdAt : string → Z).
Context (themes : gmap string Theme).
Context (categories : gmap string Category).
Context (users : gmap string Account).

(** What [get] has computed when it answers with a list. *)
Lemma get_Listed user q db arts count limit :
  get isValid regex createdAt themes categories users user q db
  = Listed arts count limit →
  ∃ test type order page rows,
    let matched := filter (selected isValid test user (q_tId q) (q_cId q) type) db in
    regex (if truthy (q_query q) then default "" (q_query q) else "") = Some test
    ∧ type = (if truthy (q_type q) then default "" (q_type q) else "personal")
    ∧ count = size matched
    ∧ rows = merge_sort (in_order createdAt order)
               (details themes categories users <$> map_to_list matched)
    ∧ (1 ≤ page)%Z
    ∧ (q_page q = None → page = 1%Z)
    ∧ (1 ≤ limit ≤ 100)%Z
    ∧ arts = take (Z.to_nat limit) (drop (Z.to_nat (page * limit - limit)) rows).
Proof.
  unfold get.
  set (query := if truthy (q_query q) then _ else _).
  set (type := if truthy (q_type q) then _ else _).
  set (order := if truthy (q_order q) then _ else _).
  set (page0 := match q_page q with Some _ => _ | None => _ end).
  set (limit0 := match q_limit q with Some _ => _ | None => _ end).
  set (page := if decide (page0 < 1)%Z then _ else _).
  set (limit1 := if decide (100 < limit0)%Z then _ else _).
  destruct (regex query) as [test|]; [|done].
  unfold Comments.paginate. case_decide as Hpaging; [|done].
  intros [= <- <- <-].
  eexists test, type, order, page, _. simpl.
  do 3 (split; [done|]). split; [reflexivity|]. split.
  { unfold page. case_decide; lia. }
  split.
  { intros Hnone. unfold page, page0. rewrite Hnone. done. }
  split; [|done].
  destruct Hpaging as [_ Hpos]. split; [lia|].
  unfold limit1. case_decide; lia.
Qed.

(** X26: a list that [get] answers with holds stored articles only, none
    of them removed, and only articles of the user unless the user is an
    administrator who asked for [type=all]; the limit reported is between
    1 and 100, the list is no longer than the limit nor than the count
    reported, and without a page parameter it holds every match when the
    count does not exceed the limit. *)
Theorem get_lists_only_visible user q db arts count limit :
  get isValid regex createdAt themes categories users user q db
  = Listed arts count limit →
  (1 ≤ limit ≤ 100)%Z
  ∧ length arts ≤ Z.to_nat limit
  ∧ length arts ≤ count
  ∧ (q_page q = None → count ≤ Z.to_nat limit → length arts = count)
  ∧ ∀ d, d ∈ arts →
      db !! d_id d = Some (d_article d)
      ∧ state (d_article d) ≠ "removed"
      ∧ (userId (d_article d) = u_id user
         ∨ (tagAdmin user = true ∧ q_type q = Some "all")).
Proof.
  intros H.
  apply get_Listed in H
    as (test & type & order & page & rows & Hregex & Htype & -> & Hrows
        & Hpage & Hfirst & Hlimit & ->).
  assert (length rows
          = size (filter (selected isValid test user (q_tId q) (q_cId q) type) db))
    as Hlen.
  { rewrite Hrows, merge_sort_Permutation, length_fmap. apply length_map_to_list. }
  split; [done|]. split; [rewrite length_take; lia|]. split.
  { rewrite length_take, length_drop. lia. }
  split.
  { intros Hnone Hfew. rewrite (Hfirst Hnone).
    replace (1 * limit - limit)%Z with 0%Z by lia. simpl.
    rewrite drop_0, take_ge by lia. done. }
  intros d Hd.
  apply subseteq_take, subseteq_drop in Hd.
  rewrite Hrows, merge_sort_Permutation in Hd.
  apply list_elem_of_fmap in Hd as [[k a] [-> Hin]].
  apply elem_of_map_to_list, map_lookup_filter_Some in Hin
    as [Hk (_ & _ & _ & Hstate & Howner)].
  simpl in *. do 2 (split; [done|]).
  unfold owner_filter in Howner.
  destruct (bool_decide (type = "all") && tagAdmin user) eqn:Hall.
  - right. apply andb_true_iff in Hall as [Hall Hadm].
    apply bool_decide_eq_true in Hall. split; [done|].
    rewrite Htype in Hall. unfold truthy in Hall.
    destruct (q_type q) as [t|]; [|done]. simpl in Hall.
    case_bool_decide; [by subst|done].
  - left. by apply bool_decide_eq_true in Howner.
Qed.

(** X27: the count that [get] reports is the number of all matches: it
    does not depend on the page, the limit or the order of the request,
    so two requests with the same search text, theme, category and type
    report the same count. *)
Theorem get_count_ignores_paging user q q' db arts count limit arts' count' limit' :
  q_query q' = q_query q →
  q_tId q' = q_tId q →
  q_cId q' = q_cId q →
  q_type q' = q_type q →
  get isValid regex createdAt themes categories users user q db
  = Listed arts count limit →
  get isValid regex createdAt themes categories users user q' db
  = Listed arts' count' limit' →
  count' = count.
Proof.
  intros Hquery Htid Hcid Htype H H'.
  apply get_Listed in H
    as (test & type & order & page & rows & Hregex & -> & -> & _).
  apply get_Listed in H'
    as (test' & type' & order' & page' & rows' & Hregex' & -> & -> & _).
  rewrite Hquery, Hregex in Hregex'. injection Hregex' as <-.
  by rewrite Htid, Hcid, Htype.
Qed.

End ListArticleProperties.

Section ImageProperties.
Import Articles ArticlesRest.
Context (getBucketKeyFromUrl : string → Result string).
Context (deleteFails : string → bool).

Lemma image_key_cases type :
  type ∈ ["logo"; "secondary"; "header"] →
  type +:+ "Img" = "logoImg" ∨ type +:+ "Img" = "secondaryImg"
  ∨ type +:+ "Img" = "headerImg".
Proof. intros Hin. set_solver. Qed.

Lemma get_set_image type v a :
  type ∈ ["logo"; "secondary"; "header"] →
  get_image (type +:+ "Img") (set_image (type +:+ "Img") v a) = v.
Proof.
  intros [->|[->|[->|?%elem_of_nil]%elem_of_cons]%elem_of_cons]%elem_of_cons;
    done.
Qed.

Lemma get_set_image_ne key key' v a :
  key' ≠ key → get_image key' (set_image key v a) = get_image key' a.
Proof.
  intros Hne. unfold get_image, set_image. simpl.
  repeat case_decide; congruence.
Qed.

(** X28: when [saveImage] answers with the new image, the kind is one of
    logo, secondary and header, the file was uploaded, and the article
    holds the location of the file under the key of that kind; its other
    two images, its state, owner and title, and all other articles are
    unchanged; and the object store was asked to delete exactly the
    previous image of that kind, when there was one. *)
Theorem saveImage_effect id type upload db deleted key value db' deleted' :
  saveImage getBucketKeyFromUrl id type upload db deleted
  = (ImageJson key value, db', deleted') →
  type ∈ ["logo"; "secondary"; "header"]
  ∧ key = type +:+ "Img"
  ∧ upload = Uploaded value
  ∧ ∃ article article',
      db !! id = Some article
      ∧ db' !! id = Some article'
      ∧ get_image key article' = Some value
      ∧ (∀ other, other ≠ key → get_image other article' = get_image other article)
      ∧ state article' = state article
      ∧ userId article' = userId article
      ∧ title article' = title article
      ∧ (∀ k, k ≠ id → db' !! k = db !! k)
      ∧ (truthy (get_image key article) = false → deleted' = deleted)
      ∧ (∀ url, get_image key article = Some url → url ≠ "" →
           ∃ old, getBucketKeyFromUrl url = Ok old ∧ deleted' = deleted ++ [old]).
Proof.
  unfold saveImage, findOne, updateOne.
  case_decide as Hkind; [done|].
  destruct (db !! id) as [article|] eqn:Hart; [|done].
  destruct upload as [| |imgValue]; try done.
  destruct (truthy (get_image (type +:+ "Img") article)) eqn:Hold.
  - destruct (getBucketKeyFromUrl _) as [old|e] eqn:Holdkey; [|done].
    intros [= <- <- <- <-]. do 3 (split; [done|]).
    exists article. eexists. split; [done|].
    split; [by rewrite lookup_alter_eq, Hart|].
    split; [by apply get_set_image|].
    split; [intros other Hother; by apply get_set_image_ne|].
    do 3 (split; [done|]).
    split; [intros k Hk; by rewrite lookup_alter_ne|].
    split; [intros Hfalse; congruence|].
    intros url Hurl _. rewrite Hurl in Holdkey. simpl in Holdkey. eauto.
  - intros [= <- <- <- <-]. do 3 (split; [done|]).
    exists article. eexists. split; [done|].
    split; [by rewrite lookup_alter_eq, Hart|].
    split; [by apply get_set_image|].
    split; [intros other Hother; by apply get_set_image_ne|].
    do 3 (split; [done|]).
    split; [intros k Hk; by rewrite lookup_alter_ne|].
    split; [done|].
    intros url Hurl Hne. rewrite Hurl in Hold. simpl in Hold.
    by rewrite bool_decide_eq_true_2 in Hold.
Qed.

(** X29: when the article already has an image of the kind and the
    bucket helper cannot read its address, [saveImage] returns from the
    upload callback without answering: the file is uploaded, yet no
    response is sent, the new location is not stored and nothing is
    deleted. *)
Theorem saveImage_unreadable_old_image id type location db deleted article url e :
  type ∈ ["logo"; "secondary"; "header"] →
  db !! id = Some article →
  get_image (type +:+ "Img") article = Some url →
  url ≠ "" →
  getBucketKeyFromUrl url = Err e →
  saveImage getBucketKeyFromUrl id type (Uploaded location) db deleted
  = (NoResponse, db, deleted).
Proof.
  intros Hkind Hart Hurl Hne Hkey. unfold saveImage, findOne.
  rewrite decide_False by (intros Hno; done).
  rewrite Hart, Hurl. simpl.
  rewrite (bool_decide_eq_true_2 (url ≠ "")) by done.
  by rewrite Hkey.
Qed.

(** X30: when [removeImage] answers 204, the article had an image of the
    kind, the object store was asked to delete it and did, and the
    reference is cleared while the other images and all other articles
    stay; asking again is refused with "Imagem ja removida" under the
    name of the image key. *)
Theorem removeImage_effect id type db deleted code db' deleted' :
  removeImage getBucketKeyFromUrl deleteFails id type db deleted
  = (ImageStatus code, db', deleted') →
  ∃ article article' url old,
    type ∈ ["logo"; "secondary"; "header"]
    ∧ db !! id = Some article
    ∧ get_image (type +:+ "Img") article = Some url
    ∧ getBucketKeyFromUrl url = Ok old
    ∧ deleteFails old = false
    ∧ deleted' = deleted ++ [old]
    ∧ db' !! id = Some article'
    ∧ get_image (type +:+ "Img") article' = None
    ∧ (∀ other, other ≠ type +:+ "Img" →
         get_image other article' = get_image other article)
    ∧ (∀ k, k ≠ id → db' !! k = db !! k)
    ∧ removeImage getBucketKeyFromUrl deleteFails id type db' deleted'
      = (ImageFailed (Thrown (type +:+ "Img") "Imagem ja removida"), db', deleted').
Proof.
  unfold removeImage at 1. unfold findOne, updateOne.
  case_decide as Hkind; [done|].
  destruct (db !! id) as [article|] eqn:Hart; [|done].
  destruct (get_image (type +:+ "Img") article) as [url|] eqn:Hurl; [|done].
  simpl. destruct (bool_decide (url ≠ "")) eqn:Hne; [|done]. simpl.
  destruct (getBucketKeyFromUrl url) as [old|e] eqn:Hold; [|done].
  destruct (deleteFails old) eqn:Hfails; [done|].
  intros [= <- <- <-].
  exists article. eexists. exists url, old.
  do 6 (split; [done|]).
  split; [by rewrite lookup_alter_eq, Hart|].
  split; [by apply get_set_image|].
  split; [intros other Hother; by apply get_set_image_ne|].
  split; [intros k Hk; by rewrite lookup_alter_ne|].
  unfold removeImage, findOne.
  rewrite decide_False by (intros Hno; done).
  rewrite lookup_alter_eq, Hart. simpl.
  by rewrite get_set_image.
Qed.

End ImageProperties.

(** ** The further properties on the example data *)

(** Ana saves a new order and the notification flag: the answer and the
    next [get] agree. *)
Lemma save_response_matches_get_witness :
  ∃ r,
    CommentSettings.userId r = u_id Scenario.ana
    ∧ (CommentSettings.save Scenario.no_defaults 1613000000000 Scenario.ana
         Scenario.oldest_first_and_notify Scenario.accounts Extra.settings_table).1
      = CommentSettings.Sent 200
          (Some (CommentSettings.settings_of r (Some (1613000000000 + 2592000000)%Z)))
    ∧ CommentSettings.get 1613000001000 None Scenario.ana Scenario.accounts
        (CommentSettings.save Scenario.no_defaults 1613000000000 Scenario.ana
           Scenario.oldest_first_and_notify Scenario.accounts Extra.settings_table).2
      = CommentSettings.Sent 200 (Some (CommentSettings.settings_of r None)).
Proof.
  apply (save_response_matches_get Scenario.no_defaults 1613000000000
           1613000001000 Scenario.ana Scenario.oldest_first_and_notify
           Scenario.accounts Extra.settings_table).
  - vm_compute. reflexivity.
  - vm_compute. reflexivity.
Defined.

(** The settings of the administrator, second in the table, are untouched
    by Ana's save. *)
Lemma save_keeps_other_rows_witness :
  (CommentSettings.save Scenario.no_defaults 1613000000000 Scenario.ana
     Scenario.oldest_first_and_notify Scenario.accounts Extra.settings_table).2
    !! 1
  = Some Extra.root_settings.
Proof.
  apply (save_keeps_other_rows Scenario.no_defaults 1613000000000 Scenario.ana
           Scenario.oldest_first_and_notify Scenario.accounts
           Extra.settings_table 1 Extra.root_settings).
  - reflexivity.
  - vm_compute. discriminate.
Defined.

Lemma save_twice_same_settings_witness :
  ∃ r,
    (CommentSettings.save Scenario.no_defaults 1613000000000 Scenario.ana
       Scenario.oldest_first_and_notify Scenario.accounts Extra.settings_table).1
    = CommentSettings.Sent 200
        (Some (CommentSettings.settings_of r (Some (1613000000000 + 2592000000)%Z)))
    ∧ (CommentSettings.save Scenario.no_defaults 1613000005000 Scenario.ana
         Scenario.oldest_first_and_notify Scenario.accounts
         (CommentSettings.save Scenario.no_defaults 1613000000000 Scenario.ana
            Scenario.oldest_first_and_notify Scenario.accounts
            Extra.settings_table).2).1
      = CommentSettings.Sent 200
          (Some (CommentSettings.settings_of r (Some (1613000005000 + 2592000000)%Z))).
Proof.
  apply (save_twice_same_settings Scenario.no_defaults 1613000000000
           1613000005000 Scenario.ana Scenario.oldest_first_and_notify
           Scenario.accounts Extra.settings_table true).
  - vm_compute. reflexivity.
  - vm_compute. reflexivity.
  - reflexivity.
Defined.

(** Without the flag the second save differs: Ana's stored page size is
    10 and her notifications are off; a body that only asks for ascending
    order turns them on at the first save already, reading the page
    size. *)
Example save_without_notify_reads_limit :
  let body :=
    {| CommentSettings.b_notify := None; CommentSettings.b_limit := None;
       CommentSettings.b_order := Some "asc"; CommentSettings.b_type := None;
       CommentSettings.b_answersOrder := None;
       CommentSettings.b_answersType := None |} in
  CommentSettings.s_notify
    <$> match (CommentSettings.save Scenario.no_defaults 1613000000000
                 Scenario.ana body Scenario.accounts Extra.settings_table).1 with
        | CommentSettings.Sent _ s => s
        | CommentSettings.Failed _ => None
        end
  = Some true.
Proof. vm_compute. reflexivity. Qed.

(** Ana's listing, two comments by page: the second page holds her
    third and fourth root comments. *)
Lemma listing_pages_tile_witness :
  (λ v, Comments.c_id (Comments.v_comment v))
  <$> Comments.comments
        (Comments.getAllComments Scenario.hex24 Scenario.shelf Scenario.accounts
           Scenario.ana 2 2 Scenario.thread)
  = [Scenario.cid1; Scenario.cid5]
  ∧ take (Z.to_nat (2 * 2))
      (Comments.rowsAll Scenario.hex24 Scenario.shelf Scenario.accounts
         Scenario.ana Scenario.thread)
    = take (Z.to_nat ((2 - 1) * 2))
        (Comments.rowsAll Scenario.hex24 Scenario.shelf Scenario.accounts
           Scenario.ana Scenario.thread)
      ++ Comments.comments
           (Comments.getAllComments Scenario.hex24 Scenario.shelf
              Scenario.accounts Scenario.ana 2 2 Scenario.thread).
Proof.
  split; [vm_compute; reflexivity|].
  destruct (listing_pages_tile Scenario.hex24 Scenario.shelf Scenario.accounts
              Scenario.ana 2 2 Scenario.thread)
    as [(_ & _ & _ & Htile) _]; [lia|lia|].
  exact Htile.
Defined.

(** Ana answers [cid1] with [notify=yes]: one message goes to the
    mailer. *)
Lemma answerComment_notifies_on_yes_witness :
  let call :=
    Comments.answerComment Scenario.hex24 Scenario.shelf Scenario.accounts
      (Comments.c_id Scenario.reply) (Comments.createdAt Scenario.reply)
      Scenario.cid1 Scenario.ana (Comments.message Scenario.reply) (Some "yes")
      Scenario.thread [] in
  ∃ root new,
    Comments.getOne Scenario.hex24 Scenario.shelf Scenario.accounts
      Scenario.cid1 Scenario.thread = Ok (Some root)
    ∧ Scenario.thread ++ [Scenario.reply] = Scenario.thread ++ [new]
    ∧ call.2 = [] ++ [{| Comments.template := "answer-sent";
                         Comments.payload_comment := root;
                         Comments.payload_answer := new |}].
Proof.
  intros call.
  refine (proj1
    (answerComment_notifies_on_yes Scenario.hex24 Scenario.shelf
       Scenario.accounts (Comments.c_id Scenario.reply)
       (Comments.createdAt Scenario.reply) Scenario.cid1 Scenario.ana
       (Comments.message Scenario.reply) (Some "yes") Scenario.thread []
       201%Z None (Scenario.thread ++ [Scenario.reply]) call.2 _) eq_refl).
  vm_compute. reflexivity.
Defined.

Lemma answerComment_keeps_root_counts_witness :
  Comments.countAll Scenario.hex24 Scenario.shelf Scenario.accounts Scenario.ana
    (Scenario.thread ++ [Scenario.reply])
  = Comments.countAll Scenario.hex24 Scenario.shelf Scenario.accounts
      Scenario.ana Scenario.thread
  ∧ Comments.countNotReaded Scenario.hex24 Scenario.shelf Scenario.accounts
      Scenario.ana (Scenario.thread ++ [Scenario.reply])
    = Comments.countNotReaded Scenario.hex24 Scenario.shelf Scenario.accounts
        Scenario.ana Scenario.thread
  ∧ Comments.countOnlyReaded Scenario.hex24 Scenario.shelf Scenario.accounts
      Scenario.ana (Scenario.thread ++ [Scenario.reply])
    = Comments.countOnlyReaded Scenario.hex24 Scenario.shelf Scenario.accounts
        Scenario.ana Scenario.thread.
Proof.
  refine (answerComment_keeps_root_counts Scenario.hex24 Scenario.shelf
            Scenario.accounts (Comments.c_id Scenario.reply)
            (Comments.createdAt Scenario.reply) Scenario.cid1 Scenario.ana
            (Comments.message Scenario.reply) None Scenario.thread []
            201%Z None (Scenario.thread ++ [Scenario.reply]) [] Scenario.ana _).
  vm_compute. reflexivity.
Defined.

(** Ana answers the id [id9], which no comment has. *)
Lemma answerComment_without_root_witness :
  Comments.answerComment Scenario.hex24 Scenario.shelf Scenario.accounts
    (Comments.c_id Scenario.reply) (Comments.createdAt Scenario.reply)
    Scenario.id9 Scenario.ana "Thank you" None Scenario.thread []
  = (Comments.Failed
       (if Scenario.hex24 Scenario.id9
        then TypeError "Cannot read property 'article' of undefined"
        else Thrown "answerOf" "Comentário não encontrado"),
     Scenario.thread, []).
Proof.
  apply (answerComment_without_root Scenario.hex24 Scenario.shelf
           Scenario.accounts (Comments.c_id Scenario.reply)
           (Comments.createdAt Scenario.reply) Scenario.id9 Scenario.ana
           "Thank you" None Scenario.thread []).
  - vm_compute. discriminate.
  - intros c Hc Hid. exfalso. revert Hid.
    repeat (apply elem_of_cons in Hc as [->|Hc]; [discriminate|]).
    by apply elem_of_nil in Hc.
Defined.

(** The unread root comment [cid1] is marked read, once. *)
Lemma readComment_once_witness :
  ∃ l1 c l2,
    Scenario.thread = l1 ++ c :: l2
    ∧ Comments.c_id c = Scenario.cid1
    ∧ Comments.readedAt c = None
    ∧ (CommentsRest.readComment Scenario.hex24 1613000000000 Scenario.cid1
         Scenario.thread).2
      = l1 ++ CommentsRest.set_readedAt 1613000000000 c :: l2
    ∧ CommentsRest.readComment Scenario.hex24 1613000005000 Scenario.cid1
        (l1 ++ CommentsRest.set_readedAt 1613000000000 c :: l2)
      = (CommentsRest.Rejected
           (CommentsRest.CaughtError
              (Thrown "_id" "Este comentário já esta marcado como lido")),
         l1 ++ CommentsRest.set_readedAt 1613000000000 c :: l2).
Proof.
  apply (readComment_once Scenario.hex24 1613000000000 1613000005000
           Scenario.cid1 Scenario.thread).
  - apply (bool_decide_unpack _). vm_compute. exact I.
  - vm_compute. reflexivity.
Defined.


Lemma getHistory_after_answer_witness :
  ∃ new h h',
    Scenario.thread ++ [Scenario.reply] = Scenario.thread ++ [new]
    ∧ Comments.c_id new = Comments.c_id Scenario.reply
    ∧ CommentsRest.getHistory Scenario.hex24 Scenario.cid1 None None
        Scenario.thread = CommentsRest.Replied 200 h
    ∧ CommentsRest.getHistory Scenario.hex24 Scenario.cid1 None None
        (Scenario.thread ++ [Scenario.reply]) = CommentsRest.Replied 200 h'
    ∧ CommentsRest.h_count h' = S (CommentsRest.h_count h)
    ∧ (CommentsRest.h_count h < 10 →
       CommentsRest.answers h' = CommentsRest.answers h ++ [new]).
Proof.
  refine (getHistory_after_answer Scenario.hex24 Scenario.shelf
            Scenario.accounts (Comments.c_id Scenario.reply)
            (Comments.createdAt Scenario.reply) Scenario.cid1 Scenario.ana
            (Comments.message Scenario.reply) None Scenario.thread []
            201%Z None (Scenario.thread ++ [Scenario.reply]) [] _).
  vm_compute. reflexivity.
Defined.

(** After the job of February 2021, on which the platform row was
    inserted first, Ana's statistics are her row of that run. *)
Lemma getCommentsStats_after_job_witness :
  CommentsRest.getCommentsStats (Some (u_id Scenario.ana))
    (Comments.commentsJob Scenario.shelf Scenario.accounts [2] 2021 1
       Scenario.thread [])
  = Some (Scenario.user_row Scenario.shelf 2021 1 Scenario.thread
            (u_id Scenario.ana))
  ∧ CommentsRest.getCommentsStats None
      (Comments.commentsJob Scenario.shelf Scenario.accounts [2] 2021 1
         Scenario.thread [])
    = Some (Scenario.platform_row 2021 1 Scenario.thread).
Proof.
  apply (getCommentsStats_after_job Scenario.shelf Scenario.accounts [2] 2021 1
           Scenario.thread [] (u_id Scenario.ana)).
  - apply (bool_decide_unpack _). vm_compute. exact I.
  - discriminate.
Defined.

(** Ana reads her published article [id3] by id. *)
Lemma getOne_by_id_witness :
  ArticlesRest.getOne Scenario.hex24 Extra.themes Extra.categories
    Scenario.accounts Scenario.id3 Scenario.ana None Scenario.shelf
  = match Scenario.shelf !! Scenario.id3 with
    | None => ArticlesRest.GetFailed (Thrown "id" "Artigo não encontrado")
    | Some a =>
      if tagAdmin Scenario.ana
      then ArticlesRest.Json
             (ArticlesRest.details Extra.themes Extra.categories
                Scenario.accounts (Scenario.id3, a))
      else
        match Scenario.accounts !! Articles.userId a with
        | None =>
          ArticlesRest.GetFailed
            (TypeError "Cannot read property '_id' of undefined")
        | Some _ =>
          if decide (u_id Scenario.ana = Articles.userId a)
          then ArticlesRest.Json
                 (ArticlesRest.details Extra.themes Extra.categories
                    Scenario.accounts (Scenario.id3, a))
          else ArticlesRest.GetFailed
                 (Thrown "forbidden"
                    "Acesso não autorizado, somente administradores podem visualizar artigos de outros autores")
        end
    end.
Proof.
  apply (getOne_by_id Scenario.hex24 Extra.themes Extra.categories
           Scenario.accounts Scenario.id3 Scenario.ana None Scenario.shelf).
  - discriminate.
  - vm_compute. reflexivity.
Defined.

(** Ana lists her articles without any parameter: the four of them fit
    the default limit of six. *)
Lemma get_lists_only_visible_witness :
  match ArticlesRest.get Scenario.hex24 Extra.any_text Extra.same_time
          Extra.themes Extra.categories Scenario.accounts Scenario.ana
          Extra.plain_query Scenario.shelf with
  | ArticlesRest.Listed arts count limit =>
    limit = 6%Z ∧ count = 4 ∧ length arts = count
    ∧ ∀ d, d ∈ arts →
        Articles.userId (ArticlesRest.d_article d) = u_id Scenario.ana
        ∨ (tagAdmin Scenario.ana = true
           ∧ ArticlesRest.q_type Extra.plain_query = Some "all")
  | ArticlesRest.ListFailed => False
  end.
Proof.
  destruct (ArticlesRest.get Scenario.hex24 Extra.any_text Extra.same_time
              Extra.themes Extra.categories Scenario.accounts Scenario.ana
              Extra.plain_query Scenario.shelf)
    as [arts count limit|] eqn:Hget.
  - destruct (get_lists_only_visible Scenario.hex24 Extra.any_text
                Extra.same_time Extra.themes Extra.categories Scenario.accounts
                Scenario.ana Extra.plain_query Scenario.shelf arts count limit
                Hget)
      as (_ & _ & _ & Hall & Hvisible).
    vm_compute in Hget. injection Hget as <- <- <-.
    split; [reflexivity|]. split; [reflexivity|]. split; [reflexivity|].
    intros d Hd. apply (Hvisible d Hd).
  - vm_compute in Hget. discriminate Hget.
Defined.

(** The second page of two, oldest first, reports the same count as the
    plain listing. *)
Lemma get_count_ignores_paging_witness :
  match ArticlesRest.get Scenario.hex24 Extra.any_text Extra.same_time
          Extra.themes Extra.categories Scenario.accounts Scenario.ana
          Extra.plain_query Scenario.shelf,
        ArticlesRest.get Scenario.hex24 Extra.any_text Extra.same_time
          Extra.themes Extra.categories Scenario.accounts Scenario.ana
          Extra.second_page_query Scenario.shelf with
  | ArticlesRest.Listed _ count _, ArticlesRest.Listed arts' count' _ =>
    count' = count ∧ length arts' = 2
  | _, _ => False
  end.
Proof.
  destruct (ArticlesRest.get Scenario.hex24 Extra.any_text Extra.same_time
              Extra.themes Extra.categories Scenario.accounts Scenario.ana
              Extra.plain_query Scenario.shelf)
    as [arts count limit|] eqn:Hget;
    [|vm_compute in Hget; discriminate Hget].
  destruct (ArticlesRest.get Scenario.hex24 Extra.any_text Extra.same_time
              Extra.themes Extra.categories Scenario.accounts Scenario.ana
              Extra.second_page_query Scenario.shelf)
    as [arts' count' limit'|] eqn:Hget';
    [|vm_compute in Hget'; discriminate Hget'].
  split.
  - apply (get_count_ignores_paging Scenario.hex24 Extra.any_text
             Extra.same_time Extra.themes Extra.categories Scenario.accounts
             Scenario.ana Extra.plain_query Extra.second_page_query
             Scenario.shelf arts count limit arts' count' limit');
      (reflexivity || assumption).
  - vm_compute in Hget'. injection Hget' as <- _ _. reflexivity.
Defined.

(** A new logo replaces the one of the gallery; the old one is handed to
    the object store for deletion. *)
Lemma saveImage_effect_witness :
  let call :=
    ArticlesRest.saveImage Extra.key_of_url Scenario.id1 "logo"
      (ArticlesRest.Uploaded "logo-2.png") Extra.gallery [] in
  call.2 = ["logo-1.png"]
  ∧ ∃ article',
      call.1.2 !! Scenario.id1 = Some article'
      ∧ ArticlesRest.get_image "logoImg" article' = Some "logo-2.png".
Proof.
  intros call. split; [vm_compute; reflexivity|].
  destruct (saveImage_effect Extra.key_of_url Scenario.id1 "logo"
              (ArticlesRest.Uploaded "logo-2.png") Extra.gallery []
              "logoImg" "logo-2.png" call.1.2 call.2)
    as (_ & _ & _ & article & article' & _ & Hafter & Himage & _).
  - vm_compute. reflexivity.
  - exists article'. split; [exact Hafter|exact Himage].
Defined.

Lemma saveImage_unreadable_old_image_witness :
  ArticlesRest.saveImage Extra.key_of_url Scenario.id1 "logo"
    (ArticlesRest.Uploaded "logo-2.png") Extra.broken_gallery []
  = (ArticlesRest.NoResponse, Extra.broken_gallery, []).
Proof.
  apply (saveImage_unreadable_old_image Extra.key_of_url Scenario.id1 "logo"
           "logo-2.png" Extra.broken_gallery [] (Extra.with_logo "broken")
           "broken" (Thrown "url" "invalid")).
  - apply (bool_decide_unpack _). vm_compute. exact I.
  - vm_compute. reflexivity.
  - reflexivity.
  - discriminate.
  - reflexivity.
Defined.

(** The logo of the gallery is removed; removing it again is refused. *)
Lemma removeImage_effect_witness :
  let call :=
    ArticlesRest.removeImage Extra.key_of_url Extra.deletes_succeed
      Scenario.id1 "logo" Extra.gallery [] in
  call.2 = ["logo-1.png"]
  ∧ ArticlesRest.removeImage Extra.key_of_url Extra.deletes_succeed
      Scenario.id1 "logo" call.1.2 call.2
    = (ArticlesRest.ImageFailed (Thrown ("logo" +:+ "Img") "Imagem ja removida"),
       call.1.2, call.2).
Proof.
  intros call. split; [vm_compute; reflexivity|].
  destruct (removeImage_effect Extra.key_of_url Extra.deletes_succeed
              Scenario.id1 "logo" Extra.gallery [] 204%Z call.1.2 call.2)
    as (article & article' & url & old & _ & _ & _ & _ & _ & _ & _ & _ & _ & _
        & Hagain).
  - vm_compute. reflexivity.
  - exact Hagain.
Defined.
